(** * pychess_svg: a shallow embedding of the board renderer

    The development follows [src/pychess_svg.py].  Python values are
    modelled as follows.

    - [str] is [string]; a character is the code point of the same number
      (code points below 256).  Upper-casing a character outside ASCII,
      which may leave that range, is left to the environment.
    - [int] is [Z].  CPython refuses to read or write, in a base that is
      no power of two, an integer of more than 4300 digits: [int(s)]
      models the limit; writing an integer ([str], [%d]) is total here,
      and the statements that give the outcome of a whole call of
      [board] assume pixel sizes of at most 4300 digits, which is what
      the first integers written by [board] need.
    - [float] is [Q]: arithmetic is exact.  Every number the renderer
      computes before [math.hypot] is an integer or a half-integer scaled
      by small constants, so for boards of any realistic size binary64
      agrees with the exact value on the comparisons made here.
    - a [dict] used as a lookup table is a [gmap]; a [dict] whose insertion
      order is observable (element attributes, the caller's color scheme)
      is an association list updated in place.
    - exceptions are the [Raise] case of [result]; [print] appends to a log.
    - the library functions the module calls but does not define (XML
      parsing, float parsing and printing, the file system, svgutils,
      base64, [math.hypot], the [pychess] tables) are the fields of an
      environment record [Env]. *)

From Stdlib Require Import ZArith QArith Qabs Lqa Ascii String List Lia.
From stdpp Require Import base option list strings gmap pretty.

Local Open Scope string_scope.
Local Open Scope Z_scope.

(** ** Exceptions *)

Inductive exn : Type :=
| KeyError
| ValueError
| AttributeError
| IndexError
| TypeError
| ZeroDivisionError
| OSError
| ParseError.

Global Instance exn_eq_dec : EqDecision exn.
Proof. solve_decision. Defined.

Inductive result (A : Type) : Type :=
| Ok (a : A)
| Raise (e : exn).
Global Arguments Ok {A} a.
Global Arguments Raise {A} e.

Definition bind {A B} (r : result A) (k : A -> result B) : result B :=
  match r with
  | Ok a => k a
  | Raise e => Raise e
  end.

Notation "x <- r ;; k" := (bind r (fun x => k))
  (at level 100, r at next level, right associativity).

Definition of_option {A} (e : exn) (o : option A) : result A :=
  match o with Some a => Ok a | None => Raise e end.

(** ** Python strings *)

Module Py.

Definition len (s : string) : Z := Z.of_nat (String.length s).

(** Normalisation of one bound of a slice [s[i:j]] on a sequence of
    length [n]: negative bounds count from the end, and both are clamped. *)
Definition clamp (n i : Z) : Z :=
  if i <? 0 then Z.max 0 (n + i) else Z.min i n.

Definition slice (s : string) (i j : option Z) : string :=
  let n := len s in
  let lo := from_option (clamp n) 0 i in
  let hi := from_option (clamp n) n j in
  substring (Z.to_nat lo) (Z.to_nat (hi - lo)) s.

(** [s[i]]: raises [IndexError] out of range. *)
Definition item (s : string) (i : Z) : result ascii :=
  let n := len s in
  let k := if i <? 0 then n + i else i in
  if (k <? 0) || (n <=? k) then Raise IndexError
  else of_option IndexError (String.get (Z.to_nat k) s).

Fixpoint find_from (sub s : string) (i : Z) : Z :=
  if String.prefix sub s then i
  else match s with
       | EmptyString => -1
       | String _ s' => find_from sub s' (i + 1)
       end.

(** [s.find(sub)] *)
Definition find (sub s : string) : Z := find_from sub s 0.

(** [sub in s] *)
Definition contains (sub s : string) : bool := 0 <=? find sub s.

Definition startswith (p s : string) : bool := String.prefix p s.

Definition endswith (p s : string) : bool :=
  String.prefix (String.rev p) (String.rev s).

(** [str.isspace] on one character. *)
Definition isspace (c : ascii) : bool :=
  let n := Z.of_N (N_of_ascii c) in
  ((9 <=? n) && (n <=? 13)) || ((28 <=? n) && (n <=? 32))
  || (n =? 133) || (n =? 160).

Fixpoint lstrip (s : string) : string :=
  match s with
  | String c s' => if isspace c then lstrip s' else s
  | EmptyString => EmptyString
  end.

Fixpoint lstrip_dots (s : string) : string :=
  match s with
  | String "." s' => lstrip_dots s'
  | _ => s
  end.

(** [s.strip()] *)
Definition strip (s : string) : string :=
  String.rev (lstrip (String.rev (lstrip s))).

(** [c.upper()] on an ASCII character. *)
Definition upper_char (c : ascii) : ascii :=
  let n := N_of_ascii c in
  if ((97 <=? n) && (n <=? 122))%N then ascii_of_N (n - 32) else c.

(** Below 256 the capital letters are A-Z and the letters from 192 to
    222 except the multiplication sign 215; each is 32 below its small
    letter. *)
Definition lower_char (c : ascii) : ascii :=
  let n := N_of_ascii c in
  if ((65 <=? n) && (n <=? 90))%N
     || ((192 <=? n) && (n <=? 222) && negb (n =? 215))%N
  then ascii_of_N (n + 32) else c.

Fixpoint map_chars (f : ascii -> ascii) (s : string) : string :=
  match s with
  | EmptyString => EmptyString
  | String c s' => String (f c) (map_chars f s')
  end.

(** [s.lower()] *)
Definition lower : string -> string := map_chars lower_char.

(** [ord(c)] *)
Definition ord (c : ascii) : Z := Z.of_N (N_of_ascii c).

(** [" ".join(l)] and friends. *)
Fixpoint join (sep : string) (l : list string) : string :=
  match l with
  | [] => EmptyString
  | [x] => x
  | x :: l' => x +:+ sep +:+ join sep l'
  end.

(** [s.split()]: the words between runs of blanks. *)
Fixpoint split_go (cur : option string) (s : string) : list string :=
  match s with
  | EmptyString => option_list (String.rev <$> cur)
  | String c s' =>
      if isspace c
      then app (option_list (String.rev <$> cur)) (split_go None s')
      else split_go
             (Some (String c (from_option id EmptyString cur))) s'
  end.

Definition split (s : string) : list string := split_go None s.

(** [s.rfind(sub)] *)
Definition rfind (sub s : string) : Z :=
  let i := find (String.rev sub) (String.rev s) in
  if i <? 0 then -1 else len s - len sub - i.

(** [s.replace('px', '')] *)
Fixpoint remove_px (s : string) : string :=
  match s with
  | String "p" (String "x" rest) => remove_px rest
  | String c rest => String c (remove_px rest)
  | EmptyString => EmptyString
  end.

(** [s.split('?>', 1)[-1]] *)
Definition after_first (sep s : string) : string :=
  let i := find sep s in
  if i <? 0 then s else slice s (Some (i + len sep)) None.

(** [os.path.splitext(p)[1]] on POSIX paths: the text from the last
    dot of the last component, unless only dots precede it there. *)
Definition splitext_ext (p : string) : string :=
  let sepIndex := rfind "/" p in
  let dotIndex := rfind "." p in
  if sepIndex <? dotIndex then
    let stem := slice p (Some (sepIndex + 1)) (Some dotIndex) in
    if String.eqb (lstrip_dots stem) EmptyString
    then EmptyString
    else slice p (Some dotIndex) None
  else EmptyString.

(** *** [int(s, base)] on strings

    The parser of CPython: surrounding blanks are skipped, then an
    optional sign, for base 16 an optional [0x] prefix, then digits in
    which single underscores may separate digits.  In a base that is no
    power of two a text of more than 4300 digits is refused
    ([sys.int_info.default_max_str_digits]); sign, blanks and
    underscores do not count, leading zeros do. *)

Definition int_space (c : ascii) : bool :=
  let n := Z.of_N (N_of_ascii c) in
  ((9 <=? n) && (n <=? 13)) || (n =? 32) || (n =? 133) || (n =? 160).

Definition digit_value (c : ascii) : option Z :=
  let n := Z.of_N (N_of_ascii c) in
  if (48 <=? n) && (n <=? 57) then Some (n - 48)
  else if (97 <=? n) && (n <=? 122) then Some (n - 87)
  else if (65 <=? n) && (n <=? 90) then Some (n - 55)
  else None.

Definition digit_in (base : Z) (c : ascii) : option Z :=
  match digit_value c with
  | Some d => if d <? base then Some d else None
  | None => None
  end.

Fixpoint skip_space (l : list ascii) : list ascii :=
  match l with
  | c :: l' => if int_space c then skip_space l' else l
  | [] => []
  end.

(** The digit loop: [acc] is the value so far, [seen] whether a digit was
    read, [us] whether the previous character was an underscore.  Returns
    the value and the unread rest. *)
Fixpoint digits (base : Z) (l : list ascii) (acc : Z) (seen us : bool)
  : option (Z * list ascii) :=
  match l with
  | c :: l' =>
      if Ascii.eqb c "_" then
        if us then None else digits base l' acc seen true
      else match digit_in base c with
           | Some d => digits base l' (acc * base + d) true false
           | None => if us || negb seen then None else Some (acc, l)
           end
  | [] => if us || negb seen then None else Some (acc, [])
  end.

Definition strip_prefix16 (base : Z) (l : list ascii) : list ascii :=
  match l with
  | c0 :: c1 :: l' =>
      if (base =? 16) && Ascii.eqb c0 "0"
         && (Ascii.eqb c1 "x" || Ascii.eqb c1 "X")
      then match l' with
           | c2 :: l'' => if Ascii.eqb c2 "_" then l'' else l'
           | [] => l'
           end
      else l
  | _ => l
  end.

Definition int_of_chars (base : Z) (l : list ascii) : option Z :=
  let l := skip_space l in
  let '(sign, l) :=
    match l with
    | c :: l' =>
        if Ascii.eqb c "+" then (1, l')
        else if Ascii.eqb c "-" then (-1, l')
        else (1, l)
    | [] => (1, l)
    end in
  let l := strip_prefix16 base l in
  match l with
  | c :: _ =>
      if Ascii.eqb c "_" then None
      else match digits base l 0 false false with
           | Some (v, rest) =>
               match skip_space rest with
               | [] => Some (sign * v)
               | _ :: _ => None
               end
           | None => None
           end
  | [] => None
  end.

Definition max_str_digits : Z := 4300.

Definition power_of_two (base : Z) : bool :=
  (base =? 2) || (base =? 4) || (base =? 8) || (base =? 16) || (base =? 32).

Definition count_digits (base : Z) (l : list ascii) : Z :=
  Z.of_nat
    (length
       (List.filter
          (fun c => match digit_in base c with Some _ => true | None => false end)
          l)).

(** [int(s, base)]: [ValueError] when the text is not a number, or has
    too many digits. *)
Definition int (s : string) (base : Z) : result Z :=
  let l := list_ascii_of_string s in
  if negb (power_of_two base) && (max_str_digits <? count_digits base l)
  then Raise ValueError
  else of_option ValueError (int_of_chars base l).

End Py.

(** ** Module constants *)

Definition SQUARE_SIZE : Z := 45.
Definition MARGIN : Z := 20.

Definition DEFAULT_COLORS : gmap string string :=
  list_to_map
    [ ("square light", "#f0d9b5");
      ("square dark", "#b58863");
      ("square dark lastmove", "#aaa23b");
      ("square light lastmove", "#cdd16a");
      ("margin", "#212121");
      ("inner border", "#111");
      ("outer border", "#111");
      ("coord", "#333333");
      ("arrow green", "#15781B80");
      ("arrow red", "#88202080");
      ("arrow yellow", "#e68f00b3");
      ("arrow blue", "#00308880") ].

Definition dquote : string := String "034" EmptyString.
Definition quoted (s : string) : string := dquote +:+ s +:+ dquote.

Definition XX : string :=
  "<g id="
  +:+ quoted "xx"
  +:+ "><path d="
  +:+ quoted ("M35.865 9.135a1.89 1.89 0 0 1 0 2.673L25.173 22.5l10.692 10.69"
      +:+ "2a1.89 1.89 0 0 1 0 2.673 1.89 1.89 0 0 1-2.673 0L22.5 25.173 "
      +:+ "11.808 35.865a1.89 1.89 0 0 1-2.673 0 1.89 1.89 0 0 1 0-2.673L"
      +:+ "19.827 22.5 9.135 11.808a1.89 1.89 0 0 1 0-2.673 1.89 1.89 0 0"
      +:+ " 1 2.673 0L22.5 19.827 33.192 9.135a1.89 1.89 0 0 1 2.673 0z")
  +:+ " fill="
  +:+ quoted "#000"
  +:+ " stroke="
  +:+ quoted "#fff"
  +:+ " stroke-width="
  +:+ quoted "1.688"
  +:+ "/></g>".

Definition CHECK_GRADIENT : string :=
  "<radialGradient id="
  +:+ quoted "check_gradient"
  +:+ " r="
  +:+ quoted "0.5"
  +:+ "><stop offset="
  +:+ quoted "0%"
  +:+ " stop-color="
  +:+ quoted "#ff0000"
  +:+ " stop-opacity="
  +:+ quoted "1.0"
  +:+ " /><stop offset="
  +:+ quoted "50%"
  +:+ " stop-color="
  +:+ quoted "#e70000"
  +:+ " stop-opacity="
  +:+ quoted "1.0"
  +:+ " /><stop offset="
  +:+ quoted "100%"
  +:+ " stop-color="
  +:+ quoted "#9e0000"
  +:+ " stop-opacity="
  +:+ quoted "0.0"
  +:+ " /></radialGradient>".

(** ** The color resolver *)

(** A color scheme passed by the caller: [None] is Python's [None]. *)
Definition scheme : Type := option (list (string * string)).

(** [d.get(k)]: the binding of the key, if there is one. *)
Fixpoint assoc (k : string) (d : list (string * string)) : option string :=
  match d with
  | [] => None
  | (k', v) :: d' => if String.eqb k k' then Some v else assoc k d'
  end.

(** [_color]: the body of the [try] raises only [ValueError], which the
    handler swallows before falling through to the last line. *)
Definition _color (color : string) : string * Q :=
  if Py.startswith "#" color then
    if Py.len color =? 5 then
      match (c <- Py.item color 4 ;; Py.int (String c EmptyString) 16) with
      | Ok n => (Py.slice color None (Some 4), (inject_Z n / inject_Z 15)%Q)
      | Raise _ => (color, 1%Q)
      end
    else if Py.len color =? 9 then
      match Py.int (Py.slice color (Some 7) None) 16 with
      | Ok n => (Py.slice color None (Some 7), (inject_Z n / inject_Z 255)%Q)
      | Raise _ => (color, 1%Q)
      end
    else (color, 1%Q)
  else (color, 1%Q).

(** [_select_color]: the receiver [colors.get] is evaluated first
    ([AttributeError] on [None]), then the default argument
    [DEFAULT_COLORS[color]] ([KeyError] when the slot has no default,
    whether or not the scheme binds it), then the lookup. *)
Definition _select_color (colors : scheme) (color : string)
  : result (string * Q) :=
  match colors with
  | None => Raise AttributeError
  | Some d =>
      dflt <- of_option KeyError (DEFAULT_COLORS !! color) ;;
      Ok (_color (from_option id dflt (assoc color d)))
  end.

(** ** Insertion-ordered dictionaries

    A [dict] iterated in insertion order: assignment to a bound key
    keeps its position, assignment to a new key appends. *)

Module Dict.

Definition t : Type := list (string * string).

Definition get (k : string) (d : t) : option string := assoc k d.

Fixpoint set (k v : string) (d : t) : t :=
  match d with
  | [] => [(k, v)]
  | (k', v') :: d' =>
      if String.eqb k k' then (k, v) :: d' else (k', v') :: set k v d'
  end.

Definition mem (k : string) (d : t) : bool :=
  match get k d with Some _ => true | None => false end.

(** A dict display [{k1: v1, ...}], evaluated left to right. *)
Definition of_list (l : list (string * string)) : t :=
  fold_left (fun d kv => set (fst kv) (snd kv) d) l [].

End Dict.

(** ** Element trees ([xml.etree.ElementTree]) *)

#[local] Set Warnings "-register-all".

Inductive element : Type :=
| Element (tag : string) (attrib : Dict.t) (text : option string)
    (children : list element).

Definition tag (e : element) : string :=
  match e with Element t _ _ _ => t end.
Definition attrib (e : element) : Dict.t :=
  match e with Element _ a _ _ => a end.
Definition text (e : element) : option string :=
  match e with Element _ _ x _ => x end.
Definition children (e : element) : list element :=
  match e with Element _ _ _ c => c end.

(** [e.get(k)] *)
Definition eget (k : string) (e : element) : option string :=
  Dict.get k (attrib e).

(** [e.set(k, v)] *)
Definition eset (k v : string) (e : element) : element :=
  match e with Element t a x c => Element t (Dict.set k v a) x c end.

(** [e.append(c)] and [ET.SubElement(e, ...)] both add a last child. *)
Definition append (c : element) (e : element) : element :=
  match e with Element t a x cs => Element t a x (cs ++ [c]) end.

(** [e.insert(i, c)] for a non-negative index. *)
Definition insert_child (i : nat) (c : element) (e : element) : element :=
  match e with
  | Element t a x cs => Element t a x (take i cs ++ c :: drop i cs)
  end.

Definition has_attr (k : string) (e : element) : bool :=
  Dict.mem k (attrib e).

Definition count_tag (t : string) (l : list element) : nat :=
  length (List.filter (fun e => String.eqb (tag e) t) l).

(** ** Values of mixed type *)

Inductive pyval : Type :=
| VStr (s : string)
| VInt (z : Z)
| VFloat (q : Q).

(** ** The collaborators *)

Record Piece : Type := {
  symbol : string;
  color : bool
}.

Record Board : Type := {
  rows : Z;
  cols : Z;
  piece_at : Z -> Z -> option Piece;
  (** the outcome of [if board:] *)
  truthy : bool
}.

Record Move : Type := {
  from_square : string;
  to_square : string
}.

(** An arrow is either an object with [tail], [head] and [color]
    attributes or a pair of squares. *)
Inductive arrow : Type :=
| Arrow (tail head color : string)
| Pair (tail head : string).

(** The library functions and tables that the module uses and does not
    define.  A function that can raise returns a [result]. *)
Record Env : Type := {
  (** [str(x)] on a float *)
  repr_float : Q -> string;
  (** [float(s)]; [None] stands for [ValueError] *)
  float_of_string : string -> option Q;
  (** [math.hypot] *)
  hypot : Q -> Q -> Q;
  (** [ET.fromstring] *)
  fromstring : string -> result element;
  (** [ET.tostring(e).decode("utf-8")] *)
  tostring : element -> string;
  (** [os.path.isfile] *)
  isfile : string -> bool;
  (** [open(path)] iterated line by line: opening may raise; otherwise
      the lines that the iteration yields, and the exception that ends
      it early, if any *)
  read_lines : string -> result (list string * option exn);
  (** [c.upper()] on a character outside ASCII *)
  upper_high : ascii -> string;
  (** [open(path, 'r', encoding='utf-8').read()] *)
  read_text : string -> result string;
  (** [open(path, 'rb').read()] *)
  read_bytes : string -> result string;
  (** [base64.b64encode(b).decode('ascii')] *)
  b64encode : string -> string;
  (** [os.path.normpath] *)
  normpath : string -> string;
  (** [svgutils.transform.fromfile(path).root.get("viewBox")] *)
  fromfile_viewBox : string -> result (option string);
  (** [svgutils.compose.SVG(path)]: the constructor raises, or yields a
      figure of which the renderer reads the [width], possibly [None] *)
  compose_SVG : string -> result (option Q);
  (** [tostring(svg.root)] after an optional [svg.scale(factor)] *)
  compose_tostring : string -> option Q -> string;
  (** [pychess.COLOR_NAMES[color]] *)
  COLOR_NAMES : bool -> string;
  (** [pychess.COORDS[key]]: the file and rank labelling functions *)
  COORDS : string -> option ((Z -> Z -> string) * (Z -> Z -> string))
}.

(** [os.path.join(a, b)] on POSIX paths. *)
Definition path_join (a b : string) : string :=
  if Py.startswith "/" b then b
  else if String.eqb a EmptyString || Py.endswith "/" a then a +:+ b
  else a +:+ "/" +:+ b.

Definition STATIC_PATH : string := "pychess-variants/static/".

(** ** Global state *)

Inductive event : Type :=
| Print (msg : string)
| PrintExn (msg : string) (e : exn)
| IsFile (path : string)
| Open (path : string)
| Load (path : string).

Record store : Type := {
  SVG_PIECES : gmap string Dict.t;
  SVG_PATH_PIECES : gmap string Dict.t
}.

Definition set_pieces (f : gmap string Dict.t -> gmap string Dict.t)
    (st : store) : store :=
  {| SVG_PIECES := f (SVG_PIECES st);
     SVG_PATH_PIECES := SVG_PATH_PIECES st |}.

Definition set_paths (f : gmap string Dict.t -> gmap string Dict.t)
    (st : store) : store :=
  {| SVG_PIECES := SVG_PIECES st;
     SVG_PATH_PIECES := f (SVG_PATH_PIECES st) |}.

(** ** Squares *)

Definition square_file (square : string) : result Z :=
  c <- Py.item square 0 ;;
  Ok (Py.ord c - 97).

Definition square_rank (square : string) : result Z :=
  n <- Py.int (Py.slice square (Some 1) None) 10 ;;
  Ok (n - 1).

Definition cell (board : Board) (square : string) : result (Z * Z) :=
  r <- square_rank square ;;
  f <- square_file square ;;
  Ok (rows board - r - 1, f).

Fixpoint parse_squares (board : Board) (squares : list string)
  : result (list (Z * Z)) :=
  match squares with
  | [] => Ok []
  | square :: rest =>
      c <- cell board square ;;
      parsed <- parse_squares board rest ;;
      Ok (c :: parsed)
  end.

(** ** The arguments of [board] *)

Module Arg.
(** The keyword arguments of [board]. *)
Record t : Type := {
  board : option Board;
  orientation : bool;
  flipped : bool;
  check : option string;
  lastmove : option Move;
  arrows : list arrow;
  squares : option (list string);
  width : option pyval;
  height : option pyval;
  colors : scheme;
  (** [False] is [None]; otherwise a key of [pychess.COORDS] *)
  coordinates : option string;
  borders : bool;
  background_image : option string
}.
End Arg.

(** ** Document root and attributes *)

Section Renderer.

Context (E : Env).

Definition py_str (v : pyval) : string :=
  match v with
  | VStr s => s
  | VInt z => pretty z
  | VFloat q => repr_float E q
  end.

Definition set_opt (k : string) (v : option pyval) (e : element) : element :=
  match v with
  | Some x => eset k (py_str x) e
  | None => e
  end.

Definition _svg (viewbox_x viewbox_y : Z) (width height : option pyval)
  : element :=
  let svg :=
    Element "svg"
      (Dict.of_list
         [ ("xmlns", "http://www.w3.org/2000/svg");
           ("version", "1.1");
           ("xmlns:xlink", "http://www.w3.org/1999/xlink");
           ("viewBox",
            "0 0 " +:+ pretty viewbox_x +:+ " " +:+ pretty viewbox_y) ])
      None [] in
  let svg := set_opt "width" width svg in
  let svg := set_opt "height" height svg in
  svg.

(** [_attrs]: the comprehension keeps the bindings whose value is not
    [None], in the order of the display it is given. *)
Definition _attrs (attrs : list (string * option pyval)) : Dict.t :=
  fold_left
    (fun d kv =>
       match snd kv with
       | Some v => Dict.set (fst kv) (py_str v) d
       | None => d
       end)
    attrs [].

(** ** Theme registry *)

Record accum : Type := {
  a_color : string;
  a_symbol : string;
  a_url : string;
  a_promoted : bool
}.

Definition accum0 : accum :=
  {| a_color := EmptyString; a_symbol := EmptyString;
     a_url := EmptyString; a_promoted := false |}.

(** [c.upper()] *)
Definition upper_one (c : ascii) : string :=
  if Py.ord c <? 128 then String (Py.upper_char c) EmptyString
  else upper_high E c.

(** [letters = list(symbol); letters[-1] = letters[-1].upper();
    symbol = ''.join(letters)] on a non-empty symbol. *)
Fixpoint upper_last (symbol : string) : string :=
  match symbol with
  | EmptyString => EmptyString
  | String c EmptyString => upper_one c
  | String c rest => String c (upper_last rest)
  end.

(** [SVG_PATH_PIECES[css][symbol] = url] *)
Definition store_path (css symbol url : string) (st : store) : result store :=
  d <- of_option KeyError (SVG_PATH_PIECES st !! css) ;;
  Ok (set_paths <[css := Dict.set symbol url d]> st).

(** [SVG_PIECES[css][symbol] = fragment] *)
Definition store_piece (css symbol fragment : string) (st : store)
  : result store :=
  d <- of_option KeyError (SVG_PIECES st !! css) ;;
  Ok (set_pieces <[css := Dict.set symbol fragment d]> st).

(** One turn of the loop over the lines of the stylesheet. *)
Definition scan_line (css line : string) (s : store * accum)
  : result (store * accum) :=
  let '(st, a) := s in
  if String.eqb (Py.strip line) EmptyString then Ok (st, a)
  else
    let a :=
      if Py.contains "piece." line then
        let color :=
          if Py.contains "white" line || Py.contains "ally" line
          then "white" else "black" in
        let start := Py.find "piece." line + 6 in
        let end_ := Py.find "-piece" line in
        {| a_color := color;
           a_symbol := Py.slice line (Some start) (Some end_);
           a_url := a_url a;
           a_promoted :=
             if Py.contains "promoted" line then true else a_promoted a |}
      else a in
    let a :=
      if Py.contains "url" line then
        let start := Py.find "url(" line + 5 in
        let end_ := Py.find ")" line - 1 in
        {| a_color := a_color a;
           a_symbol := a_symbol a;
           a_url := Py.slice line (Some start) (Some end_);
           a_promoted := a_promoted a |}
      else a in
    if negb (String.eqb (a_symbol a) EmptyString)
       && negb (String.eqb (a_url a) EmptyString)
    then
      let symbol :=
        if String.eqb (a_color a) "white" then upper_last (a_symbol a)
        else a_symbol a in
      let symbol := if a_promoted a then "p" +:+ symbol else symbol in
      st <- store_path css symbol (a_url a) st ;;
      Ok (st, accum0)
    else Ok (st, a).

Fixpoint scan_lines (css : string) (lines : list string) (s : store * accum)
  : result (store * accum) :=
  match lines with
  | [] => Ok s
  | line :: rest =>
      s <- scan_line css line s ;;
      scan_lines css rest s
  end.

Definition css_path_of (css : string) : string :=
  path_join (path_join STATIC_PATH "piece") (css +:+ ".css").

(** The outcome, the state left behind and the events performed.  The
    function returns [None] on every path.  The lines are scanned as
    they are read: when the iteration raises after some lines, the
    rules stored from those lines stay. *)
Definition get_svg_pieces_from_css (css : string) (st : store)
  : result unit * store * list event :=
  let st := set_pieces <[css := []]> st in
  let st := set_paths <[css := []]> st in
  let css_path := css_path_of css in
  if negb (isfile E css_path) then
    (Ok tt, st,
     [IsFile css_path; Print ("ERROR: FileNotFoundError " +:+ css_path)])
  else
    match read_lines E css_path with
    | Raise e => (Raise e, st, [IsFile css_path; Open css_path])
    | Ok (lines, failure) =>
        match scan_lines css lines (st, accum0) with
        | Ok (st', _) =>
            (match failure with Some e => Raise e | None => Ok tt end,
             st', [IsFile css_path; Open css_path])
        | Raise e => (Raise e, st, [IsFile css_path; Open css_path])
        end
    end.

(** [float(s.split()[i])] *)
Definition float_field (s : string) (i : nat) : result Q :=
  w <- of_option IndexError (Py.split s !! i) ;;
  of_option ValueError (float_of_string E w).

Definition orig_file_of (css piece_svg : string) : string :=
  normpath E
    (path_join
       (path_join (path_join (path_join STATIC_PATH "piece") css) "..")
       piece_svg).

Definition read_piece_svg (css : string) (piece : Piece) (st : store)
  : result unit * store * list event :=
  let symbol := symbol piece in
  let piece_name := symbol +:+ "-piece" in
  match SVG_PATH_PIECES st !! css with
  | None => (Raise KeyError, st, [])
  | Some paths =>
      match Dict.get symbol paths with
      | None => (Ok tt, st, [])
      | Some piece_svg =>
          let orig_file := orig_file_of css piece_svg in
          if negb (isfile E orig_file) then
            (Ok tt, st,
             [IsFile orig_file;
              Print ("ERROR: FileNotFoundError " +:+ orig_file)])
          else if negb (String.eqb (Py.slice orig_file (Some (-3)) None) "svg")
          then
            (Ok tt, st,
             [IsFile orig_file;
              Print ("ERROR: " +:+ orig_file +:+ " is not in .svg format")])
          else
            match fromfile_viewBox E orig_file with
            | Raise e => (Raise e, st, [IsFile orig_file; Load orig_file])
            | Ok viewBox =>
                let ev := [IsFile orig_file; Load orig_file; Load orig_file] in
                match compose_SVG E orig_file with
                | Raise AttributeError =>
                    (Raise AttributeError, st,
                     app ev
                       [Print ("ERROR: Possible " +:+ orig_file
                               +:+ " referenced in " +:+ css
                               +:+ ".css has no 'width/height'")])
                | Raise e => (Raise e, st, ev)
                | Ok svg_width =>
                    let width : result (option Q) :=
                      match viewBox with
                      | Some vb => w <- float_field vb 2 ;; Ok (Some w)
                      | None => Ok svg_width
                      end in
                    match width with
                    | Raise e => (Raise e, st, ev)
                    | Ok None =>
                        match store_piece css symbol EmptyString st with
                        | Ok st' => (Ok tt, st', ev)
                        | Raise e => (Raise e, st, ev)
                        end
                    | Ok (Some width) =>
                        let factor : result (option Q) :=
                          if Qeq_bool width (inject_Z SQUARE_SIZE) then Ok None
                          else if Qeq_bool width 0 then Raise ZeroDivisionError
                          else Ok (Some (inject_Z SQUARE_SIZE / width)%Q) in
                        match factor with
                        | Raise e => (Raise e, st, ev)
                        | Ok factor =>
                            let head :=
                              "<g id=" +:+ dquote
                              +:+ COLOR_NAMES E (color piece) +:+ "-"
                              +:+ piece_name +:+ dquote +:+ ">" in
                            let tail := "</g>" in
                            match
                              store_piece css symbol
                                (head +:+ compose_tostring E orig_file factor
                                 +:+ tail) st
                            with
                            | Ok st' => (Ok tt, st', ev)
                            | Raise e => (Raise e, st, ev)
                            end
                        end
                    end
                end
            end
      end
  end.

(** ** The single-piece renderer *)

Definition piece (st : store) (css : string) (piece : Piece)
    (size : option pyval) : result string :=
  let svg := _svg SQUARE_SIZE SQUARE_SIZE size size in
  theme <- of_option KeyError (SVG_PIECES st !! css) ;;
  fragment <- of_option KeyError (Dict.get (symbol piece) theme) ;;
  e <- fromstring E fragment ;;
  Ok (tostring E (append e svg)).

(** ** The board renderer *)

(** The local variables that the background step may rebind. *)
Record locals : Type := {
  svg : element;
  width : option pyval;
  height : option pyval
}.

Definition with_svg (f : element -> element) (l : locals) : locals :=
  {| svg := f (svg l); width := width l; height := height l |}.

(** Truth value of an optional string. *)
Definition truthy_str (o : option string) : bool :=
  match o with
  | Some s => negb (String.eqb s EmptyString)
  | None => false
  end.

Definition newline : string := String "010" EmptyString.

Definition _colors_to_css (colors : list (string * string)) : string :=
  Py.join newline
    (map (fun kv =>
            ("." +:+ Py.join "." (Py.split (fst kv)))
            +:+ " { fill: " +:+ snd kv +:+ "; }")
         colors).

Fixpoint foldM {A S : Type} (f : A -> S -> result S) (l : list A) (s : S)
  : result S :=
  match l with
  | [] => Ok s
  | a :: l' => s' <- f a s ;; foldM f l' s'
  end.

(** [range(n)] *)
Definition range (n : Z) : list Z := seqZ 0 n.

(** Float division. *)
Definition divide (a b : Q) : result Q :=
  if Qeq_bool b 0 then Raise ZeroDivisionError else Ok (a / b)%Q.

(** [int(x)] on a float: truncation towards zero. *)
Definition trunc (q : Q) : Z := Z.quot (Qnum q) (Zpos (Qden q)).

Definition BOARD_IMAGES : string := "pychess-variants/static/images/board".

(** The definitions block: every cached fragment of the theme, the
    highlight glyph, the check gradient. *)
Definition defs_fragments (st : store) (css : string) (b : Board)
  : result (list element) :=
  if truthy b then
    theme <- of_option KeyError (SVG_PIECES st !! css) ;;
    foldM (fun kv acc => e <- fromstring E (snd kv) ;; Ok (app acc [e]))
          theme []
  else Ok [].

(** Intrinsic size of a vector background. *)
Definition intrinsic_size (b : Board) (width height viewBox : option string)
  : result (Q * Q) :=
  let own := (inject_Z (cols b * SQUARE_SIZE),
              inject_Z (rows b * SQUARE_SIZE)) in
  if truthy_str width && truthy_str height then
    match float_of_string E (Py.remove_px (default EmptyString width)) with
    | Some width_val =>
        match float_of_string E (Py.remove_px (default EmptyString height)) with
        | Some height_val => Ok (width_val, height_val)
        | None => Ok own
        end
    | None => Ok own
    end
  else if truthy_str viewBox then
    let parts := Py.strip (default EmptyString viewBox) in
    width_val <- float_field parts 2 ;;
    height_val <- float_field parts 3 ;;
    Ok (width_val, height_val)
  else Ok own.

(** The body of the [try] once the background document is parsed as an
    [svg] root: the group that replaces it. *)
Definition background_group (b : Board) (margin : Z) (bg_tree : element)
  : result element :=
  size <- intrinsic_size b (eget "width" bg_tree) (eget "height" bg_tree)
            (eget "viewBox" bg_tree) ;;
  scale_x <- divide (inject_Z (cols b * SQUARE_SIZE)) (fst size) ;;
  scale_y <- divide (inject_Z (rows b * SQUARE_SIZE)) (snd size) ;;
  Ok (Element "g"
        [("transform",
          "translate(" +:+ pretty margin +:+ ", " +:+ pretty margin
          +:+ ") scale(" +:+ repr_float E scale_x +:+ ", "
          +:+ repr_float E scale_y +:+ ")")]
        None (children bg_tree)).

(** The text of the background that is parsed: the file without its
    XML declaration. *)
Definition background_text (bg_svg : string) : string :=
  if Py.startswith "<?xml" bg_svg then Py.after_first "?>" bg_svg
  else bg_svg.

(** The vector branch.  [width] and [height] are rebound to the
    attributes of the background root as soon as it is recognised, and
    stay rebound when a later statement of the [try] raises. *)
Definition background_svg (b : Board) (margin : Z) (background_image : string)
    (l : locals) : locals * list event :=
  let bg_path := path_join BOARD_IMAGES background_image in
  let failed (e : exn) (l : locals) :=
    (l, [Open bg_path;
         PrintExn "ERROR: Could not embed SVG background: " e]) in
  match read_text E bg_path with
  | Raise e => failed e l
  | Ok bg_svg =>
      let bg_svg := background_text bg_svg in
      match fromstring E bg_svg with
      | Raise e => failed e l
      | Ok bg_tree =>
          if Py.endswith "svg" (tag bg_tree) then
            let l := {| svg := svg l;
                        width := VStr <$> eget "width" bg_tree;
                        height := VStr <$> eget "height" bg_tree |} in
            match background_group b margin bg_tree with
            | Ok bg_group =>
                (with_svg (insert_child 1 bg_group) l, [Open bg_path])
            | Raise e => failed e l
            end
          else
            match fromstring E ("<g>" +:+ bg_svg +:+ "</g>") with
            | Ok bg_elem =>
                (with_svg (insert_child 1 bg_elem) l, [Open bg_path])
            | Raise e => failed e l
            end
      end
  end.

(** The raster branch. *)
Definition background_raster (b : Board) (margin : Z)
    (background_image : string) (l : locals) : locals * list event :=
  let img_path := path_join BOARD_IMAGES background_image in
  match read_bytes E img_path with
  | Raise e =>
      (l, [Open img_path;
           PrintExn "ERROR: Could not embed PNG/JPG background: " e])
  | Ok img_bytes =>
      let ext := Py.lower (Py.splitext_ext background_image) in
      let mime :=
        if String.eqb ext ".jpg" || String.eqb ext ".jpeg" then "image/jpeg"
        else if String.eqb ext ".png" then "image/png"
        else "application/octet-stream" in
      let data_uri := "data:" +:+ mime +:+ ";base64," +:+ b64encode E img_bytes in
      (with_svg
         (append
            (Element "image"
               (Dict.of_list
                  [ ("{http://www.w3.org/1999/xlink}href", data_uri);
                    ("x", pretty margin);
                    ("y", pretty margin);
                    ("width", pretty (cols b * SQUARE_SIZE));
                    ("height", pretty (rows b * SQUARE_SIZE));
                    ("preserveAspectRatio", "none") ])
               None []))
         l,
       [Open img_path])
  end.

(** The background step: the locals after it, the flag [render_squares]
    and the events. *)
Definition background (b : Board) (margin : Z)
    (background_image : option string) (l : locals)
  : locals * bool * list event :=
  if truthy_str background_image then
    let image := default EmptyString background_image in
    let '(l, ev) :=
      if Py.endswith ".svg" (Py.lower image)
      then background_svg b margin image l
      else background_raster b margin image l in
    (l, false, ev)
  else (l, true, []).

(** Growth of the viewBox by the coordinate margin. *)
Definition grow (b : Board) (coordinates : bool) (margin : Z) (l : locals)
  : locals :=
  if coordinates then
    let total_width := cols b * SQUARE_SIZE + 2 * margin in
    let total_height := rows b * SQUARE_SIZE + 2 * margin in
    let l :=
      with_svg
        (eset "viewBox"
           ("0 0 " +:+ pretty total_width +:+ " " +:+ pretty total_height)) l in
    let l :=
      match width l with
      | Some _ => with_svg (eset "width" (pretty total_width)) l
      | None => l
      end in
    match height l with
    | Some _ => with_svg (eset "height" (pretty total_height)) l
    | None => l
    end
  else l.

(** Display cell of a grid index under the orientation. *)
Definition display (b : Board) (orientation : bool) (y_index x_index : Z)
  : Z * Z :=
  if orientation then (y_index, x_index)
  else (rows b - y_index - 1, cols b - x_index - 1).

Definition cell_eqb (c d : Z * Z) : bool :=
  (fst c =? fst d) && (snd c =? snd d).

Definition cell_in (c : Z * Z) (l : list (Z * Z)) : bool :=
  existsb (cell_eqb c) l.

(** One turn of the inner loop that draws the checkerboard. *)
Definition square_cell (b : Board) (orientation coordinates : bool)
    (margin : Z) (lastmove : option ((Z * Z) * (Z * Z)))
    (squares : option (list string)) (y_index x_index : Z) (svg : element)
  : result element :=
  let '(display_row, display_col) := display b orientation y_index x_index in
  let x := x_index * SQUARE_SIZE + (if coordinates then margin else 0) in
  let y := y_index * SQUARE_SIZE + (if coordinates then margin else 0) in
  let cls :=
    app ["square";
         if display_col mod 2 =? display_row mod 2 then "light" else "dark"]
        (match lastmove with
         | Some (lastmove_from, lastmove_to) =>
             if cell_in (display_row, display_col) [lastmove_from; lastmove_to]
             then ["lastmove"] else []
         | None => []
         end) in
  fill_color <- of_option KeyError (DEFAULT_COLORS !! Py.join " " cls) ;;
  let svg :=
    append
      (Element "rect"
         (Dict.of_list
            [ ("x", pretty x);
              ("y", pretty y);
              ("width", pretty SQUARE_SIZE);
              ("height", pretty SQUARE_SIZE);
              ("class", Py.join " " cls);
              ("stroke", "none");
              ("fill", fill_color) ])
         None [])
      svg in
  match squares with
  | Some (sq :: rest) =>
      parsed <- parse_squares b (sq :: rest) ;;
      if cell_in (display_row, display_col) parsed then
        Ok (append
              (Element "use"
                 (_attrs [ ("href", Some (VStr "#xx"));
                           ("xlink:href", Some (VStr "#xx"));
                           ("x", Some (VInt x));
                           ("y", Some (VInt y)) ])
                 None [])
              svg)
      else Ok svg
  | _ => Ok svg
  end.

Definition grid (b : Board) (f : Z -> Z -> element -> result element)
    (svg : element) : result element :=
  foldM (fun y_index svg =>
           foldM (fun x_index svg => f y_index x_index svg)
                 (range (cols b)) svg)
        (range (rows b)) svg.

Definition text_label (x y font_size : Z) (label : string) : element :=
  Element "text"
    (Dict.of_list
       [ ("x", pretty x);
         ("y", pretty y);
         ("text-anchor", "middle");
         ("dominant-baseline", "middle");
         ("font-size", pretty font_size);
         ("font-family", "Arial, sans-serif");
         ("fill", default EmptyString (DEFAULT_COLORS !! "coord"));
         ("opacity", "1.0") ])
    (Some label) [].

(** Coordinate labels around the board. *)
Definition coordinate_labels (b : Board) (orientation : bool) (key : string)
    (margin : Z) (svg : element) : result element :=
  let font_size := trunc (inject_Z margin * (9 # 10))%Q in
  let offset := trunc (inject_Z font_size * (65 # 100))%Q in
  svg <-
    foldM (fun file_index svg =>
             let index :=
               if orientation then file_index else cols b - file_index - 1 in
             labels <- of_option KeyError (COORDS E key) ;;
             let file_char := fst labels index (cols b) in
             let x := file_index * SQUARE_SIZE + margin + SQUARE_SIZE / 2 in
             let y_top := offset in
             let y_bottom := margin + rows b * SQUARE_SIZE + offset in
             Ok (append (text_label x y_bottom font_size file_char)
                   (append (text_label x y_top font_size file_char) svg)))
          (range (cols b)) svg ;;
  foldM (fun rank_index svg =>
           let index :=
             if orientation then rank_index else rows b - rank_index - 1 in
           labels <- of_option KeyError (COORDS E key) ;;
           let rank_char := snd labels index (rows b) in
           let y := rank_index * SQUARE_SIZE + margin + SQUARE_SIZE / 2 in
           let x_left := offset in
           let x_right := margin + cols b * SQUARE_SIZE + offset in
           Ok (append (text_label x_right y font_size rank_char)
                 (append (text_label x_left y font_size rank_char) svg)))
        (range (rows b)) svg.

(** One turn of the inner loop that draws the pieces. *)
Definition piece_cell (b : Board) (orientation coordinates : bool)
    (margin : Z) (check : option (Z * Z)) (y_index x_index : Z)
    (svg : element) : result element :=
  let '(display_row, display_col) := display b orientation y_index x_index in
  let x := x_index * SQUARE_SIZE + (if coordinates then margin else 0) in
  let y := y_index * SQUARE_SIZE + (if coordinates then margin else 0) in
  match piece_at b display_row display_col with
  | Some piece =>
      let svg :=
        match check with
        | Some (check_rank_index, check_file_index) =>
            if (check_file_index =? display_col)
               && (check_rank_index =? display_row)
            then append
                   (Element "rect"
                      (_attrs [ ("x", Some (VInt x));
                                ("y", Some (VInt y));
                                ("width", Some (VInt SQUARE_SIZE));
                                ("height", Some (VInt SQUARE_SIZE));
                                ("class", Some (VStr "check"));
                                ("fill", Some (VStr "url(#check_gradient)")) ])
                      None [])
                   svg
            else svg
        | None => svg
        end in
      let color := COLOR_NAMES E (color piece) in
      let href := "#" +:+ color +:+ "-" +:+ symbol piece +:+ "-piece" in
      Ok (append
            (Element "use"
               (Dict.of_list
                  [ ("xlink:href", href);
                    ("transform",
                     "translate(" +:+ pretty x +:+ ", " +:+ pretty y +:+ ")") ])
               None [])
            svg)
  | None => Ok svg
  end.

(** *** Arrows *)

(** [tail, head, color = arrow.tail, arrow.head, arrow.color], and on
    [AttributeError] the pair with the default color. *)
Definition arrow_parts (a : arrow) : string * string * string :=
  match a with
  | Arrow tail head color => (tail, head, color)
  | Pair tail head => (tail, head, "green")
  end.

(** The second [try]: only [KeyError] is handled, and then [color]
    keeps the name it had. *)
Definition arrow_color (colors : scheme) (color : string)
  : result (string * Q) :=
  match _select_color colors (Py.join " " ["arrow"; color]) with
  | Ok resolved => Ok resolved
  | Raise KeyError => Ok (color, 1%Q)
  | Raise e => Raise e
  end.

(** Pixel anchor of the centre of a square. *)
Definition anchor (b : Board) (orientation coordinates : bool)
    (margin inner_border outer_border : Z) (file rank : Z) : Q * Q :=
  let x_corr := (inject_Z (cols b) - (1 # 2))%Q in
  let y_corr := (inject_Z (rows b) - (1 # 2))%Q in
  let origin :=
    inject_Z (outer_border + (if coordinates then margin else 0)
              + inner_border) in
  ((origin
    + (if orientation then inject_Z file + (1 # 2) else x_corr - inject_Z file)
      * inject_Z SQUARE_SIZE)%Q,
   (origin
    + (if orientation then y_corr - inject_Z rank else inject_Z rank + (1 # 2))
      * inject_Z SQUARE_SIZE)%Q).

Definition Qltb (x y : Q) : bool := negb (Qle_bool y x).

(** [opacity if opacity < 1.0 else None] *)
Definition opacity_value (opacity : Q) : option pyval :=
  if Qltb opacity 1 then Some (VFloat opacity) else None.

Definition point (xy : Q * Q) : string :=
  repr_float E (fst xy) +:+ "," +:+ repr_float E (snd xy).

(** The elements drawn for one arrow, from the squares' files and ranks. *)
Definition arrow_elements (b : Board) (orientation coordinates : bool)
    (margin inner_border outer_border : Z)
    (tail_file tail_rank head_file head_rank : Z)
    (color : string) (opacity : Q) : result (list element) :=
  let '(xtail, ytail) :=
    anchor b orientation coordinates margin inner_border outer_border
      tail_file tail_rank in
  let '(xhead, yhead) :=
    anchor b orientation coordinates margin inner_border outer_border
      head_file head_rank in
  let size := inject_Z SQUARE_SIZE in
  if cell_eqb (head_file, head_rank) (tail_file, tail_rank) then
    Ok [ Element "circle"
           (_attrs
              [ ("cx", Some (VFloat xhead));
                ("cy", Some (VFloat yhead));
                ("r", Some (VFloat (size * (93 # 100) / 2)%Q));
                ("stroke-width", Some (VFloat (size * (7 # 100))%Q));
                ("stroke", Some (VStr color));
                ("opacity", opacity_value opacity);
                ("fill", Some (VStr "none"));
                ("class", Some (VStr "circle")) ])
           None [] ]
  else
    let marker_size := ((75 # 100) * size)%Q in
    let marker_margin := ((1 # 10) * size)%Q in
    let dx := (xhead - xtail)%Q in
    let dy := (yhead - ytail)%Q in
    let hypot := hypot E dx dy in
    sx <- divide (dx * (marker_size + marker_margin))%Q hypot ;;
    sy <- divide (dy * (marker_size + marker_margin))%Q hypot ;;
    let shaft_x := (xhead - sx)%Q in
    let shaft_y := (yhead - sy)%Q in
    tx <- divide (dx * marker_margin)%Q hypot ;;
    ty <- divide (dy * marker_margin)%Q hypot ;;
    let xtip := (xhead - tx)%Q in
    let ytip := (yhead - ty)%Q in
    let line :=
      Element "line"
        (_attrs
           [ ("x1", Some (VFloat xtail));
             ("y1", Some (VFloat ytail));
             ("x2", Some (VFloat shaft_x));
             ("y2", Some (VFloat shaft_y));
             ("stroke", Some (VStr color));
             ("opacity", opacity_value opacity);
             ("stroke-width", Some (VFloat (size * (2 # 10))%Q));
             ("stroke-linecap", Some (VStr "butt"));
             ("class", Some (VStr "arrow")) ])
        None [] in
    px <- divide (dy * (1 # 2) * marker_size)%Q hypot ;;
    py <- divide (dx * (1 # 2) * marker_size)%Q hypot ;;
    let marker :=
      [ (xtip, ytip);
        ((shaft_x + px)%Q, (shaft_y - py)%Q);
        ((shaft_x - px)%Q, (shaft_y + py)%Q) ] in
    Ok [ line;
         Element "polygon"
           (_attrs
              [ ("points", Some (VStr (Py.join " " (map point marker))));
                ("fill", Some (VStr color));
                ("opacity", opacity_value opacity);
                ("class", Some (VStr "arrow")) ])
           None [] ].

(** One turn of the loop over the arrows. *)
Definition render_arrow (b : Board) (orientation coordinates : bool)
    (margin inner_border outer_border : Z) (colors : scheme)
    (a : arrow) (svg : element) : result element :=
  let '(tail, head, color) := arrow_parts a in
  resolved <- arrow_color colors color ;;
  tail_file <- square_file tail ;;
  tail_rank <- square_rank tail ;;
  head_file <- square_file head ;;
  head_rank <- square_rank head ;;
  drawn <- arrow_elements b orientation coordinates margin inner_border
             outer_border tail_file tail_rank head_file head_rank
             (fst resolved) (snd resolved) ;;
  Ok (fold_left (fun svg e => append e svg) drawn svg).

(** *** [board] *)

(** What is computed between the creation of the root and the
    background step: the last-move cells, the children of [defs], the
    check cell. *)
Definition prepare (css : string) (a : Arg.t) (b : Board) (st : store)
  : result (option ((Z * Z) * (Z * Z)) * list element * option (Z * Z)) :=
  lastmove <-
    match Arg.lastmove a with
    | Some m =>
        lastmove_from <- cell b (from_square m) ;;
        lastmove_to <- cell b (to_square m) ;;
        Ok (Some (lastmove_from, lastmove_to))
    | None => Ok None
    end ;;
  defs <- defs_fragments st css b ;;
  defs <-
    match Arg.squares a with
    | Some (_ :: _) => e <- fromstring E XX ;; Ok (app defs [e])
    | _ => Ok defs
    end ;;
  match Arg.check a with
  | Some square =>
      e <- fromstring E CHECK_GRADIENT ;;
      c <- cell b square ;;
      Ok (lastmove, app defs [e], Some c)
  | None => Ok (lastmove, defs, None)
  end.

(** The root with the style block and the definitions, and the
    caller's [width] and [height]: the locals before the background
    step. *)
Definition canvas (a : Arg.t) (b : Board) (defs : list element) : locals :=
  let svg :=
    _svg (cols b * SQUARE_SIZE) (rows b * SQUARE_SIZE)
      (Arg.width a) (Arg.height a) in
  let svg :=
    match Arg.colors a with
    | Some (c :: cs) =>
        append (Element "style" [] (Some (_colors_to_css (c :: cs))) []) svg
    | _ => svg
    end in
  let svg := append (Element "defs" [] None defs) svg in
  {| svg := svg; width := Arg.width a; height := Arg.height a |}.

(** The root as it stands after the background step and the growth of
    the viewBox, with the flag [render_squares]. *)
Definition frame (a : Arg.t) (b : Board) (defs : list element)
  : locals * bool * list event :=
  let coordinates := truthy_str (Arg.coordinates a) in
  let margin := if coordinates then 15 else 0 in
  let '(l, render_squares, ev) :=
    background b margin (Arg.background_image a) (canvas a b defs) in
  (grow b coordinates margin l, render_squares, ev).

(** The drawing steps after the frame: squares, labels, pieces, arrows. *)
Definition draw (a : Arg.t) (b : Board)
    (lastmove : option ((Z * Z) * (Z * Z))) (check : option (Z * Z))
    (render_squares : bool) (svg : element) : result element :=
  let orientation := xorb (Arg.orientation a) (Arg.flipped a) in
  let coordinates := truthy_str (Arg.coordinates a) in
  let inner_border := if Arg.borders a && coordinates then 1 else 0 in
  let outer_border := if Arg.borders a then 1 else 0 in
  let margin := if coordinates then 15 else 0 in
  svg <-
    (if render_squares
     then grid b (square_cell b orientation coordinates margin lastmove
                    (Arg.squares a)) svg
     else Ok svg) ;;
  svg <-
    (if coordinates
     then coordinate_labels b orientation
            (default EmptyString (Arg.coordinates a)) margin svg
     else Ok svg) ;;
  svg <- grid b (piece_cell b orientation coordinates margin check) svg ;;
  foldM (render_arrow b orientation coordinates margin inner_border
           outer_border (Arg.colors a))
        (Arg.arrows a) svg.

(** The document tree built by [board], and what it printed or opened. *)
Definition board_tree (css : string) (a : Arg.t) (st : store)
  : result element * list event :=
  match Arg.board a with
  | None => (Raise AttributeError, [])
  | Some b =>
      match prepare css a b st with
      | Raise e => (Raise e, [])
      | Ok (lastmove, defs, check) =>
          let '(l, render_squares, ev) := frame a b defs in
          (draw a b lastmove check render_squares (svg l), ev)
      end
  end.

Definition board (css : string) (a : Arg.t) (st : store)
  : result string * list event :=
  let '(r, ev) := board_tree css a st in
  (svg <- r ;; Ok (tostring E svg), ev).

End Renderer.

(** * Vocabulary of the statements *)

(** The literals on which [_color] decodes an alpha channel. *)
Definition decodes (color : string) : Prop :=
  Py.startswith "#" color = true /\
  ((Py.len color = 5 /\
    exists c n, Py.item color 4 = Ok c /\
                Py.int (String c EmptyString) 16 = Ok n) \/
   (Py.len color = 9 /\
    exists n, Py.int (Py.slice color (Some 7) None) 16 = Ok n)).

(** [math.hypot] vanishes at the origin only. *)
Definition hypot_definite (E : Env) : Prop :=
  forall x y : Q, (hypot E x y == 0)%Q -> (x == 0)%Q /\ (y == 0)%Q.

Definition arrow_tail (a : arrow) : string := fst (fst (arrow_parts a)).

Definition arrow_head (a : arrow) : string := snd (fst (arrow_parts a)).

Definition arrow_slot (a : arrow) : string := snd (arrow_parts a).

(** The squares of an arrow are well formed: both names decompose into a
    file and a rank. *)
Definition arrow_squares (a : arrow) (tf tr hf hr : Z) : Prop :=
  square_file (arrow_tail a) = Ok tf /\
  square_rank (arrow_tail a) = Ok tr /\
  square_file (arrow_head a) = Ok hf /\
  square_rank (arrow_head a) = Ok hr.




Definition without_background (a : Arg.t) : Arg.t :=
  {| Arg.board := Arg.board a;
     Arg.orientation := Arg.orientation a;
     Arg.flipped := Arg.flipped a;
     Arg.check := Arg.check a;
     Arg.lastmove := Arg.lastmove a;
     Arg.arrows := Arg.arrows a;
     Arg.squares := Arg.squares a;
     Arg.width := Arg.width a;
     Arg.height := Arg.height a;
     Arg.colors := Arg.colors a;
     Arg.coordinates := Arg.coordinates a;
     Arg.borders := Arg.borders a;
     Arg.background_image := None |}.

(** The two tables with the entries of one theme emptied, as the first
    two statements of [get_svg_pieces_from_css] leave them. *)
Definition reset (css : string) (st : store) : store :=
  set_paths <[css := []]> (set_pieces <[css := []]> st).

Definition has_value {A : Type} (o : option A) : bool :=
  match o with Some _ => true | None => false end.

(** ** A sample environment

    A small file system and stand-ins for the library functions, used to
    run the renderer on concrete inputs. *)

Module Sample.

Definition wood_svg : string := "<svg width='360' height='360'/>".

Definition wood_root : element :=
  Element "svg" [("width", "360"); ("height", "360")] None [].

Definition parse (s : string) : result element :=
  if String.eqb s wood_svg then Ok wood_root
  else if String.eqb s "<g/>" then Ok (Element "g" [] None [])
  else Raise ParseError.

Definition text_of (path : string) : result string :=
  if String.eqb path "pychess-variants/static/images/board/wood.svg"
  then Ok wood_svg else Raise OSError.

Definition stylesheet : list string :=
  [ ".merida piece.k-piece.white {" +:+ newline;
    "  background-image: url('merida/wK.svg');" +:+ newline;
    "}" +:+ newline;
    newline;
    ".merida piece.k-piece.black {" +:+ newline;
    "  background-image: url('merida/bK.svg');" +:+ newline;
    "}" +:+ newline ].

Definition lines_of (path : string) : result (list string * option exn) :=
  if String.eqb path "pychess-variants/static/piece/merida.css"
  then Ok (stylesheet, None) else Raise OSError.

Definition wK_file : string :=
  "pychess-variants/static/piece/merida/../merida/wK.svg".

Definition exists_file (path : string) : bool :=
  String.eqb path "pychess-variants/static/piece/merida.css"
  || String.eqb path wK_file.

Definition label (index n : Z) : string := pretty index.

Definition env_with (compose : string -> result (option Q)) : Env :=
  {| repr_float := fun q => pretty (Qnum q) +:+ "/" +:+ pretty (Zpos (Qden q));
     float_of_string :=
       fun s => inject_Z <$> Py.int_of_chars 10 (list_ascii_of_string s);
     hypot := fun x y => (Qabs x + Qabs y)%Q;
     fromstring := parse;
     tostring := tag;
     isfile := exists_file;
     read_lines := lines_of;
     upper_high := fun c => String c EmptyString;
     read_text := text_of;
     read_bytes := fun _ => Raise OSError;
     b64encode := id;
     normpath := id;
     fromfile_viewBox := fun _ => Ok None;
     compose_SVG := compose;
     compose_tostring := fun path _ => path;
     COLOR_NAMES := fun c => if c then "white" else "black";
     COORDS :=
       fun key => if String.eqb key "chess" then Some (label, label) else None
  |}.

(** A loader that rejects every figure, and one that finds a width
    given in percent. *)
Definition env : Env := env_with (fun _ => Raise AttributeError).
Definition percent_env : Env := env_with (fun _ => Ok None).

Definition empty_board : Board :=
  {| rows := 8; cols := 8; piece_at := fun _ _ => None; truthy := true |}.

Definition populated : store :=
  {| SVG_PIECES := {[ "merida" := [] ]};
     SVG_PATH_PIECES := {[ "merida" := [("K", "merida/wK.svg")] ]} |}.

(** A store whose stylesheet names an asset that is not on disk. *)
Definition unlinked : store :=
  {| SVG_PIECES := {[ "merida" := [] ]};
     SVG_PATH_PIECES := {[ "merida" := [("K", "merida/gone.svg")] ]} |}.

End Sample.

Definition missing_png : Arg.t :=
  {| Arg.board := Some Sample.empty_board;
     Arg.orientation := true;
     Arg.flipped := false;
     Arg.check := None;
     Arg.lastmove := None;
     Arg.arrows := [];
     Arg.squares := None;
     Arg.width := None;
     Arg.height := None;
     Arg.colors := None;
     Arg.coordinates := None;
     Arg.borders := false;
     Arg.background_image := Some "missing.png" |}.

Definition wood_with_coordinates : Arg.t :=
  {| Arg.board := Some Sample.empty_board;
     Arg.orientation := true;
     Arg.flipped := false;
     Arg.check := None;
     Arg.lastmove := None;
     Arg.arrows := [];
     Arg.squares := None;
     Arg.width := None;
     Arg.height := None;
     Arg.colors := None;
     Arg.coordinates := Some "chess";
     Arg.borders := false;
     Arg.background_image := Some "wood.svg" |}.

(** A vector background whose viewBox has three fields only, and a call
    that passes a width and asks for coordinates. *)
Definition short_svg : string := "<svg viewBox='0 0 100'/>".

Definition short_env : Env :=
  {| repr_float := repr_float Sample.env;
     float_of_string := float_of_string Sample.env;
     hypot := hypot Sample.env;
     fromstring :=
       fun s => if String.eqb s short_svg
                then Ok (Element "svg" [("viewBox", "0 0 100")] None [])
                else Raise ParseError;
     tostring := tostring Sample.env;
     isfile := isfile Sample.env;
     read_lines := read_lines Sample.env;
     upper_high := upper_high Sample.env;
     read_text := fun _ => Ok short_svg;
     read_bytes := read_bytes Sample.env;
     b64encode := b64encode Sample.env;
     normpath := normpath Sample.env;
     fromfile_viewBox := fromfile_viewBox Sample.env;
     compose_SVG := compose_SVG Sample.env;
     compose_tostring := compose_tostring Sample.env;
     COLOR_NAMES := COLOR_NAMES Sample.env;
     COORDS := COORDS Sample.env |}.

Definition short_viewbox : Arg.t :=
  {| Arg.board := Some Sample.empty_board;
     Arg.orientation := true;
     Arg.flipped := false;
     Arg.check := None;
     Arg.lastmove := None;
     Arg.arrows := [];
     Arg.squares := None;
     Arg.width := Some (VInt 400);
     Arg.height := None;
     Arg.colors := None;
     Arg.coordinates := Some "chess";
     Arg.borders := false;
     Arg.background_image := Some "short.svg" |}.

Definition cached : store :=
  {| SVG_PIECES := {[ "merida" := [("K", "<g/>")] ]};
     SVG_PATH_PIECES :=
       {[ "merida" := [("K", "merida/wK.svg"); ("k", "merida/bK.svg")] ]} |}.

(** The root with further children added after those it has. *)
Definition extend (l : list element) (e : element) : element :=
  Element (tag e) (attrib e) (text e) (children e ++ l)%list.

(** The name of a square: the letter of the file, then the rank counted
    from 1, in decimal. *)
Definition square_name (file rank : Z) : string :=
  String (ascii_of_N (Z.to_N (97 + file))) (pretty (rank + 1)).

(** The value bound to a key in a dict display. *)
Definition binding {A : Type} (k : string) (l : list (string * A))
  : option A :=
  snd <$> List.find (fun kv => String.eqb k (fst kv)) l.

(** The grid indices in the order of the two nested loops. *)
Definition grid_indices (b : Board) : list (Z * Z) :=
  flat_map (fun y => map (fun x => (y, x)) (range (cols b))) (range (rows b)).

(** The cell shown at a grid index holds a piece. *)
Definition occupied (b : Board) (orientation : bool) (yx : Z * Z) : bool :=
  match piece_at b (fst (display b orientation (fst yx) (snd yx)))
          (snd (display b orientation (fst yx) (snd yx))) with
  | Some _ => true
  | None => false
  end.

(** CPython writes an integer in decimal ([str], [%d], f-strings) only
    when it has at most 4300 digits. *)
Definition printable (n : Z) : Prop := Z.abs n < 10 ^ Py.max_str_digits.

Definition printable_value (v : option pyval) : Prop :=
  match v with
  | Some (VInt z) => printable z
  | _ => True
  end.

(** The integers that [board] writes before it draws: the pixel sizes
    of the board, alone and grown by the coordinate margin, and the
    caller's [width] and [height]. *)
Definition sizes_printable (a : Arg.t) (b : Board) : Prop :=
  printable (cols b * SQUARE_SIZE) /\
  printable (rows b * SQUARE_SIZE) /\
  printable (cols b * SQUARE_SIZE + 2 * 15) /\
  printable (rows b * SQUARE_SIZE + 2 * 15) /\
  printable_value (Arg.width a) /\
  printable_value (Arg.height a).

(** The last move is absent, or both its squares are well formed. *)
Definition lastmove_well_formed (a : Arg.t) (b : Board) : Prop :=
  match Arg.lastmove a with
  | None => True
  | Some m =>
      exists lastmove_from lastmove_to,
        cell b (from_square m) = Ok lastmove_from /\
        cell b (to_square m) = Ok lastmove_to
  end.

(** Neither a square of the checkerboard nor a highlight glyph: a
    rectangle is the check mark, and a [use] has no [href] attribute
    (the glyph refers to [#xx] through it, a piece has [xlink:href]
    only). *)
Definition no_square (e : element) : Prop :=
  (tag e = "rect" -> eget "class" e = Some "check") /\
  (tag e = "use" -> eget "href" e = None).

(** A call with a last move and no background. *)
Definition moved : Arg.t :=
  {| Arg.board := Some Sample.empty_board;
     Arg.orientation := true;
     Arg.flipped := false;
     Arg.check := None;
     Arg.lastmove := Some {| from_square := "e2"; to_square := "e4" |};
     Arg.arrows := [];
     Arg.squares := None;
     Arg.width := None;
     Arg.height := None;
     Arg.colors := None;
     Arg.coordinates := None;
     Arg.borders := false;
     Arg.background_image := None |}.

(** The arrow starts and ends on the same square. *)
Definition arrow_is_circle (a : arrow) : bool :=
  match square_file (arrow_head a), square_rank (arrow_head a),
        square_file (arrow_tail a), square_rank (arrow_tail a) with
  | Ok hf, Ok hr, Ok tf, Ok tr => cell_eqb (hf, hr) (tf, tr)
  | _, _, _, _ => false
  end.

(** The cell lies on the board. *)
Definition on_board (b : Board) (c : Z * Z) : bool :=
  (0 <=? fst c) && (fst c <? rows b) && (0 <=? snd c) && (snd c <? cols b).

(** The cell holds a piece. *)
Definition holds_piece (b : Board) (c : Z * Z) : bool :=
  match piece_at b (fst c) (snd c) with Some _ => true | None => false end.

(** An environment in which every raster file can be read and every
    fragment parses, and a call that asks for a raster background,
    highlighted squares and coordinates. *)
Definition raster_env : Env :=
  {| repr_float := repr_float Sample.env;
     float_of_string := float_of_string Sample.env;
     hypot := hypot Sample.env;
     fromstring := fun _ => Ok (Element "g" [] None []);
     tostring := tostring Sample.env;
     isfile := isfile Sample.env;
     read_lines := read_lines Sample.env;
     upper_high := upper_high Sample.env;
     read_text := read_text Sample.env;
     read_bytes := fun _ => Ok "bytes";
     b64encode := b64encode Sample.env;
     normpath := normpath Sample.env;
     fromfile_viewBox := fromfile_viewBox Sample.env;
     compose_SVG := compose_SVG Sample.env;
     compose_tostring := compose_tostring Sample.env;
     COLOR_NAMES := COLOR_NAMES Sample.env;
     COORDS := COORDS Sample.env |}.

Definition marble_jpg : Arg.t :=
  {| Arg.board := Some Sample.empty_board;
     Arg.orientation := true;
     Arg.flipped := false;
     Arg.check := None;
     Arg.lastmove := None;
     Arg.arrows := [];
     Arg.squares := Some ["a1"];
     Arg.width := None;
     Arg.height := None;
     Arg.colors := Some [("coord", "#fff")];
     Arg.coordinates := Some "chess";
     Arg.borders := false;
     Arg.background_image := Some "marble.jpg" |}.

(** * Properties *)

(** ** The color resolver *)

Example color_abcd : _color "#abcd" = ("#abc", (13 # 15)%Q).
Proof. reflexivity. Qed.

Example color_aabbccdd : _color "#aabbccdd" = ("#aabbcc", (221 # 255)%Q).
Proof. reflexivity. Qed.

Example color_notahex : _color "notahex" = ("notahex", 1%Q).
Proof. reflexivity. Qed.

(** Every other literal comes back whole and opaque. *)
Lemma color_fallback (color : string) :
  ~ decodes color -> _color color = (color, 1%Q).
Proof.
  intros Hno. unfold _color.
  destruct (Py.startswith "#" color) eqn:Hhash; [|reflexivity].
  destruct (Py.len color =? 5) eqn:H5.
  - apply Z.eqb_eq in H5.
    destruct (Py.item color 4) as [c|e] eqn:Hc; simpl; [|reflexivity].
    destruct (Py.int (String c EmptyString) 16) as [n|e] eqn:Hn;
      [|reflexivity].
    exfalso. apply Hno. split; [exact Hhash|]. left. eauto.
  - destruct (Py.len color =? 9) eqn:H9; [|reflexivity].
    apply Z.eqb_eq in H9.
    destruct (Py.int (Py.slice color (Some 7) None) 16) as [n|e] eqn:Hn;
      [|reflexivity].
    exfalso. apply Hno. split; [exact Hhash|]. right. eauto.
Qed.

(** A literal that decodes loses its alpha digits, and its opacity is
    their value over 15 or 255. *)
Lemma color_decoded (color : string) :
  decodes color ->
  exists n : Z,
    (Py.len color = 5 /\
     _color color
     = (Py.slice color None (Some 4), (inject_Z n / inject_Z 15)%Q)) \/
    (Py.len color = 9 /\
     _color color
     = (Py.slice color None (Some 7), (inject_Z n / inject_Z 255)%Q)).
Proof.
  intros [Hhash [[H5 (c & n & Hc & Hn)] | [H9 (n & Hn)]]];
    exists n; unfold _color; rewrite Hhash.
  - left. split; [exact H5|]. rewrite H5. simpl. rewrite Hc. simpl.
    rewrite Hn. reflexivity.
  - right. split; [exact H9|]. rewrite H9. simpl. rewrite Hn. reflexivity.
Qed.

(** A single character is accepted by [int(c, 16)] exactly when it is a
    hexadecimal digit. *)
Lemma int16_one_char (c : ascii) (n : Z) :
  Py.int (String c EmptyString) 16 = Ok n <-> Py.digit_in 16 c = Some n.
Proof.
  destruct c as [[] [] [] [] [] [] [] []]; vm_compute;
    split; intros H; inversion H; reflexivity.
Qed.

(** C4. The two hex-with-alpha examples and the plain literal decode as
    stated, but a nine-character literal whose last two characters are a
    sign and a digit is decoded too: ["#aabbcc-1"] does not come back
    whole with opacity 1, it yields ["#aabbcc"] with the negative opacity
    -1/255. *)
Theorem color_signed_alpha :
  _color "#abcd" = ("#abc", (13 # 15)%Q) /\
  _color "#aabbccdd" = ("#aabbcc", (221 # 255)%Q) /\
  _color "notahex" = ("notahex", 1%Q) /\
  Py.digit_in 16 "-" = None /\
  _color "#aabbcc-1" = ("#aabbcc", (-1 # 255)%Q) /\
  _color "#aabbcc-1" <> ("#aabbcc-1", 1%Q).
Proof. repeat split; try reflexivity. discriminate. Qed.

(** ** The single-piece renderer *)

Section Piece.

Context (E : Env).


End Piece.


(** ** Arrow anchors *)

(** C6. The anchor of a square under orientation [true] is the anchor of
    the mirrored square under orientation [false]. *)
Theorem anchor_mirror (b : Board) (coordinates : bool)
    (margin inner_border outer_border file rank : Z) :
  let p := anchor b true coordinates margin inner_border outer_border
             file rank in
  let q := anchor b false coordinates margin inner_border outer_border
             (cols b - 1 - file) (rows b - 1 - rank) in
  (fst p == fst q)%Q /\ (snd p == snd q)%Q.
Proof.
  unfold anchor; simpl.
  unfold Z.sub. rewrite !inject_Z_plus, !inject_Z_opp.
  split; ring.
Qed.

(** ** Arrows *)

Lemma Qltb_lt (x y : Q) : Qltb x y = true <-> (x < y)%Q.
Proof.
  unfold Qltb. rewrite negb_true_iff. split.
  - intros H. apply Qnot_le_lt. intros Hle.
    apply Qle_bool_iff in Hle. congruence.
  - intros H. destruct (Qle_bool y x) eqn:Hb; [|reflexivity].
    apply Qle_bool_iff in Hb. exfalso. exact (Qlt_not_le _ _ H Hb).
Qed.

Lemma opacity_value_full (opacity : Q) :
  (opacity == 1)%Q -> opacity_value opacity = None.
Proof.
  intros H. unfold opacity_value.
  destruct (Qltb opacity 1) eqn:Hb; [|reflexivity].
  apply Qltb_lt in Hb. rewrite H in Hb. exfalso. exact (Qlt_irrefl _ Hb).
Qed.

Lemma opacity_value_partial (opacity : Q) :
  (opacity < 1)%Q -> opacity_value opacity = Some (VFloat opacity).
Proof.
  intros H. unfold opacity_value.
  apply Qltb_lt in H. rewrite H. reflexivity.
Qed.

Lemma children_fold_append (drawn : list element) (svg : element) :
  fold_left (fun svg e => append e svg) drawn svg
  = Element (tag svg) (attrib svg) (text svg) (children svg ++ drawn).
Proof.
  revert svg. induction drawn as [|e drawn IH]; intros [t a x cs]; simpl.
  - rewrite app_nil_r. reflexivity.
  - rewrite IH. simpl. rewrite <- app_assoc. reflexivity.
Qed.

Section Arrows.

Context (E : Env).

Lemma divide_ok (a h : Q) : ~ (h == 0)%Q -> divide a h = Ok (a / h)%Q.
Proof.
  intros Hh. unfold divide.
  destruct (Qeq_bool h 0) eqn:Hb; [|reflexivity].
  apply Qeq_bool_iff in Hb. contradiction.
Qed.

Lemma cell_eqb_eq (c d : Z * Z) : cell_eqb c d = true <-> c = d.
Proof.
  destruct c as [c1 c2], d as [d1 d2]. unfold cell_eqb; simpl.
  rewrite andb_true_iff, !Z.eqb_eq. split.
  - intros [-> ->]. reflexivity.
  - intros H. inversion H. auto.
Qed.

(** The anchors of two distinct squares differ. *)
Lemma anchor_apart (b : Board) (orientation coordinates : bool)
    (margin inner_border outer_border tf tr hf hr : Z) :
  cell_eqb (hf, hr) (tf, tr) = false ->
  let p := anchor b orientation coordinates margin inner_border outer_border
             hf hr in
  let q := anchor b orientation coordinates margin inner_border outer_border
             tf tr in
  ~ ((fst p - fst q == 0)%Q /\ (snd p - snd q == 0)%Q).
Proof.
  intros Hne p q [Hx Hy]. subst p q. unfold anchor in Hx, Hy; simpl in Hx, Hy.
  change (inject_Z SQUARE_SIZE) with (45 # 1)%Q in Hx, Hy.
  assert (Hf : (inject_Z hf == inject_Z tf)%Q) by (destruct orientation; lra).
  assert (Hr : (inject_Z hr == inject_Z tr)%Q) by (destruct orientation; lra).
  apply (proj1 (inject_Z_injective _ _)) in Hf.
  apply (proj1 (inject_Z_injective _ _)) in Hr.
  subst hf hr.
  assert (Heq : cell_eqb (tf, tr) (tf, tr) = true) by (apply cell_eqb_eq; reflexivity).
  congruence.
Qed.

(** What [arrow_elements] returns, case by case. *)
Lemma arrow_elements_same (b : Board) (orientation coordinates : bool)
    (margin inner_border outer_border tf tr hf hr : Z)
    (color : string) (opacity : Q) :
  cell_eqb (hf, hr) (tf, tr) = true ->
  exists attrs,
    arrow_elements E b orientation coordinates margin inner_border
      outer_border tf tr hf hr color opacity
    = Ok [Element "circle" attrs None []] /\
    Dict.get "opacity" attrs = py_str E <$> opacity_value opacity /\
    Dict.get "stroke" attrs = Some color.
Proof.
  intros Hsame. unfold arrow_elements.
  destruct (anchor _ _ _ _ _ _ tf tr) as [xtail ytail].
  destruct (anchor _ _ _ _ _ _ hf hr) as [xhead yhead].
  rewrite Hsame. eexists. split; [reflexivity|].
  destruct (opacity_value opacity); split; reflexivity.
Qed.

Lemma arrow_elements_distinct (b : Board) (orientation coordinates : bool)
    (margin inner_border outer_border tf tr hf hr : Z)
    (color : string) (opacity : Q) :
  hypot_definite E ->
  cell_eqb (hf, hr) (tf, tr) = false ->
  exists shaft head,
    arrow_elements E b orientation coordinates margin inner_border
      outer_border tf tr hf hr color opacity
    = Ok [Element "line" shaft None []; Element "polygon" head None []] /\
    Dict.get "opacity" shaft = py_str E <$> opacity_value opacity /\
    Dict.get "opacity" head = py_str E <$> opacity_value opacity /\
    Dict.get "stroke" shaft = Some color /\
    Dict.get "fill" head = Some color.
Proof.
  intros Hhyp Hne. unfold arrow_elements.
  pose proof (anchor_apart b orientation coordinates margin inner_border
                outer_border tf tr hf hr Hne) as Hapart.
  cbv zeta in Hapart.
  destruct (anchor _ _ _ _ _ _ tf tr) as [xtail ytail].
  destruct (anchor _ _ _ _ _ _ hf hr) as [xhead yhead].
  cbn [fst snd] in Hapart. rewrite Hne.
  assert (Hh : ~ (hypot E (xhead - xtail) (yhead - ytail) == 0)%Q).
  { intros H0. apply Hapart. apply Hhyp. exact H0. }
  rewrite !(divide_ok _ _ Hh). simpl.
  eexists. eexists. split; [reflexivity|].
  destruct (opacity_value opacity); repeat split; reflexivity.
Qed.

End Arrows.

Section RenderArrow.

Context (E : Env) (b : Board) (orientation coordinates : bool)
  (margin inner_border outer_border : Z) (colors : scheme).

Local Abbreviation render := (render_arrow E b orientation coordinates margin
                      inner_border outer_border colors).
Local Abbreviation elements := (arrow_elements E b orientation coordinates margin
                        inner_border outer_border).

Lemma render_arrow_eq (a : arrow) (svg : element) (resolved : string * Q)
    (tf tr hf hr : Z) :
  arrow_color colors (arrow_slot a) = Ok resolved ->
  arrow_squares a tf tr hf hr ->
  render a svg
  = (drawn <- elements tf tr hf hr (fst resolved) (snd resolved) ;;
     Ok (fold_left (fun svg e => append e svg) drawn svg)).
Proof.
  unfold arrow_squares, arrow_tail, arrow_head, arrow_slot, render_arrow.
  destruct (arrow_parts a) as [[tail head] color]; simpl.
  intros -> (-> & -> & -> & ->). reflexivity.
Qed.

Lemma render_arrow_inv (a : arrow) (svg svg' : element) :
  render a svg = Ok svg' ->
  exists resolved tf tr hf hr drawn,
    arrow_color colors (arrow_slot a) = Ok resolved /\
    arrow_squares a tf tr hf hr /\
    elements tf tr hf hr (fst resolved) (snd resolved) = Ok drawn /\
    svg' = Element (tag svg) (attrib svg) (text svg) (children svg ++ drawn)%list.
Proof.
  unfold arrow_squares, arrow_tail, arrow_head, arrow_slot, render_arrow.
  destruct (arrow_parts a) as [[tail head] color]; simpl.
  destruct (arrow_color colors color) as [resolved|] eqn:Hc; [|discriminate].
  destruct (square_file tail) as [tf|]; [|discriminate].
  destruct (square_rank tail) as [tr|]; [|discriminate].
  destruct (square_file head) as [hf|]; [|discriminate].
  destruct (square_rank head) as [hr|]; [|discriminate]. simpl.
  destruct (elements tf tr hf hr (fst resolved) (snd resolved))
    as [drawn|] eqn:Hd; [|discriminate].
  simpl. intros H. inversion H as [H']. clear H.
  exists resolved, tf, tr, hf, hr, drawn.
  rewrite children_fold_append. repeat split; reflexivity || assumption.
Qed.

(** The elements of one arrow, whatever the squares: a lone circle, or a
    line followed by a polygon, each carrying the opacity attribute
    exactly when the value passed on is not [None]. *)
Lemma arrow_elements_inv (tf tr hf hr : Z) (color : string) (opacity : Q)
    (drawn : list element) :
  elements tf tr hf hr color opacity = Ok drawn ->
  map tag drawn
  = (if cell_eqb (hf, hr) (tf, tr) then ["circle"] else ["line"; "polygon"])
  /\ Forall (fun e => eget "opacity" e = py_str E <$> opacity_value opacity)
       drawn.
Proof.
  destruct (cell_eqb (hf, hr) (tf, tr)) eqn:Hc.
  - destruct (arrow_elements_same E b orientation coordinates margin
                inner_border outer_border tf tr hf hr color opacity Hc)
      as (attrs & Heq & Hop & _).
    rewrite Heq. intros H. inversion H. subst drawn. split; [reflexivity|].
    repeat constructor. exact Hop.
  - unfold arrow_elements.
    destruct (anchor _ _ _ _ _ _ tf tr) as [xtail ytail].
    destruct (anchor _ _ _ _ _ _ hf hr) as [xhead yhead].
    rewrite Hc.
    repeat match goal with
           | |- context [divide ?a ?h] =>
               destruct (divide a h); simpl; [|discriminate]
           end.
    intros H. inversion H. subst drawn. split; [reflexivity|].
    destruct (opacity_value opacity); repeat constructor.
Qed.

(** An arrow whose color resolves and whose squares are well formed is
    drawn: the tags of the new children depend on the squares only. *)
Lemma render_arrow_total (a : arrow) (svg : element) (resolved : string * Q)
    (tf tr hf hr : Z) :
  hypot_definite E ->
  arrow_color colors (arrow_slot a) = Ok resolved ->
  arrow_squares a tf tr hf hr ->
  exists drawn,
    render a svg
    = Ok (Element (tag svg) (attrib svg) (text svg) (children svg ++ drawn)%list)
    /\ map tag drawn
       = (if cell_eqb (hf, hr) (tf, tr) then ["circle"]
          else ["line"; "polygon"])
    /\ Forall (fun e => eget "opacity" e = py_str E <$> opacity_value (snd resolved))
         drawn.
Proof.
  intros Hhyp Hc Hsq.
  rewrite (render_arrow_eq a svg resolved tf tr hf hr Hc Hsq).
  assert (Hd : exists drawn,
             elements tf tr hf hr (fst resolved) (snd resolved) = Ok drawn).
  { destruct (cell_eqb (hf, hr) (tf, tr)) eqn:Hcell.
    - destruct (arrow_elements_same E b orientation coordinates margin
                  inner_border outer_border tf tr hf hr
                  (fst resolved) (snd resolved) Hcell) as (? & Heq & _).
      eauto.
    - destruct (arrow_elements_distinct E b orientation coordinates margin
                  inner_border outer_border tf tr hf hr
                  (fst resolved) (snd resolved) Hhyp Hcell)
        as (? & ? & Heq & _).
      eauto. }
  destruct Hd as [drawn Hd]. exists drawn. rewrite Hd. unfold bind.
  rewrite children_fold_append. split; [reflexivity|].
  apply arrow_elements_inv in Hd. exact Hd.
Qed.

(** C9. Every element drawn for an arrow omits the opacity attribute
    when the resolved opacity is 1 and carries it when the resolved
    opacity is below 1. *)
Theorem arrow_opacity_attribute (a : arrow) (svg svg' : element) :
  render a svg = Ok svg' ->
  exists color opacity drawn,
    arrow_color colors (arrow_slot a) = Ok (color, opacity) /\
    children svg' = (children svg ++ drawn)%list /\
    drawn <> [] /\
    Forall (fun e =>
              ((opacity == 1)%Q -> eget "opacity" e = None) /\
              ((opacity < 1)%Q ->
               eget "opacity" e = Some (repr_float E opacity)))
           drawn.
Proof.
  intros H. apply render_arrow_inv in H.
  destruct H as ([color opacity] & tf & tr & hf & hr & drawn
                 & Hc & _ & Hd & ->).
  exists color, opacity, drawn. simpl in Hd.
  apply arrow_elements_inv in Hd. destruct Hd as [Htags Hop].
  repeat split; try assumption.
  - intros ->. destruct (cell_eqb (hf, hr) (tf, tr)); discriminate.
  - eapply Forall_impl; [exact Hop|]. intros e He. simpl in He. split.
    + intros H1. rewrite He, (opacity_value_full _ H1). reflexivity.
    + intros H1. rewrite He, (opacity_value_partial _ H1). reflexivity.
Qed.

(** C7. An arrow whose color resolves and whose squares are well formed
    is drawn, as one circle and nothing else when head and tail are the
    same square, and as one line and one polygon and no circle when they
    differ. *)
Theorem arrow_dichotomy (a : arrow) (svg : element) (resolved : string * Q)
    (tf tr hf hr : Z) :
  hypot_definite E ->
  arrow_color colors (arrow_slot a) = Ok resolved ->
  arrow_squares a tf tr hf hr ->
  exists drawn,
    render a svg
    = Ok (Element (tag svg) (attrib svg) (text svg) (children svg ++ drawn)%list) /\
    ((hf, hr) = (tf, tr) ->
     count_tag "circle" drawn = 1%nat /\
     count_tag "line" drawn = 0%nat /\
     count_tag "polygon" drawn = 0%nat) /\
    ((hf, hr) <> (tf, tr) ->
     count_tag "line" drawn = 1%nat /\
     count_tag "polygon" drawn = 1%nat /\
     count_tag "circle" drawn = 0%nat).
Proof.
  intros Hhyp Hc Hsq.
  destruct (render_arrow_total a svg resolved tf tr hf hr Hhyp Hc Hsq)
    as (drawn & Hr & Htags & _).
  exists drawn. split; [exact Hr|].
  assert (Hcount : forall t, count_tag t drawn
            = length (List.filter (fun x => String.eqb x t) (map tag drawn))).
  { intros t. unfold count_tag. clear. induction drawn as [|e l IH]; simpl.
    - reflexivity.
    - destruct (String.eqb (tag e) t); simpl; rewrite IH; reflexivity. }
  rewrite !Hcount, Htags.
  destruct (cell_eqb (hf, hr) (tf, tr)) eqn:Hcell; split.
  - intros _. repeat split; reflexivity.
  - intros Hne. apply cell_eqb_eq in Hcell. contradiction.
  - intros Heq. apply cell_eqb_eq in Heq. congruence.
  - intros _. repeat split; reflexivity.
Qed.

End RenderArrow.

Lemma select_color_no_default (d : list (string * string)) (slot : string) :
  DEFAULT_COLORS !! slot = None -> _select_color (Some d) slot = Raise KeyError.
Proof. intros H. unfold _select_color. rewrite H. reflexivity. Qed.

Section UnknownSlot.

Context (E : Env) (b : Board) (orientation coordinates : bool)
  (margin inner_border outer_border : Z).

(** C8. A slot bound neither by the caller's scheme nor by the default
    palette makes [_select_color] raise [KeyError]; the arrow loop handles
    that exception and no other, keeps the color name, sets the opacity
    to 1 and draws the arrow without an opacity attribute. *)
Theorem unknown_slot_caught (d : list (string * string)) (a : arrow)
    (svg : element) (tf tr hf hr : Z) :
  hypot_definite E ->
  assoc (Py.join " " ["arrow"; arrow_slot a]) d = None ->
  DEFAULT_COLORS !! Py.join " " ["arrow"; arrow_slot a] = None ->
  arrow_squares a tf tr hf hr ->
  (forall slot, assoc slot d = None -> DEFAULT_COLORS !! slot = None ->
                _select_color (Some d) slot = Raise KeyError) /\
  arrow_color (Some d) (arrow_slot a) = Ok (arrow_slot a, 1%Q) /\
  arrow_color None (arrow_slot a) = Raise AttributeError /\
  exists drawn,
    render_arrow E b orientation coordinates margin inner_border
      outer_border (Some d) a svg
    = Ok (Element (tag svg) (attrib svg) (text svg)
            (children svg ++ drawn)%list) /\
    drawn <> [] /\
    Forall (fun e => eget "opacity" e = None) drawn.
Proof.
  intros Hhyp _ Hdef Hsq.
  assert (Hc : arrow_color (Some d) (arrow_slot a) = Ok (arrow_slot a, 1%Q)).
  { unfold arrow_color. rewrite (select_color_no_default d _ Hdef).
    reflexivity. }
  split; [intros slot _ H; exact (select_color_no_default d slot H)|].
  split; [exact Hc|]. split; [reflexivity|].
  destruct (render_arrow_total E b orientation coordinates margin
              inner_border outer_border (Some d) a svg _ tf tr hf hr
              Hhyp Hc Hsq)
    as (drawn & Hr & Htags & Hop).
  exists drawn. split; [exact Hr|]. split.
  - intros ->. destruct (cell_eqb (hf, hr) (tf, tr)); discriminate.
  - eapply Forall_impl; [exact Hop|]. intros e He. simpl in He.
    rewrite He. reflexivity.
Qed.

End UnknownSlot.

(** *** The statements at work on the sample environment *)

Lemma sample_hypot_definite : hypot_definite Sample.env.
Proof.
  intros x y H. simpl in H.
  pose proof (Qabs_nonneg x) as Hx. pose proof (Qabs_nonneg y) as Hy.
  pose proof (Qle_Qabs x) as Hx1. pose proof (Qle_Qabs (- x)) as Hx2.
  pose proof (Qle_Qabs y) as Hy1. pose proof (Qle_Qabs (- y)) as Hy2.
  rewrite Qabs_opp in Hx2, Hy2.
  split; lra.
Qed.

Lemma arrow_dichotomy_witness :
  exists drawn,
    render_arrow Sample.env Sample.empty_board true false 0 0 0 (Some [])
      (Pair "e2" "e4") (Element "svg" [] None [])
    = Ok (Element "svg" [] None drawn) /\
    count_tag "line" drawn = 1%nat /\
    count_tag "polygon" drawn = 1%nat /\
    count_tag "circle" drawn = 0%nat.
Proof.
  destruct (arrow_dichotomy Sample.env Sample.empty_board true false 0 0 0
              (Some []) (Pair "e2" "e4") (Element "svg" [] None [])
              ("#15781B", (128 # 255)%Q) 4 1 4 3 sample_hypot_definite)
    as (drawn & Hr & _ & Hne).
  - reflexivity.
  - repeat split; reflexivity.
  - exists drawn. split; [exact Hr|]. apply Hne. discriminate.
Defined.

Lemma arrow_opacity_attribute_witness :
  exists color opacity drawn,
    arrow_color (Some []) "red" = Ok (color, opacity) /\
    drawn <> [] /\
    Forall (fun e =>
              ((opacity == 1)%Q -> eget "opacity" e = None) /\
              ((opacity < 1)%Q ->
               eget "opacity" e = Some (repr_float Sample.env opacity)))
           drawn.
Proof.
  destruct (arrow_opacity_attribute Sample.env Sample.empty_board true false
              0 0 0 (Some []) (Arrow "a1" "a1" "red")
              (Element "svg" [] None [])
              (Element "svg" [] None
                 [Element "circle"
                    [("cx", "45/2"); ("cy", "675/2"); ("r", "4185/200");
                     ("stroke-width", "315/100"); ("stroke", "#882020");
                     ("opacity", "128/255"); ("fill", "none");
                     ("class", "circle")] None []]))
    as (color & opacity & drawn & Hc & _ & Hne & Hall).
  - vm_compute. reflexivity.
  - exists color, opacity, drawn. auto.
Defined.

Lemma unknown_slot_caught_witness :
  arrow_color (Some []) "purple" = Ok ("purple", 1%Q) /\
  exists drawn,
    render_arrow Sample.env Sample.empty_board true false 0 0 0 (Some [])
      (Arrow "a1" "h8" "purple") (Element "svg" [] None [])
    = Ok (Element "svg" [] None drawn) /\
    drawn <> [] /\
    Forall (fun e => eget "opacity" e = None) drawn.
Proof.
  destruct (unknown_slot_caught Sample.env Sample.empty_board true false
              0 0 0 [] (Arrow "a1" "h8" "purple") (Element "svg" [] None [])
              0 0 7 7 sample_hypot_definite)
    as (_ & Hc & _ & drawn & Hr & Hne & Hall).
  - reflexivity.
  - reflexivity.
  - repeat split; reflexivity.
  - split; [exact Hc|]. exists drawn. auto.
Defined.

(** ** The background step *)

Section Background.

Context (E : Env).

(** The flag depends on the presence of a reference only. *)
Lemma background_flag (b : Board) (margin : Z) (image : option string)
    (l : locals) :
  snd (fst (background E b margin image l)) = negb (truthy_str image).
Proof.
  unfold background. destruct (truthy_str image); [|reflexivity].
  destruct (Py.endswith ".svg" (Py.lower (default EmptyString image)));
    [destruct (background_svg _ _ _ _ _)|destruct (background_raster _ _ _ _ _)];
    reflexivity.
Qed.

End Background.


(** ** Size attributes of the root *)

(** C5. With coordinates requested and a vector background whose root
    declares a width and a height, the document carries [width] and
    [height] attributes although the caller passed neither: the
    background step rebinds the two names that the growth step tests. *)
Theorem size_attributes_leak :
  Arg.width wood_with_coordinates = None /\
  Arg.height wood_with_coordinates = None /\
  exists root ev,
    board_tree Sample.env "merida" wood_with_coordinates Sample.populated
    = (Ok root, ev) /\
    eget "viewBox" root = Some "0 0 390 390" /\
    eget "width" root = Some "390" /\
    eget "height" root = Some "390".
Proof.
  split; [reflexivity|]. split; [reflexivity|].
  eexists. eexists. split; [vm_compute; reflexivity|].
  repeat split; reflexivity.
Qed.

(** ** Theme population *)

Section Populate.

Context (E : Env).

Lemma store_path_spec (css symbol url : string) (st st' : store) :
  store_path css symbol url st = Ok st' ->
  SVG_PIECES st' = SVG_PIECES st /\
  exists d, SVG_PATH_PIECES st' = <[css := d]> (SVG_PATH_PIECES st).
Proof.
  unfold store_path.
  destruct (SVG_PATH_PIECES st !! css) as [d|]; simpl; [|discriminate].
  intros H. inversion H. simpl. eauto.
Qed.

Lemma scan_line_spec (css line : string) (st st' : store) (a a' : accum) :
  is_Some (SVG_PATH_PIECES st !! css) ->
  scan_line E css line (st, a) = Ok (st', a') ->
  SVG_PIECES st' = SVG_PIECES st /\
  exists d, SVG_PATH_PIECES st' = <[css := d]> (SVG_PATH_PIECES st).
Proof.
  intros [d0 Hd0]. unfold scan_line.
  assert (Hid : forall a0, Ok (st, a0) = Ok (st', a') ->
            SVG_PIECES st' = SVG_PIECES st /\
            exists d, SVG_PATH_PIECES st' = <[css := d]> (SVG_PATH_PIECES st)).
  { intros a0 H. inversion H. subst st'. split; [reflexivity|].
    exists d0. symmetry. apply insert_id. exact Hd0. }
  destruct (String.eqb (Py.strip line) EmptyString); [apply Hid|].
  match goal with
  | |- context [if ?c then bind (store_path css ?s ?u st) _ else _] =>
      destruct c; [|apply Hid];
      destruct (store_path css s u st) as [st1|] eqn:Hs; simpl; [|discriminate]
  end.
  intros H. inversion H. subst st1. eapply store_path_spec. exact Hs.
Qed.

Lemma scan_lines_spec (css : string) (lines : list string) (st st' : store)
    (a a' : accum) :
  is_Some (SVG_PATH_PIECES st !! css) ->
  scan_lines E css lines (st, a) = Ok (st', a') ->
  SVG_PIECES st' = SVG_PIECES st /\
  exists d, SVG_PATH_PIECES st' = <[css := d]> (SVG_PATH_PIECES st).
Proof.
  revert st a. induction lines as [|line rest IH]; intros st a Hsome.
  - simpl. intros H. inversion H. subst st'. split; [reflexivity|].
    destruct Hsome as [d0 Hd0]. exists d0. symmetry. apply insert_id.
    exact Hd0.
  - change (scan_lines E css (line :: rest) (st, a))
      with (bind (scan_line E css line (st, a))
              (fun s => scan_lines E css rest s)).
    destruct (scan_line E css line (st, a)) as [[st1 a1]|] eqn:Hl;
      unfold bind; [|intros; discriminate].
    intros Hrest.
    destruct (scan_line_spec css line st st1 a a1 Hsome Hl) as [Hp1 [d1 Hq1]].
    assert (Hsome1 : is_Some (SVG_PATH_PIECES st1 !! css)).
    { rewrite Hq1, lookup_insert_eq. eauto. }
    destruct (IH st1 a1 Hsome1 Hrest) as [Hp2 [d2 Hq2]].
    split; [congruence|]. exists d2.
    rewrite Hq2, Hq1. apply insert_insert_eq.
Qed.




End Populate.


(** ** Loading one asset *)

Section ReadPiece.

Context (E : Env).

(** C2, as the code has it.  For an asset that the stylesheet names: a
    missing file and a path that does not end in [svg] are skipped with
    one message each, after the test for the file and before anything
    is loaded; an asset without viewBox whose figure has no width gets
    the empty fragment, without message or exception; but when the
    loader raises [AttributeError], which the code reports as a
    probable lack of width and height, the message is printed and the
    exception is raised again, the store being left as it was. *)
Theorem sizeless_asset (css : string) (p : Piece) (st : store)
    (paths theme : Dict.t) (piece_svg : string) :
  SVG_PATH_PIECES st !! css = Some paths ->
  Dict.get (symbol p) paths = Some piece_svg ->
  SVG_PIECES st !! css = Some theme ->
  let orig_file := orig_file_of E css piece_svg in
  (isfile E orig_file = false ->
   read_piece_svg E css p st
   = (Ok tt, st,
      [IsFile orig_file;
       Print ("ERROR: FileNotFoundError " +:+ orig_file)])) /\
  (isfile E orig_file = true ->
   Py.slice orig_file (Some (-3)) None <> "svg" ->
   read_piece_svg E css p st
   = (Ok tt, st,
      [IsFile orig_file;
       Print ("ERROR: " +:+ orig_file +:+ " is not in .svg format")])) /\
  (isfile E orig_file = true ->
   Py.slice orig_file (Some (-3)) None = "svg" ->
   fromfile_viewBox E orig_file = Ok None ->
   compose_SVG E orig_file = Ok None ->
   read_piece_svg E css p st
   = (Ok tt,
      set_pieces <[css := Dict.set (symbol p) EmptyString theme]> st,
      [IsFile orig_file; Load orig_file; Load orig_file])) /\
  (isfile E orig_file = true ->
   Py.slice orig_file (Some (-3)) None = "svg" ->
   forall viewBox, fromfile_viewBox E orig_file = Ok viewBox ->
   compose_SVG E orig_file = Raise AttributeError ->
   read_piece_svg E css p st
   = (Raise AttributeError, st,
      [IsFile orig_file; Load orig_file; Load orig_file;
       Print ("ERROR: Possible " +:+ orig_file +:+ " referenced in "
              +:+ css +:+ ".css has no 'width/height'")])).
Proof.
  intros Hpaths Hsym Htheme orig_file. unfold read_piece_svg.
  rewrite Hpaths, Hsym. fold orig_file.
  split; [|split; [|split]].
  - intros ->. reflexivity.
  - intros -> Hext. simpl.
    apply String.eqb_neq in Hext. rewrite Hext. reflexivity.
  - intros -> Hext Hvb Hc. simpl.
    rewrite Hext, Hvb, Hc. simpl.
    unfold store_piece. rewrite Htheme. reflexivity.
  - intros -> Hext viewBox Hvb Hc. simpl.
    rewrite Hext, Hvb, Hc. reflexivity.
Qed.

End ReadPiece.

Lemma sizeless_asset_witness :
  read_piece_svg Sample.env "merida" {| symbol := "K"; color := true |}
    Sample.populated
  = (Raise AttributeError, Sample.populated,
     [IsFile Sample.wK_file; Load Sample.wK_file; Load Sample.wK_file;
      Print ("ERROR: Possible " +:+ Sample.wK_file
             +:+ " referenced in merida.css has no 'width/height'")]) /\
  read_piece_svg Sample.percent_env "merida"
    {| symbol := "K"; color := true |} Sample.populated
  = (Ok tt,
     set_pieces <["merida" := [("K", EmptyString)]]> Sample.populated,
     [IsFile Sample.wK_file; Load Sample.wK_file; Load Sample.wK_file]) /\
  read_piece_svg Sample.env "merida" {| symbol := "K"; color := true |}
    Sample.unlinked
  = (Ok tt, Sample.unlinked,
     [IsFile "pychess-variants/static/piece/merida/../merida/gone.svg";
      Print "ERROR: FileNotFoundError pychess-variants/static/piece/merida/../merida/gone.svg"]).
Proof.
  pose proof (sizeless_asset Sample.env "merida"
                {| symbol := "K"; color := true |} Sample.populated
                [("K", "merida/wK.svg")] [] "merida/wK.svg"
                eq_refl eq_refl eq_refl) as (_ & _ & _ & Hraise).
  pose proof (sizeless_asset Sample.percent_env "merida"
                {| symbol := "K"; color := true |} Sample.populated
                [("K", "merida/wK.svg")] [] "merida/wK.svg"
                eq_refl eq_refl eq_refl) as (_ & _ & Hskip & _).
  pose proof (sizeless_asset Sample.env "merida"
                {| symbol := "K"; color := true |} Sample.unlinked
                [("K", "merida/gone.svg")] [] "merida/gone.svg"
                eq_refl eq_refl eq_refl) as (Hmissing & _).
  split; [|split].
  - exact (Hraise eq_refl eq_refl None eq_refl eq_refl).
  - exact (Hskip eq_refl eq_refl eq_refl eq_refl).
  - exact (Hmissing eq_refl).
Defined.

(** C2 as stated fails: the asset has no viewBox, the loader raises
    [AttributeError], and the exception leaves [read_piece_svg] after
    the message about width and height is printed. *)
Lemma asset_loader_error_raised :
  fromfile_viewBox Sample.env Sample.wK_file = Ok None /\
  compose_SVG Sample.env Sample.wK_file = Raise AttributeError /\
  read_piece_svg Sample.env "merida" {| symbol := "K"; color := true |}
    Sample.populated
  = (Raise AttributeError, Sample.populated,
     [IsFile Sample.wK_file; Load Sample.wK_file; Load Sample.wK_file;
      Print ("ERROR: Possible " +:+ Sample.wK_file
             +:+ " referenced in merida.css has no 'width/height'")]).
Proof. repeat split. Qed.

(** ** Attributes of the root through the render *)

Lemma mem_set_eq (k v : string) (d : Dict.t) : Dict.mem k (Dict.set k v d) = true.
Proof.
  unfold Dict.mem, Dict.get. induction d as [|[k' v'] d IH]; simpl.
  - rewrite String.eqb_refl. reflexivity.
  - destruct (String.eqb k k') eqn:Hk; simpl.
    + rewrite String.eqb_refl. reflexivity.
    + rewrite Hk. exact IH.
Qed.

Lemma mem_set_ne (k k' v : string) (d : Dict.t) :
  k <> k' -> Dict.mem k (Dict.set k' v d) = Dict.mem k d.
Proof.
  intros Hne. apply String.eqb_neq in Hne.
  unfold Dict.mem, Dict.get. induction d as [|[k0 v0] d IH]; simpl.
  - rewrite Hne. reflexivity.
  - destruct (String.eqb k' k0) eqn:Hk; simpl.
    + apply String.eqb_eq in Hk. subst k0. rewrite Hne. reflexivity.
    + destruct (String.eqb k k0); [reflexivity|exact IH].
Qed.

Lemma has_attr_eset_eq (k v : string) (e : element) :
  has_attr k (eset k v e) = true.
Proof. destruct e. apply mem_set_eq. Qed.

Lemma has_attr_eset_ne (k k' v : string) (e : element) :
  k <> k' -> has_attr k (eset k' v e) = has_attr k e.
Proof. destruct e. apply mem_set_ne. Qed.

Lemma attrib_append (c e : element) : attrib (append c e) = attrib e.
Proof. destruct e. reflexivity. Qed.

Lemma attrib_insert_child (i : nat) (c e : element) :
  attrib (insert_child i c e) = attrib e.
Proof. destruct e. reflexivity. Qed.

Lemma bind_ok {A B : Type} (r : result A) (k : A -> result B) (y : B) :
  bind r k = Ok y -> exists x, r = Ok x /\ k x = Ok y.
Proof. destruct r as [x|e]; simpl; [eauto|discriminate]. Qed.

Lemma foldM_preserves {A S T : Type} (g : S -> T) (f : A -> S -> result S)
    (l : list A) :
  (forall a s s', f a s = Ok s' -> g s' = g s) ->
  forall s s', foldM f l s = Ok s' -> g s' = g s.
Proof.
  intros Hf. induction l as [|a l IH]; intros s s'; simpl.
  - intros H. inversion H. reflexivity.
  - intros H. apply bind_ok in H as (s1 & H1 & H).
    rewrite (IH _ _ H). exact (Hf _ _ _ H1).
Qed.

Section Root.

Context (E : Env).

Lemma grid_attrib (b : Board) (f : Z -> Z -> element -> result element) :
  (forall y x s s', f y x s = Ok s' -> attrib s' = attrib s) ->
  forall svg svg', grid b f svg = Ok svg' -> attrib svg' = attrib svg.
Proof.
  intros Hf. unfold grid. apply foldM_preserves.
  intros y s s'. apply foldM_preserves. intros x. apply Hf.
Qed.

Lemma square_cell_attrib (b : Board) (orientation coordinates : bool)
    (margin : Z) lastmove squares (y x : Z) (s s' : element) :
  square_cell E b orientation coordinates margin lastmove squares y x s = Ok s'
  -> attrib s' = attrib s.
Proof.
  unfold square_cell. destruct (display b orientation y x) as [dr dc].
  intros H. apply bind_ok in H as (fill_color & _ & H).
  destruct squares as [[|sq rest]|].
  - inversion H. apply attrib_append.
  - apply bind_ok in H as (parsed & _ & H).
    destruct (cell_in (dr, dc) parsed); inversion H;
      rewrite ?attrib_append; reflexivity.
  - inversion H. apply attrib_append.
Qed.

Lemma piece_cell_attrib (b : Board) (orientation coordinates : bool)
    (margin : Z) check (y x : Z) (s s' : element) :
  piece_cell E b orientation coordinates margin check y x s = Ok s'
  -> attrib s' = attrib s.
Proof.
  unfold piece_cell. destruct (display b orientation y x) as [dr dc].
  destruct (piece_at b dr dc) as [p|].
  - intros H. inversion H. rewrite attrib_append.
    destruct check as [[cr cf]|]; [|reflexivity].
    destruct ((cf =? dc) && (cr =? dr)); [apply attrib_append|reflexivity].
  - intros H. inversion H. reflexivity.
Qed.

Lemma coordinate_labels_attrib (b : Board) (orientation : bool)
    (key : string) (margin : Z) (s s' : element) :
  coordinate_labels E b orientation key margin s = Ok s'
  -> attrib s' = attrib s.
Proof.
  unfold coordinate_labels. intros H. apply bind_ok in H as (s1 & H1 & H2).
  transitivity (attrib s1).
  - revert H2. apply foldM_preserves. intros i t t' Hf.
    apply bind_ok in Hf as (labels & _ & Hf). inversion Hf.
    rewrite !attrib_append. reflexivity.
  - revert H1. apply foldM_preserves. intros i t t' Hf.
    apply bind_ok in Hf as (labels & _ & Hf). inversion Hf.
    rewrite !attrib_append. reflexivity.
Qed.

(** The drawing steps only add children. *)
Lemma draw_attrib (a : Arg.t) (b : Board) lastmove check
    (render_squares : bool) (svg svg' : element) :
  draw E a b lastmove check render_squares svg = Ok svg' ->
  attrib svg' = attrib svg.
Proof.
  unfold draw. intros H.
  apply bind_ok in H as (s1 & H1 & H).
  apply bind_ok in H as (s2 & H2 & H).
  apply bind_ok in H as (s3 & H3 & H4).
  assert (A1 : attrib s1 = attrib svg).
  { destruct render_squares; [|inversion H1; reflexivity].
    revert H1. apply grid_attrib. intros y x s s'. apply square_cell_attrib. }
  assert (A2 : attrib s2 = attrib s1).
  { destruct (truthy_str (Arg.coordinates a)); [|inversion H2; reflexivity].
    revert H2. apply coordinate_labels_attrib. }
  assert (A3 : attrib s3 = attrib s2).
  { revert H3. apply grid_attrib. intros y x s s'. apply piece_cell_attrib. }
  assert (A4 : attrib svg' = attrib s3).
  { revert H4. apply foldM_preserves. intros ar s s' Hr.
    apply render_arrow_inv in Hr.
    destruct Hr as (? & ? & ? & ? & ? & ? & _ & _ & _ & ->). reflexivity. }
  congruence.
Qed.

(** The background step leaves the attributes of the root alone. *)
Lemma background_attrib (b : Board) (margin : Z) (image : option string)
    (l : locals) :
  attrib (svg (fst (fst (background E b margin image l)))) = attrib (svg l).
Proof.
  unfold background. destruct (truthy_str image); [|reflexivity].
  destruct (Py.endswith ".svg" (Py.lower (default EmptyString image))).
  - unfold background_svg.
    destruct (read_text E _); [|reflexivity].
    destruct (fromstring E _) as [bg_tree|]; [|reflexivity].
    destruct (Py.endswith "svg" (tag bg_tree)).
    + destruct (background_group E b margin bg_tree); simpl;
        [apply attrib_insert_child|reflexivity].
    + destruct (fromstring E _); simpl;
        [apply attrib_insert_child|reflexivity].
  - unfold background_raster.
    destruct (read_bytes E _); simpl; [apply attrib_append|reflexivity].
Qed.

(** Only the vector branch rebinds [width] and [height]. *)
Lemma background_keeps_size (b : Board) (margin : Z) (image : option string)
    (l : locals) :
  truthy_str image && Py.endswith ".svg" (Py.lower (default EmptyString image))
  = false ->
  width (fst (fst (background E b margin image l))) = width l /\
  height (fst (fst (background E b margin image l))) = height l.
Proof.
  unfold background. destruct (truthy_str image); [|split; reflexivity].
  simpl. intros ->. unfold background_raster.
  destruct (read_bytes E _); split; reflexivity.
Qed.

Lemma grow_attrs (b : Board) (coordinates : bool) (margin : Z) (l : locals) :
  has_attr "viewBox" (svg l) = true ->
  has_attr "viewBox" (svg (grow b coordinates margin l)) = true /\
  has_attr "width" (svg (grow b coordinates margin l))
  = has_attr "width" (svg l) || (coordinates && has_value (width l)) /\
  has_attr "height" (svg (grow b coordinates margin l))
  = has_attr "height" (svg l) || (coordinates && has_value (height l)).
Proof.
  intros Hvb. unfold grow. destruct coordinates; simpl.
  2:{ rewrite !orb_false_r. auto. }
  destruct l as [s w h]; simpl.
  destruct w, h; simpl;
    rewrite ?has_attr_eset_eq, ?(has_attr_eset_ne "viewBox"),
      ?(has_attr_eset_ne "width" "height"),
      ?(has_attr_eset_ne "height" "width"),
      ?has_attr_eset_eq, ?(has_attr_eset_ne "width" "viewBox"),
      ?(has_attr_eset_ne "height" "viewBox"), ?has_attr_eset_eq,
      ?orb_true_r, ?orb_false_r by discriminate;
    auto.
Qed.

Lemma root_attrs (a : Arg.t) (b : Board) (defs : list element) (l0 : locals) :
  l0 = {| svg :=
            append (Element "defs" [] None defs)
              (match Arg.colors a with
               | Some (c :: cs) =>
                   append
                     (Element "style" [] (Some (_colors_to_css (c :: cs))) [])
                     (_svg E (cols b * SQUARE_SIZE) (rows b * SQUARE_SIZE)
                        (Arg.width a) (Arg.height a))
               | _ =>
                   _svg E (cols b * SQUARE_SIZE) (rows b * SQUARE_SIZE)
                     (Arg.width a) (Arg.height a)
               end);
          width := Arg.width a;
          height := Arg.height a |} ->
  has_attr "viewBox" (svg l0) = true /\
  has_attr "width" (svg l0) = has_value (Arg.width a) /\
  has_attr "height" (svg l0) = has_value (Arg.height a) /\
  width l0 = Arg.width a /\ height l0 = Arg.height a.
Proof.
  intros ->. unfold has_attr. simpl svg. rewrite attrib_append.
  assert (H : forall e : element,
            attrib (match Arg.colors a with
                    | Some (c :: cs) =>
                        append
                          (Element "style" []
                             (Some (_colors_to_css (c :: cs))) []) e
                    | _ => e
                    end) = attrib e).
  { intros e. destruct (Arg.colors a) as [[|c cs]|];
      rewrite ?attrib_append; reflexivity. }
  rewrite H. unfold _svg.
  destruct (Arg.width a), (Arg.height a); repeat split; reflexivity.
Qed.

(** The part of C5 that holds: the document always has a viewBox, and
    unless the background is a vector image its [width] and [height]
    attributes are present exactly when the caller passed a value. *)
Lemma size_attributes_requested (css : string) (a : Arg.t) (st : store)
    (root : element) (ev : list event) :
  board_tree E css a st = (Ok root, ev) ->
  has_attr "viewBox" root = true /\
  (truthy_str (Arg.background_image a)
   && Py.endswith ".svg"
        (Py.lower (default EmptyString (Arg.background_image a))) = false ->
   has_attr "width" root = has_value (Arg.width a) /\
   has_attr "height" root = has_value (Arg.height a)).
Proof.
  unfold board_tree. destruct (Arg.board a) as [b|]; [|intros; discriminate].
  destruct (prepare E css a b st) as [[[lastmove defs] check]|];
    [|intros; discriminate].
  unfold frame. cbv zeta.
  match goal with
  | |- context [background E b ?m ?i ?l] =>
      remember l as l0 eqn:Hl0;
      apply root_attrs in Hl0 as (Hv & Hw & Hh & Hw0 & Hh0);
      pose proof (background_attrib b m i l0) as Hattr;
      pose proof (background_keeps_size b m i l0) as Hsize;
      destruct (background E b m i l0) as [[l1 rs] ev1]
  end.
  cbn [fst] in Hattr, Hsize.
  intros H. inversion H as [[Hdraw Hev]]. clear H.
  apply draw_attrib in Hdraw.
  assert (Hroot : forall k, has_attr k root
            = has_attr k
                (svg (grow b (truthy_str (Arg.coordinates a))
                        (if truthy_str (Arg.coordinates a) then 15 else 0)
                        l1))).
  { intros k. unfold has_attr. rewrite Hdraw. reflexivity. }
  assert (H1 : forall k, has_attr k (svg l1) = has_attr k (svg l0)).
  { intros k. unfold has_attr. rewrite Hattr. reflexivity. }
  destruct (grow_attrs b (truthy_str (Arg.coordinates a))
              (if truthy_str (Arg.coordinates a) then 15 else 0) l1)
    as (Gv & Gw & Gh); [rewrite H1; exact Hv|].
  rewrite !Hroot. split; [exact Gv|].
  intros Hnv. destruct (Hsize Hnv) as [Sw Sh].
  rewrite Gw, Gh, !H1, Hw, Hh, Sw, Sh, Hw0, Hh0.
  destruct (Arg.width a), (Arg.height a),
    (truthy_str (Arg.coordinates a)); split; reflexivity.
Qed.

End Root.

(** * Further properties of the renderer *)

(** ** Square names *)

Lemma pretty_char_digit (y : N) :
  (y < 10)%N ->
  Py.digit_in 10 (pretty_N_char y) = Some (Z.of_N y) /\
  Ascii.eqb (pretty_N_char y) "_" = false /\
  Ascii.eqb (pretty_N_char y) "+" = false /\
  Ascii.eqb (pretty_N_char y) "-" = false /\
  Py.int_space (pretty_N_char y) = false.
Proof.
  intros Hy.
  assert (H : (y = 0 \/ y = 1 \/ y = 2 \/ y = 3 \/ y = 4 \/ y = 5 \/ y = 6
               \/ y = 7 \/ y = 8 \/ y = 9)%N) by lia.
  repeat destruct H as [H|H]; subst y; vm_compute; auto.
Qed.

(** Reading the digits that [pretty] writes in front of a text shifts
    the accumulator and adds the number. *)
Lemma digits_pretty_go (x : N) :
  (0 < x)%N ->
  exists p : Z,
    forall (s : string) (a : Z) (seen : bool),
      Py.digits 10 (list_ascii_of_string (pretty_N_go x s)) a seen false
      = Py.digits 10 (list_ascii_of_string s) (a * p + Z.of_N x) true false.
Proof.
  induction (N.lt_wf_0 x) as [x _ IH]. intros Hx.
  assert (Hmod : (x `mod` 10 < 10)%N) by (apply N.mod_lt; lia).
  destruct (pretty_char_digit _ Hmod) as (Hd & Hu & _).
  assert (Hstep : forall (s : string) (a : Z) (seen : bool),
            Py.digits 10
              (list_ascii_of_string (String (pretty_N_char (x `mod` 10)) s))
              a seen false
            = Py.digits 10 (list_ascii_of_string s)
                (a * 10 + Z.of_N (x `mod` 10)) true false).
  { intros s a seen. simpl. rewrite Hu, Hd. reflexivity. }
  destruct (N.eq_0_gt_0_cases (x `div` 10)) as [H0|Hpos].
  - exists 10. intros s a seen.
    rewrite pretty_N_go_step by exact Hx. rewrite H0, pretty_N_go_0, Hstep.
    f_equal. pose proof (N.div_mod x 10 ltac:(lia)) as Hdm.
    rewrite H0 in Hdm. lia.
  - destruct (IH (x `div` 10)%N) as [p Hp];
      [apply N.div_lt; lia | exact Hpos |].
    exists (p * 10). intros s a seen.
    rewrite pretty_N_go_step by exact Hx. rewrite Hp, Hstep.
    f_equal. pose proof (N.div_mod x 10 ltac:(lia)) as Hdm.
    set (dv := (x `div` 10)%N) in *. set (md := (x `mod` 10)%N) in *. lia.
Qed.

(** The text of a positive number starts with a digit. *)
Lemma pretty_go_head (x : N) (s : string) :
  (0 < x)%N ->
  exists (y : N) (rest : string),
    (y < 10)%N /\ pretty_N_go x s = String (pretty_N_char y) rest.
Proof.
  revert s. induction (N.lt_wf_0 x) as [x _ IH]. intros s Hx.
  rewrite pretty_N_go_step by exact Hx.
  destruct (N.eq_0_gt_0_cases (x `div` 10)) as [H0|Hpos].
  - rewrite H0, pretty_N_go_0. exists (x `mod` 10)%N, s.
    split; [apply N.mod_lt; lia | reflexivity].
  - apply IH; [apply N.div_lt; lia | exact Hpos].
Qed.

(** A number below [10 ^ k] is written with at most [k] digits. *)
Lemma pretty_go_length (k : nat) (x : N) (s : string) :
  (x < 10 ^ N.of_nat k)%N ->
  (String.length (pretty_N_go x s) <= k + String.length s)%nat.
Proof.
  revert x s. induction k as [|k IH]; intros x s Hx.
  - change (10 ^ N.of_nat 0)%N with 1%N in Hx.
    assert (x = 0%N) by lia. subst x. rewrite pretty_N_go_0. lia.
  - destruct (N.eq_0_gt_0_cases x) as [H0|Hpos].
    + subst x. rewrite pretty_N_go_0. lia.
    + rewrite pretty_N_go_step by exact Hpos.
      rewrite Nat2N.inj_succ, N.pow_succ_r' in Hx.
      assert (Hdiv : (x `div` 10 < 10 ^ N.of_nat k)%N).
      { apply N.Div0.div_lt_upper_bound. exact Hx. }
      pose proof (IH _ (String (pretty_N_char (x `mod` 10)) s) Hdiv) as Hlen.
      simpl String.length in Hlen. lia.
Qed.

Lemma length_chars (s : string) :
  length (list_ascii_of_string s) = String.length s.
Proof. induction s as [|c s IH]; simpl; congruence. Qed.

Lemma count_digits_length (base : Z) (l : list ascii) :
  Py.count_digits base l <= Z.of_nat (length l).
Proof.
  unfold Py.count_digits. apply Nat2Z.inj_le.
  induction l as [|c l IH]; simpl; [lia|].
  destruct (Py.digit_in base c); simpl; lia.
Qed.

(** The text of a positive number below [10 ^ 4300] is within the limit
    of [int]. *)
Lemma pretty_within_limit (n : Z) :
  0 < n -> n < 10 ^ Py.max_str_digits ->
  (Py.max_str_digits
   <? Py.count_digits 10 (list_ascii_of_string (pretty n))) = false.
Proof.
  intros Hn Hlim. apply Z.ltb_ge.
  etransitivity; [apply count_digits_length|].
  rewrite length_chars.
  destruct n as [|q|q]; try discriminate Hn.
  unfold pretty, pretty_Z, pretty, pretty_positive, pretty, pretty_N.
  destruct (decide (N.pos q = 0%N)) as [H|_]; [discriminate H|].
  assert (Hq : (N.pos q < 10 ^ N.of_nat 4300)%N).
  { apply N2Z.inj_lt. rewrite N2Z.inj_pow, nat_N_Z.
    change (Z.of_N (N.pos q)) with (Z.pos q). change (Z.of_N 10) with 10.
    change (Z.of_nat 4300) with Py.max_str_digits. exact Hlim. }
  pose proof (pretty_go_length 4300 (N.pos q) EmptyString Hq) as Hlen.
  clear Hlim Hq. simpl String.length in Hlen.
  change Py.max_str_digits with (Z.of_nat 4300).
  apply Nat2Z.inj_le. rewrite Nat.add_0_r in Hlen. exact Hlen.
Qed.

(** [int(str(n)) == n] for a positive [n] of at most 4300 digits. *)
Lemma int_pretty (n : Z) :
  0 < n -> n < 10 ^ Py.max_str_digits -> Py.int (pretty n) 10 = Ok n.
Proof.
  intros Hn Hlim. unfold Py.int. cbv zeta.
  rewrite (pretty_within_limit n Hn Hlim). clear Hlim.
  change (negb (Py.power_of_two 10) && false) with false. cbv iota.
  destruct n as [|q|q]; try lia.
  unfold pretty, pretty_Z, pretty, pretty_positive, pretty, pretty_N.
  destruct (decide (N.pos q = 0%N)) as [H|_]; [discriminate H|].
  assert (Hq : (0 < N.pos q)%N) by lia.
  destruct (digits_pretty_go (N.pos q) Hq) as [p Hp].
  destruct (pretty_go_head (N.pos q) EmptyString Hq) as (y & rest & Hy & Hhead).
  destruct (pretty_char_digit y Hy) as (_ & Hu & Hplus & Hminus & Hsp).
  unfold Py.int_of_chars.
  specialize (Hp EmptyString 0 false). rewrite Hhead in Hp |- *.
  cbn [list_ascii_of_string Py.skip_space]. rewrite Hsp, Hplus, Hminus.
  assert (Hpre : Py.strip_prefix16 10
                   (pretty_N_char y :: list_ascii_of_string rest)
                 = pretty_N_char y :: list_ascii_of_string rest).
  { unfold Py.strip_prefix16. destruct (list_ascii_of_string rest); reflexivity. }
  rewrite Hpre, Hu.
  cbn [list_ascii_of_string] in Hp. rewrite Hp. simpl.
  f_equal.
Qed.

Lemma substring_all (s : string) : substring 0 (String.length s) s = s.
Proof. induction s as [|c s IH]; simpl; [reflexivity|]. rewrite IH. reflexivity. Qed.

Lemma slice_tail (c : ascii) (s : string) :
  Py.slice (String c s) (Some 1) None = s.
Proof.
  assert (H1 : Z.to_nat (Py.clamp (Z.of_nat (S (String.length s))) 1) = 1%nat).
  { unfold Py.clamp. change (1 <? 0) with false. cbv beta iota. lia. }
  assert (H2 : Z.to_nat (Z.of_nat (S (String.length s))
                         - Py.clamp (Z.of_nat (S (String.length s))) 1)
               = String.length s).
  { unfold Py.clamp. change (1 <? 0) with false. cbv beta iota. lia. }
  unfold Py.slice, Py.len. cbn [from_option String.length].
  rewrite H1, H2. simpl. apply substring_all.
Qed.

Lemma square_name_parts (file rank : Z) :
  0 <= file < 159 -> 0 <= rank -> rank + 1 < 10 ^ Py.max_str_digits ->
  square_file (square_name file rank) = Ok file /\
  square_rank (square_name file rank) = Ok rank.
Proof.
  intros Hf Hr Hlim. unfold square_name, square_file, square_rank. split.
  - simpl. unfold Py.ord. rewrite N_ascii_embedding by lia.
    f_equal. clear Hlim. lia.
  - rewrite slice_tail, int_pretty; [|clear Hlim; lia|exact Hlim].
    simpl. f_equal. clear Hlim. lia.
Qed.

(** A rank of more digits than [int] accepts is refused: the bound on
    the rank is needed. *)
Lemma long_rank_refused (file : ascii) (digits : string) :
  Py.max_str_digits
  < Py.count_digits 10 (list_ascii_of_string digits) ->
  square_rank (String file digits) = Raise ValueError.
Proof.
  intros H. unfold square_rank. rewrite slice_tail. unfold Py.int. cbv zeta.
  apply Z.ltb_lt in H. rewrite H. reflexivity.
Qed.

(** X1. The name of a square whose rank, counted from 1, is written
    with at most 4300 digits decomposes into the file and the rank it
    was built from. *)
Theorem square_name_decomposes (file rank : Z) :
  0 <= file < 159 -> 0 <= rank -> rank + 1 < 10 ^ Py.max_str_digits ->
  square_file (square_name file rank) = Ok file /\
  square_rank (square_name file rank) = Ok rank.
Proof. apply square_name_parts. Qed.

Lemma square_name_decomposes_witness :
  square_file "e4" = Ok 4 /\ square_rank "e4" = Ok 3.
Proof.
  apply (square_name_decomposes 4 3); [lia|lia|reflexivity].
Defined.

(** As many cells come out of [parse_squares] as names go in, each the
    cell of its name, in order; one bad name fails the whole list. *)
Lemma parse_squares_cells (b : Board) (squares : list string)
    (parsed : list (Z * Z)) :
  parse_squares b squares = Ok parsed <->
  Forall2 (fun square c => cell b square = Ok c) squares parsed.
Proof.
  revert parsed. induction squares as [|square rest IH]; intros parsed; simpl.
  - split.
    + intros H. inversion H. constructor.
    + intros H. inversion H. reflexivity.
  - split.
    + intros H. apply bind_ok in H as (c & Hc & H).
      apply bind_ok in H as (cs & Hcs & H). inversion H. subst parsed.
      constructor; [exact Hc|]. apply IH. exact Hcs.
    + intros H. inversion H as [|? c ? cs Hc Hcs]. subst.
      rewrite Hc. simpl. apply IH in Hcs. rewrite Hcs. reflexivity.
Qed.

(** X2. [parse_squares] maps the square of file [f] and rank [r], a
    rank written with at most 4300 digits, on a board of [rows] rows to
    the cell [(rows - r - 1, f)], name by name. *)
Theorem parse_squares_named (b : Board) (squares : list (Z * Z)) :
  Forall (fun fr => 0 <= fst fr < 159 /\ 0 <= snd fr /\
                    snd fr + 1 < 10 ^ Py.max_str_digits) squares ->
  parse_squares b (map (fun fr => square_name (fst fr) (snd fr)) squares)
  = Ok (map (fun fr => (rows b - snd fr - 1, fst fr)) squares).
Proof.
  intros H. apply parse_squares_cells.
  induction H as [|[f r] l (Hf & Hr & Hlim) _ IH]; simpl; constructor;
    [|exact IH].
  unfold cell.
  destruct (square_name_parts f r Hf Hr Hlim) as [-> ->]. reflexivity.
Qed.

Lemma parse_squares_named_witness :
  parse_squares Sample.empty_board ["e4"; "a1"] = Ok [(4, 4); (7, 0)].
Proof.
  apply (parse_squares_named Sample.empty_board [(4, 3); (0, 0)]).
  repeat constructor; simpl; try lia; reflexivity.
Defined.

(** ** The grid and the anchors *)

(** X3. Whatever the orientation, [display] sends grid indices to grid
    cells, and the mirror of the mirror is the index itself. *)
Theorem display_mirror (b : Board) (orientation : bool) (y_index x_index : Z) :
  0 <= y_index < rows b -> 0 <= x_index < cols b ->
  (0 <= fst (display b orientation y_index x_index) < rows b /\
   0 <= snd (display b orientation y_index x_index) < cols b) /\
  display b false (fst (display b false y_index x_index))
    (snd (display b false y_index x_index))
  = (y_index, x_index).
Proof.
  intros Hy Hx. unfold display. destruct orientation; simpl.
  - repeat split; try lia. f_equal; lia.
  - repeat split; try lia. f_equal; lia.
Qed.

Lemma display_mirror_witness :
  display Sample.empty_board false
    (fst (display Sample.empty_board false 0 0))
    (snd (display Sample.empty_board false 0 0))
  = (0, 0).
Proof.
  apply (display_mirror Sample.empty_board false 0 0); simpl; lia.
Defined.

(** X4. Without borders, the anchor of a square is the centre of the
    rectangle drawn for the cell that shows it: for the grid index
    [(y_index, x_index)], whose rectangle starts at
    [x_index * 45 + margin], the square of file [display_col] and rank
    [rows - display_row - 1] is anchored half a square further, under
    both orientations. *)
Theorem anchor_is_cell_centre (b : Board) (orientation coordinates : bool)
    (margin y_index x_index : Z) :
  let m := if coordinates then margin else 0 in
  let dr := fst (display b orientation y_index x_index) in
  let dc := snd (display b orientation y_index x_index) in
  let p := anchor b orientation coordinates margin 0 0 dc (rows b - dr - 1) in
  (fst p == inject_Z (x_index * SQUARE_SIZE + m) + inject_Z SQUARE_SIZE / 2)%Q
  /\
  (snd p == inject_Z (y_index * SQUARE_SIZE + m) + inject_Z SQUARE_SIZE / 2)%Q.
Proof.
  unfold anchor, display. destruct orientation; simpl;
    unfold Z.sub;
    repeat (rewrite inject_Z_plus || rewrite inject_Z_mult
            || rewrite inject_Z_opp);
    change (inject_Z SQUARE_SIZE) with (45 # 1)%Q;
    change (inject_Z 0) with 0%Q; change (inject_Z 1) with 1%Q;
    generalize (inject_Z (if coordinates then margin else 0)); intros mq;
    split; field.
Qed.

(** ** Color slots *)

(** X5. For a slot of the default palette the caller's binding wins,
    and the default is used without one. *)
Theorem select_color_override (d : list (string * string))
    (slot dflt : string) :
  DEFAULT_COLORS !! slot = Some dflt ->
  _select_color (Some d) slot
  = Ok (_color (match assoc slot d with Some v => v | None => dflt end)).
Proof.
  intros H. unfold _select_color. rewrite H. simpl.
  destruct (assoc slot d); reflexivity.
Qed.

Lemma select_color_override_witness :
  _select_color (Some [("arrow red", "#abcd")]) "arrow red"
  = Ok ("#abc", (13 # 15)%Q).
Proof.
  apply (select_color_override [("arrow red", "#abcd")] "arrow red"
           "#88202080").
  reflexivity.
Defined.

(** X6. A slot that the caller binds but that has no default still
    raises [KeyError]: the default is looked up before the caller's
    scheme is consulted. *)
Theorem select_color_needs_default (d : list (string * string))
    (slot v : string) :
  assoc slot d = Some v ->
  DEFAULT_COLORS !! slot = None ->
  _select_color (Some d) slot = Raise KeyError.
Proof. intros _ H. unfold _select_color. rewrite H. reflexivity. Qed.

Lemma select_color_needs_default_witness :
  _select_color (Some [("arrow purple", "#800080")]) "arrow purple"
  = Raise KeyError.
Proof.
  apply (select_color_needs_default [("arrow purple", "#800080")]
           "arrow purple" "#800080"); reflexivity.
Defined.

(** ** Steps that only add children *)

Lemma extend_nil (e : element) : extend [] e = e.
Proof. destruct e. unfold extend; simpl. rewrite app_nil_r. reflexivity. Qed.

Lemma extend_extend (l1 l2 : list element) (e : element) :
  extend l2 (extend l1 e) = extend (l1 ++ l2)%list e.
Proof. unfold extend; simpl. rewrite app_assoc. reflexivity. Qed.

Lemma append_extend (c e : element) : append c e = extend [c] e.
Proof. destruct e. reflexivity. Qed.

(** A loop whose turns add children adds the children of all turns. *)
Lemma foldM_extend {A : Type} (f : A -> element -> result element)
    (g : A -> list element) (l : list A) :
  (forall a s, In a l -> f a s = Ok (extend (g a) s)) ->
  forall s, foldM f l s = Ok (extend (concat (map g l)) s).
Proof.
  induction l as [|a l IH]; intros Hf s; simpl.
  - rewrite extend_nil. reflexivity.
  - rewrite Hf by (left; reflexivity). simpl.
    rewrite IH by (intros; apply Hf; right; assumption).
    rewrite extend_extend. reflexivity.
Qed.

Lemma grid_extend (b : Board) (f : Z -> Z -> element -> result element)
    (g : Z -> Z -> list element) :
  (forall y x s, f y x s = Ok (extend (g y x) s)) ->
  forall s,
    grid b f s
    = Ok (extend
            (concat (map (fun y => concat (map (g y) (range (cols b))))
                       (range (rows b))))
            s).
Proof.
  intros Hf s. unfold grid.
  apply (foldM_extend _ (fun y => concat (map (g y) (range (cols b))))).
  intros y s' _. apply foldM_extend. intros x s'' _. apply Hf.
Qed.

Lemma count_tag_app (t : string) (l1 l2 : list element) :
  count_tag t (l1 ++ l2)%list = (count_tag t l1 + count_tag t l2)%nat.
Proof. unfold count_tag. rewrite List.filter_app, length_app. reflexivity. Qed.

Lemma count_tag_concat {A : Type} (t : string) (g : A -> list element)
    (n : nat) (l : list A) :
  (forall a, count_tag t (g a) = n) ->
  count_tag t (concat (map g l)) = (length l * n)%nat.
Proof.
  intros Hg. induction l as [|a l IH]; simpl; [reflexivity|].
  rewrite count_tag_app, Hg, IH. reflexivity.
Qed.

Lemma length_range (n : Z) : length (range n) = Z.to_nat n.
Proof. unfold range. apply length_seqZ. Qed.

Section Steps.

Context (E : Env).

(** The rectangle of one cell of the checkerboard. *)
Lemma square_cell_plain (b : Board) (orientation coordinates : bool)
    (margin : Z) (lastmove : option ((Z * Z) * (Z * Z))) (y x : Z) :
  exists attrs,
    forall s : element,
      square_cell E b orientation coordinates margin lastmove None y x s
      = Ok (extend [Element "rect" attrs None []] s).
Proof.
  unfold square_cell. destruct (display b orientation y x) as [dr dc].
  assert (Hcls : forall extra : bool,
            exists fill,
              DEFAULT_COLORS
              !! Py.join " "
                   (app ["square"; if dc mod 2 =? dr mod 2 then "light"
                                   else "dark"]
                        (if extra then ["lastmove"] else []))
              = Some fill).
  { intros extra. destruct (dc mod 2 =? dr mod 2), extra;
      eexists; vm_compute; reflexivity. }
  match goal with
  | |- context [app _ ?m] =>
      assert (Hm : exists extra : bool,
                m = if extra then ["lastmove"] else [])
  end.
  { destruct lastmove as [[lf lt]|]; [|exists false; reflexivity].
    destruct (cell_in (dr, dc) [lf; lt]);
      [exists true|exists false]; reflexivity. }
  destruct Hm as [extra Hm]. rewrite Hm.
  destruct (Hcls extra) as [fill Hfill]. rewrite Hfill.
  eexists. intros s. simpl. rewrite append_extend. reflexivity.
Qed.

(** The step that draws the checkerboard. *)
Lemma squares_step (b : Board) (orientation coordinates : bool)
    (margin : Z) (lastmove : option ((Z * Z) * (Z * Z))) (svg : element) :
  exists drawn,
    grid b (square_cell E b orientation coordinates margin lastmove None) svg
    = Ok (extend drawn svg) /\
    length drawn = (Z.to_nat (rows b) * Z.to_nat (cols b))%nat /\
    Forall (fun e => tag e = "rect") drawn.
Proof.
  set (g := fun y x : Z =>
         match square_cell E b orientation coordinates margin lastmove None
                 y x (Element EmptyString [] None []) with
         | Ok e => children e
         | Raise _ => []
         end).
  assert (Hg : forall y x, exists attrs, g y x = [Element "rect" attrs None []]).
  { intros y x. unfold g.
    destruct (square_cell_plain b orientation coordinates margin lastmove y x)
      as [attrs Ha].
    rewrite Ha. exists attrs. reflexivity. }
  assert (Hf : forall y x s,
            square_cell E b orientation coordinates margin lastmove None y x s
            = Ok (extend (g y x) s)).
  { intros y x s. unfold g.
    destruct (square_cell_plain b orientation coordinates margin lastmove y x)
      as [attrs Ha].
    rewrite !Ha. reflexivity. }
  eexists. split; [apply (grid_extend b _ g Hf)|]. split.
  - rewrite length_concat.
    assert (Hrow : forall y,
              length (concat (map (g y) (range (cols b))))
              = Z.to_nat (cols b)).
    { intros y. rewrite length_concat.
      transitivity (list_sum (map (fun _ => 1%nat) (range (cols b)))).
      - f_equal. rewrite map_map. apply map_ext. intros x.
        destruct (Hg y x) as [attrs ->]. reflexivity.
      - rewrite <- length_range. generalize (range (cols b)).
        induction l; simpl; congruence. }
    rewrite map_map.
    transitivity (list_sum (map (fun _ => Z.to_nat (cols b)) (range (rows b)))).
    + f_equal. apply map_ext. exact Hrow.
    + rewrite <- (length_range (rows b)). generalize (range (rows b)).
      induction l; simpl; [reflexivity|]. rewrite IHl. reflexivity.
  - apply Forall_concat. apply Forall_map. apply Forall_forall. intros y _.
    simpl. apply Forall_concat. apply Forall_map. apply Forall_forall.
    intros x _. simpl. destruct (Hg y x) as [attrs ->].
    repeat constructor.
Qed.

(** X7. With no highlighted square, drawing the checkerboard cannot
    fail, whatever the last move: it adds one rectangle per cell of the
    grid and nothing else. *)
Theorem checkerboard_drawn (b : Board) (orientation coordinates : bool)
    (margin : Z) (lastmove : option ((Z * Z) * (Z * Z))) (svg : element) :
  exists drawn,
    grid b (square_cell E b orientation coordinates margin lastmove None) svg
    = Ok (extend drawn svg) /\
    length drawn = (Z.to_nat (rows b) * Z.to_nat (cols b))%nat /\
    Forall (fun e => tag e = "rect") drawn.
Proof. apply squares_step. Qed.

End Steps.

Lemma foldM_app {A S : Type} (f : A -> S -> result S) (l1 l2 : list A) (s : S) :
  foldM f (l1 ++ l2)%list s = (s' <- foldM f l1 s ;; foldM f l2 s').
Proof.
  revert s. induction l1 as [|a l1 IH]; intros s; simpl; [reflexivity|].
  destruct (f a s) as [s1|]; simpl; [apply IH|reflexivity].
Qed.

Lemma foldM_map {A B S : Type} (h : A -> B) (f : B -> S -> result S)
    (l : list A) (s : S) :
  foldM f (map h l) s = foldM (fun a => f (h a)) l s.
Proof.
  revert s. induction l as [|a l IH]; intros s; simpl; [reflexivity|].
  destruct (f (h a) s); simpl; [apply IH|reflexivity].
Qed.

(** The two nested loops visit the grid indices row by row. *)
Lemma grid_indices_fold (b : Board) (f : Z -> Z -> element -> result element)
    (s : element) :
  grid b f s = foldM (fun yx => f (fst yx) (snd yx)) (grid_indices b) s.
Proof.
  unfold grid, grid_indices. revert s.
  induction (range (rows b)) as [|y l IH]; intros s; simpl; [reflexivity|].
  rewrite foldM_app, foldM_map. simpl.
  destruct (foldM (fun x => f y x) (range (cols b)) s); simpl;
    [apply IH|reflexivity].
Qed.

Lemma count_tag_filter {A : Type} (t : string) (g : A -> list element)
    (P : A -> bool) (l : list A) :
  (forall a, count_tag t (g a) = if P a then 1%nat else 0%nat) ->
  count_tag t (concat (map g l)) = length (List.filter P l).
Proof.
  intros Hg. induction l as [|a l IH]; simpl; [reflexivity|].
  rewrite count_tag_app, Hg, IH. destruct (P a); reflexivity.
Qed.

Section Pieces.

Context (E : Env).

(** The step that draws the pieces. *)
Lemma pieces_step (b : Board) (orientation coordinates : bool)
    (margin : Z) (check : option (Z * Z)) (svg : element) :
  exists drawn,
    grid b (piece_cell E b orientation coordinates margin check) svg
    = Ok (extend drawn svg) /\
    count_tag "use" drawn
    = length (List.filter (occupied b orientation) (grid_indices b)) /\
    (check = None -> Forall (fun e => tag e = "use") drawn).
Proof.
  set (g := fun yx : Z * Z =>
         match piece_cell E b orientation coordinates margin check
                 (fst yx) (snd yx) (Element EmptyString [] None []) with
         | Ok e => children e
         | Raise _ => []
         end).
  assert (Hcell : forall yx,
            exists l,
              (forall s, piece_cell E b orientation coordinates margin check
                           (fst yx) (snd yx) s = Ok (extend l s)) /\
              count_tag "use" l
              = (if occupied b orientation yx then 1%nat else 0%nat) /\
              (check = None -> Forall (fun e => tag e = "use") l)).
  { intros [y x]. unfold piece_cell, occupied. simpl fst. simpl snd.
    destruct (display b orientation y x) as [dr dc]. simpl fst. simpl snd.
    destruct (piece_at b dr dc) as [p|].
    - destruct check as [[cr cf]|];
        [destruct ((cf =? dc) && (cr =? dr))|].
      + eexists. split; [|split].
        * intros s. rewrite !append_extend, extend_extend. reflexivity.
        * reflexivity.
        * intros Hn. discriminate Hn.
      + eexists. split; [intros s; rewrite append_extend; reflexivity|].
        split; [reflexivity|]. intros Hn. discriminate Hn.
      + eexists. split; [intros s; rewrite append_extend; reflexivity|].
        split; [reflexivity|]. intros _. repeat constructor.
    - exists []. split; [intros s; rewrite extend_nil; reflexivity|].
      split; [reflexivity|]. intros _. constructor. }
  assert (Hg : forall yx s,
            piece_cell E b orientation coordinates margin check
              (fst yx) (snd yx) s = Ok (extend (g yx) s)).
  { intros yx s. unfold g. destruct (Hcell yx) as (l & Hl & _).
    rewrite !Hl. simpl. reflexivity. }
  exists (concat (map g (grid_indices b))). split; [|split].
  - rewrite grid_indices_fold. apply foldM_extend. intros yx s _. apply Hg.
  - apply count_tag_filter. intros yx. unfold g.
    destruct (Hcell yx) as (l & Hl & Hc & _). rewrite Hl. simpl. exact Hc.
  - intros Hn. apply Forall_concat. apply Forall_map. apply Forall_forall.
    intros yx _. simpl. unfold g.
    destruct (Hcell yx) as (l & Hl & _ & Hu). rewrite Hl. simpl.
    apply Hu. exact Hn.
Qed.


(** X8. Drawing the pieces cannot fail; it adds one [use] element for
    each grid index whose cell is occupied and none for the others. *)
Theorem pieces_drawn (b : Board) (orientation coordinates : bool)
    (margin : Z) (check : option (Z * Z)) (svg : element) :
  exists drawn,
    grid b (piece_cell E b orientation coordinates margin check) svg
    = Ok (extend drawn svg) /\
    count_tag "use" drawn
    = length (List.filter (occupied b orientation) (grid_indices b)).
Proof.
  destruct (pieces_step b orientation coordinates margin check svg)
    as (drawn & Hd & Hc & _).
  exists drawn. split; assumption.
Qed.

(** The step that draws the coordinates. *)
Lemma labels_step (b : Board) (orientation : bool) (key : string)
    (margin : Z) (svg : element)
    (labels : (Z -> Z -> string) * (Z -> Z -> string)) :
  COORDS E key = Some labels ->
  exists drawn,
    coordinate_labels E b orientation key margin svg = Ok (extend drawn svg) /\
    length drawn
    = (2 * Z.to_nat (cols b) + 2 * Z.to_nat (rows b))%nat /\
    Forall (fun e => tag e = "text") drawn.
Proof.
  intros Hkey. unfold coordinate_labels. rewrite Hkey. simpl.
  match goal with
  | |- context [bind (foldM ?f (range (cols b)) svg) (fun s => foldM ?h _ s)] =>
      set (ff := f); set (fr := h)
  end.
  set (gf := fun i : Z =>
         match ff i (Element EmptyString [] None []) with
         | Ok e => children e | Raise _ => [] end).
  set (gr := fun i : Z =>
         match fr i (Element EmptyString [] None []) with
         | Ok e => children e | Raise _ => [] end).
  assert (Hf : forall i s, ff i s = Ok (extend (gf i) s)).
  { intros i s. unfold gf, ff. simpl.
    rewrite !append_extend, !extend_extend. reflexivity. }
  assert (Hr : forall i s, fr i s = Ok (extend (gr i) s)).
  { intros i s. unfold gr, fr. simpl.
    rewrite !append_extend, !extend_extend. reflexivity. }
  rewrite (foldM_extend ff gf) by (intros; apply Hf). simpl.
  rewrite (foldM_extend fr gr) by (intros; apply Hr).
  rewrite extend_extend. eexists. split; [reflexivity|].
  assert (Hlen : forall (g : Z -> list element) (l : list Z),
            (forall i, exists e1 e2,
                g i = [e1; e2] /\ tag e1 = "text" /\ tag e2 = "text") ->
            length (concat (map g l)) = (2 * length l)%nat /\
            Forall (fun e => tag e = "text") (concat (map g l))).
  { intros g l Hg. induction l as [|i l [IH1 IH2]]; simpl.
    - split; [reflexivity|constructor].
    - destruct (Hg i) as (e1 & e2 & -> & H1 & H2). simpl. split; [lia|].
      repeat constructor; assumption. }
  destruct (Hlen gf (range (cols b))) as [Lf Ff].
  { intros i. unfold gf, ff. simpl. eexists. eexists.
    split; [reflexivity|]. split; reflexivity. }
  destruct (Hlen gr (range (rows b))) as [Lr Fr].
  { intros i. unfold gr, fr. simpl. eexists. eexists.
    split; [reflexivity|]. split; reflexivity. }
  split.
  - rewrite length_app, Lf, Lr, !length_range. reflexivity.
  - apply Forall_app. split; assumption.
Qed.

(** X9. With a key of [pychess.COORDS], drawing the coordinates cannot
    fail and adds two labels per file and two per rank. *)
Theorem labels_drawn (b : Board) (orientation : bool) (key : string)
    (margin : Z) (svg : element)
    (labels : (Z -> Z -> string) * (Z -> Z -> string)) :
  COORDS E key = Some labels ->
  exists drawn,
    coordinate_labels E b orientation key margin svg = Ok (extend drawn svg) /\
    length drawn
    = (2 * Z.to_nat (cols b) + 2 * Z.to_nat (rows b))%nat /\
    Forall (fun e => tag e = "text") drawn.
Proof. apply labels_step. Qed.

(** X10. With coordinates requested under a name that is no key of
    [pychess.COORDS], the first label of a board with a column raises
    [KeyError]. *)
Theorem labels_unknown_key (b : Board) (orientation : bool) (key : string)
    (margin : Z) (svg : element) :
  COORDS E key = None -> 0 < cols b ->
  coordinate_labels E b orientation key margin svg = Raise KeyError.
Proof.
  intros Hkey Hc. unfold coordinate_labels. rewrite Hkey.
  unfold range. rewrite (seqZ_cons 0 (cols b)) by lia. reflexivity.
Qed.

End Pieces.

Lemma labels_drawn_witness :
  exists drawn,
    coordinate_labels Sample.env Sample.empty_board true "chess" 15
      (Element "svg" [] None [])
    = Ok (extend drawn (Element "svg" [] None [])) /\
    length drawn = 32%nat.
Proof.
  destruct (labels_drawn Sample.env Sample.empty_board true "chess" 15
              (Element "svg" [] None []) (Sample.label, Sample.label))
    as (drawn & Hd & Hl & _); [reflexivity|].
  exists drawn. split; [exact Hd|exact Hl].
Defined.

Lemma labels_unknown_key_witness :
  coordinate_labels Sample.env Sample.empty_board true "shogi" 15
    (Element "svg" [] None [])
  = Raise KeyError.
Proof.
  apply labels_unknown_key; [reflexivity|simpl; lia].
Defined.

(** ** The document as a whole *)

Lemma get_set_eq (k v : string) (d : Dict.t) : Dict.get k (Dict.set k v d) = Some v.
Proof.
  unfold Dict.get. induction d as [|[k' v'] d IH]; simpl.
  - rewrite String.eqb_refl. reflexivity.
  - destruct (String.eqb k k') eqn:Hk; simpl.
    + rewrite String.eqb_refl. reflexivity.
    + rewrite Hk. exact IH.
Qed.

Lemma get_set_ne (k k' v : string) (d : Dict.t) :
  k <> k' -> Dict.get k (Dict.set k' v d) = Dict.get k d.
Proof.
  intros Hne. apply String.eqb_neq in Hne.
  unfold Dict.get. induction d as [|[k0 v0] d IH]; simpl.
  - rewrite Hne. reflexivity.
  - destruct (String.eqb k' k0) eqn:Hk; simpl.
    + apply String.eqb_eq in Hk. subst k0. rewrite Hne. reflexivity.
    + destruct (String.eqb k k0); [reflexivity|exact IH].
Qed.

Lemma attrib_eset_set (k v : string) (e : element) :
  attrib (eset k v e) = Dict.set k v (attrib e).
Proof. destruct e. reflexivity. Qed.

Section Document.

Context (E : Env).

Lemma square_cell_extends (b : Board) (orientation coordinates : bool)
    (margin : Z) lastmove squares (y x : Z) (s s' : element) :
  square_cell E b orientation coordinates margin lastmove squares y x s = Ok s'
  -> exists l, s' = extend l s.
Proof.
  unfold square_cell. destruct (display b orientation y x) as [dr dc].
  intros H. apply bind_ok in H as (fill_color & _ & H).
  destruct squares as [[|sq rest]|].
  - inversion H. rewrite append_extend. eauto.
  - apply bind_ok in H as (parsed & _ & H).
    destruct (cell_in (dr, dc) parsed); inversion H;
      rewrite !append_extend, ?extend_extend; eauto.
  - inversion H. rewrite append_extend. eauto.
Qed.

Lemma foldM_extends {A : Type} (f : A -> element -> result element)
    (l : list A) :
  (forall a s s', f a s = Ok s' -> exists d, s' = extend d s) ->
  forall s s', foldM f l s = Ok s' -> exists d, s' = extend d s.
Proof.
  intros Hf. induction l as [|a l IH]; intros s s'; simpl.
  - intros H. inversion H. exists []. symmetry. apply extend_nil.
  - intros H. apply bind_ok in H as (s1 & H1 & H).
    destruct (Hf _ _ _ H1) as [d1 ->]. destruct (IH _ _ H) as [d2 ->].
    rewrite extend_extend. eauto.
Qed.

(** The drawing steps only append. *)
Lemma draw_extends (a : Arg.t) (b : Board)
    (lastmove : option ((Z * Z) * (Z * Z))) (check : option (Z * Z))
    (render_squares : bool) (svg svg' : element) :
  draw E a b lastmove check render_squares svg = Ok svg' ->
  exists drawn, svg' = extend drawn svg.
Proof.
  unfold draw. intros H.
  apply bind_ok in H as (s1 & H1 & H).
  apply bind_ok in H as (s2 & H2 & H).
  apply bind_ok in H as (s3 & H3 & H4).
  assert (E1 : exists d, s1 = extend d svg).
  { destruct render_squares.
    - rewrite grid_indices_fold in H1. revert H1. apply foldM_extends.
      intros yx s s'. apply square_cell_extends.
    - inversion H1. exists []. symmetry. apply extend_nil. }
  assert (E2 : exists d, s2 = extend d s1).
  { destruct (truthy_str (Arg.coordinates a)).
    - unfold coordinate_labels in H2.
      apply bind_ok in H2 as (t & Ht & H2).
      assert (Ha : exists d, t = extend d s1).
      { revert Ht. apply foldM_extends. intros i s s' Hs.
        apply bind_ok in Hs as (labels & _ & Hs). inversion Hs.
        rewrite !append_extend, extend_extend. eauto. }
      assert (Hb : exists d, s2 = extend d t).
      { revert H2. apply foldM_extends. intros i s s' Hs.
        apply bind_ok in Hs as (labels & _ & Hs). inversion Hs.
        rewrite !append_extend, extend_extend. eauto. }
      destruct Ha as [d1 ->]. destruct Hb as [d2 ->].
      rewrite extend_extend. eauto.
    - inversion H2. exists []. symmetry. apply extend_nil. }
  assert (E3 : exists d, s3 = extend d s2).
  { destruct (pieces_step E b (xorb (Arg.orientation a) (Arg.flipped a))
                (truthy_str (Arg.coordinates a))
                (if truthy_str (Arg.coordinates a) then 15 else 0) check s2)
      as (d & Hd & _).
    rewrite Hd in H3. inversion H3. eauto. }
  assert (E4 : exists d, svg' = extend d s3).
  { revert H4. apply foldM_extends. intros ar s s' Hr.
    apply render_arrow_inv in Hr.
    destruct Hr as (? & ? & ? & ? & ? & d & _ & _ & _ & ->).
    exists d. reflexivity. }
  destruct E1 as [d1 ->], E2 as [d2 ->], E3 as [d3 ->], E4 as [d4 ->].
  rewrite !extend_extend. eauto.
Qed.

(** X11. The drawing steps of [board] (squares, labels, pieces, arrows)
    only add children after those the root has: its tag, attributes and
    earlier children, among them the definitions and the background,
    stay as they are. *)
Theorem draw_only_appends (a : Arg.t) (b : Board)
    (lastmove : option ((Z * Z) * (Z * Z))) (check : option (Z * Z))
    (render_squares : bool) (svg svg' : element) :
  draw E a b lastmove check render_squares svg = Ok svg' ->
  exists drawn, svg' = extend drawn svg.
Proof. apply draw_extends. Qed.

(** X12. The viewBox of the document is the board in pixels, 45 per
    square, grown by twice the margin of 15 when coordinates are
    requested, whatever the background, the caller's width and height
    and the rest of the call. *)
Theorem board_viewBox (css : string) (a : Arg.t) (st : store) (b : Board)
    (root : element) (ev : list event) :
  Arg.board a = Some b ->
  board_tree E css a st = (Ok root, ev) ->
  eget "viewBox" root
  = Some (if truthy_str (Arg.coordinates a)
          then "0 0 " +:+ pretty (cols b * 45 + 2 * 15) +:+ " "
               +:+ pretty (rows b * 45 + 2 * 15)
          else "0 0 " +:+ pretty (cols b * 45) +:+ " "
               +:+ pretty (rows b * 45)).
Proof.
  intros Hb. unfold board_tree. rewrite Hb.
  destruct (prepare E css a b st) as [[[lastmove defs] check]|];
    [|intros; discriminate].
  unfold frame. cbv zeta.
  match goal with
  | |- context [background E b ?m ?i ?l] =>
      pose proof (background_attrib E b m i l) as Hattr;
      assert (Hroot : Dict.get "viewBox" (attrib (svg l))
                      = Some ("0 0 " +:+ pretty (cols b * 45) +:+ " "
                              +:+ pretty (rows b * 45)));
      [|destruct (background E b m i l) as [[l1 rs] ev1]]
  end.
  { simpl svg. rewrite attrib_append.
    destruct (Arg.colors a) as [[|c cs]|]; rewrite ?attrib_append;
      unfold _svg; destruct (Arg.width a), (Arg.height a); reflexivity. }
  cbn [fst] in Hattr.
  intros H. inversion H as [[Hdraw Hev]]. clear H.
  apply draw_attrib in Hdraw. unfold eget. rewrite Hdraw.
  unfold grow. destruct (truthy_str (Arg.coordinates a)).
  - destruct l1 as [s1 w1 h1]. simpl in Hattr |- *.
    destruct w1, h1; simpl;
      repeat (rewrite attrib_eset_set; rewrite ?get_set_eq;
              try (rewrite get_set_ne by discriminate));
      reflexivity.
  - rewrite Hattr. exact Hroot.
Qed.

(** X13. With a board that counts as true, sizes of at most 4300
    digits, no last move or one whose squares are well formed, and a
    theme id that was never populated, [board] raises [KeyError] before
    anything is drawn, read or printed. *)
Theorem board_unpopulated (css : string) (a : Arg.t) (st : store) (b : Board) :
  Arg.board a = Some b -> truthy b = true ->
  sizes_printable a b ->
  lastmove_well_formed a b ->
  SVG_PIECES st !! css = None ->
  board_tree E css a st = (Raise KeyError, []).
Proof.
  intros Hb Ht _ Hl Hs. unfold board_tree. rewrite Hb.
  assert (Hp : prepare E css a b st = Raise KeyError).
  { unfold prepare, lastmove_well_formed in *.
    assert (Hd : defs_fragments E st css b = Raise KeyError).
    { unfold defs_fragments. rewrite Ht.
      match goal with
      | |- context [of_option KeyError ?o] =>
          replace o with (@None Dict.t) by (symmetry; exact Hs)
      end.
      reflexivity. }
    destruct (Arg.lastmove a) as [m|].
    - destruct Hl as (f & t & -> & ->). cbn [bind]. rewrite Hd. reflexivity.
    - cbn [bind]. rewrite Hd. reflexivity. }
  rewrite Hp. reflexivity.
Qed.

End Document.

Lemma draw_only_appends_witness :
  exists drawn,
    match draw Sample.env missing_png Sample.empty_board None None true
            (Element "svg" [] None []) with
    | Ok s => s
    | Raise _ => Element "svg" [] None []
    end
    = extend drawn (Element "svg" [] None []).
Proof.
  apply (draw_only_appends Sample.env missing_png Sample.empty_board None None
           true (Element "svg" [] None [])).
  vm_compute. reflexivity.
Defined.

Lemma board_viewBox_witness :
  eget "viewBox"
    match fst (board_tree Sample.env "merida" wood_with_coordinates
                 Sample.populated) with
    | Ok root => root
    | Raise _ => Element "svg" [] None []
    end
  = Some "0 0 390 390".
Proof.
  apply (board_viewBox Sample.env "merida" wood_with_coordinates
           Sample.populated Sample.empty_board _
           (snd (board_tree Sample.env "merida" wood_with_coordinates
                   Sample.populated))).
  - reflexivity.
  - vm_compute. reflexivity.
Defined.

Lemma board_unpopulated_witness :
  board_tree Sample.env "alpha" moved Sample.populated
  = (Raise KeyError, []).
Proof.
  apply (board_unpopulated Sample.env "alpha" moved Sample.populated
           Sample.empty_board); try reflexivity.
  - repeat split.
  - exists (6, 4), (4, 4). split; reflexivity.
Defined.

Lemma size_attributes_requested_witness :
  has_attr "viewBox"
    match fst (board_tree Sample.env "merida" missing_png Sample.populated)
    with
    | Ok root => root
    | Raise _ => Element "svg" [] None []
    end
  = true.
Proof.
  apply (size_attributes_requested Sample.env "merida" missing_png
           Sample.populated _
           (snd (board_tree Sample.env "merida" missing_png Sample.populated))).
  vm_compute. reflexivity.
Defined.

(** ** The theme tables *)

Section Tables.

Context (E : Env).

(** X14. Populating a theme leaves the tables of every other theme as
    they are. *)
Theorem populate_other_themes (css css' : string) (st : store) :
  css' <> css ->
  SVG_PIECES (snd (fst (get_svg_pieces_from_css E css st))) !! css'
  = SVG_PIECES st !! css' /\
  SVG_PATH_PIECES (snd (fst (get_svg_pieces_from_css E css st))) !! css'
  = SVG_PATH_PIECES st !! css'.
Proof.
  intros Hne.
  assert (Hr : SVG_PIECES (reset css st) !! css' = SVG_PIECES st !! css' /\
               SVG_PATH_PIECES (reset css st) !! css'
               = SVG_PATH_PIECES st !! css').
  { unfold reset; simpl. rewrite !lookup_insert_ne by congruence. auto. }
  unfold get_svg_pieces_from_css. fold (reset css st).
  destruct (negb (isfile E (css_path_of css))); [exact Hr|].
  destruct (read_lines E (css_path_of css)) as [[lines failure]|];
    [|exact Hr].
  destruct (scan_lines E css lines (reset css st, accum0)) as [[st' a']|] eqn:Hs;
    [|exact Hr].
  simpl. apply scan_lines_spec in Hs.
  - destruct Hs as [Hp [d Hq]]. rewrite Hp, Hq.
    rewrite lookup_insert_ne by congruence. exact Hr.
  - unfold reset; simpl. rewrite lookup_insert_eq. eauto.
Qed.


(** The store after [read_piece_svg]: the one before, or the one before
    with a fragment bound to the symbol in the theme. *)
Lemma read_piece_svg_store (css : string) (p : Piece) (st : store) :
  snd (fst (read_piece_svg E css p st)) = st \/
  exists theme fragment,
    fst (fst (read_piece_svg E css p st)) = Ok tt /\
    SVG_PIECES st !! css = Some theme /\
    snd (fst (read_piece_svg E css p st))
    = set_pieces <[css := Dict.set (symbol p) fragment theme]> st.
Proof.
  unfold read_piece_svg, store_piece.
  destruct (SVG_PATH_PIECES st !! css) as [paths|]; [|left; reflexivity].
  destruct (Dict.get (symbol p) paths) as [piece_svg|]; [|left; reflexivity].
  destruct (negb (isfile E _)); [left; reflexivity|].
  destruct (negb (String.eqb _ "svg")); [left; reflexivity|].
  destruct (fromfile_viewBox E _) as [viewBox|]; [|left; reflexivity].
  destruct (compose_SVG E _) as [svg_width|[]]; try (left; reflexivity).
  destruct (SVG_PIECES st !! css) as [theme|] eqn:Hth.
  2:{ left.
      destruct viewBox as [vb|]; [destruct (float_field E vb 2) as [q|]|];
        simpl; try reflexivity.
      - destruct (Qeq_bool q (inject_Z SQUARE_SIZE)); [reflexivity|].
        destruct (Qeq_bool q 0); reflexivity.
      - destruct svg_width as [w|]; [|reflexivity].
        destruct (Qeq_bool w (inject_Z SQUARE_SIZE)); [reflexivity|].
        destruct (Qeq_bool w 0); reflexivity. }
  destruct viewBox as [vb|].
  - destruct (float_field E vb 2) as [w|]; simpl; [|left; reflexivity].
    destruct (Qeq_bool w (inject_Z SQUARE_SIZE)); simpl.
    + right. eexists. eexists. repeat split; reflexivity.
    + destruct (Qeq_bool w 0); simpl; [left; reflexivity|].
      right. eexists. eexists. repeat split; reflexivity.
  - simpl. destruct svg_width as [w|]; simpl.
    + destruct (Qeq_bool w (inject_Z SQUARE_SIZE)); simpl.
      * right. eexists. eexists. repeat split; reflexivity.
      * destruct (Qeq_bool w 0); simpl; [left; reflexivity|].
        right. eexists. eexists. repeat split; reflexivity.
    + right. eexists. eexists. repeat split; reflexivity.
Qed.

(** X16. Loading an asset never touches the path table, no other theme,
    and no other symbol of the theme; when it raises, the store is the
    one before the call. *)
Theorem read_piece_svg_frame (css : string) (p : Piece) (st : store) :
  let after := snd (fst (read_piece_svg E css p st)) in
  SVG_PATH_PIECES after = SVG_PATH_PIECES st /\
  (forall css', css' <> css ->
                SVG_PIECES after !! css' = SVG_PIECES st !! css') /\
  (forall sym, sym <> symbol p ->
               (SVG_PIECES after !! css) ≫= Dict.get sym
               = (SVG_PIECES st !! css) ≫= Dict.get sym) /\
  (fst (fst (read_piece_svg E css p st)) <> Ok tt -> after = st).
Proof.
  intros after. subst after.
  destruct (read_piece_svg_store css p st)
    as [-> | (theme & fragment & Hok & Hth & ->)].
  - repeat split; auto.
  - repeat split; simpl.
    + intros css' Hne. apply lookup_insert_ne. congruence.
    + intros sym Hne. rewrite lookup_insert_eq, Hth. simpl.
      apply get_set_ne. exact Hne.
    + intros Hno. contradiction.
Qed.

End Tables.

Lemma populate_other_themes_witness :
  SVG_PIECES (snd (fst (get_svg_pieces_from_css Sample.env "alpha" cached)))
  !! "merida"
  = SVG_PIECES cached !! "merida".
Proof.
  apply (populate_other_themes Sample.env "alpha" "merida" cached).
  discriminate.
Defined.


Section Fragments.

Context (E : Env).


Lemma binding_absent {A : Type} (k : string) (l : list (string * A)) :
  ~ In k (map fst l) -> binding k l = None.
Proof.
  unfold binding. induction l as [|[k0 v0] l IH]; simpl; [reflexivity|].
  intros Hn. destruct (String.eqb k k0) eqn:Hk.
  - apply String.eqb_eq in Hk. exfalso. apply Hn. left. congruence.
  - apply IH. intros Hin. apply Hn. right. exact Hin.
Qed.

Lemma attrs_fold (attrs : list (string * option pyval)) (d : Dict.t)
    (k : string) :
  List.NoDup (map fst attrs) ->
  Dict.get k
    (fold_left
       (fun d kv =>
          match snd kv with
          | Some v => Dict.set (fst kv) (py_str E v) d
          | None => d
          end)
       attrs d)
  = match binding k attrs with
    | Some (Some v) => Some (py_str E v)
    | _ => Dict.get k d
    end.
Proof.
  revert d. induction attrs as [|[k0 v0] attrs IH]; intros d Hnd; simpl.
  - reflexivity.
  - inversion Hnd as [|? ? Hn Hnd']. subst.
    rewrite IH by exact Hnd'. unfold binding at 2. simpl.
    destruct (String.eqb k k0) eqn:Hk.
    + apply String.eqb_eq in Hk. subst k0.
      rewrite (binding_absent k attrs Hn). simpl.
      destruct v0 as [v|]; [apply get_set_eq|reflexivity].
    + fold (binding k attrs). apply String.eqb_neq in Hk.
      destruct (binding k attrs) as [[v|]|]; try reflexivity;
        destruct v0 as [v1|]; simpl; try reflexivity;
        apply get_set_ne; exact Hk.
Qed.

(** X18. [_attrs] keeps exactly the keys whose value is not [None], each
    with the text of its value. *)
Theorem attrs_lookup (attrs : list (string * option pyval)) (k : string) :
  List.NoDup (map fst attrs) ->
  Dict.get k (_attrs E attrs)
  = match binding k attrs with
    | Some (Some v) => Some (py_str E v)
    | _ => None
    end.
Proof.
  intros Hnd. unfold _attrs. rewrite attrs_fold by exact Hnd.
  destruct (binding k attrs) as [[v|]|]; reflexivity.
Qed.

End Fragments.


Lemma attrs_lookup_witness :
  Dict.get "opacity"
    (_attrs Sample.env [("stroke", Some (VStr "red")); ("opacity", None)])
  = None /\
  Dict.get "stroke"
    (_attrs Sample.env [("stroke", Some (VStr "red")); ("opacity", None)])
  = Some "red".
Proof.
  assert (Hnd : List.NoDup
                  (map fst [("stroke", Some (VStr "red"));
                            ("opacity", @None pyval)])).
  { repeat constructor; simpl; intuition discriminate. }
  split.
  - exact (attrs_lookup Sample.env _ "opacity" Hnd).
  - exact (attrs_lookup Sample.env _ "stroke" Hnd).
Defined.

(** ** The opacity that [_color] returns *)

Lemma substring_length (s : string) (n m : nat) :
  String.length (substring n m s) = Nat.min m (String.length s - n).
Proof.
  revert n m. induction s as [|c s IH]; intros n m; simpl.
  - destruct n, m; reflexivity.
  - destruct n as [|n]; [destruct m as [|m]|]; simpl; try reflexivity.
    + rewrite IH. rewrite Nat.sub_0_r. reflexivity.
    + apply IH.
Qed.

Lemma len_slice_head (s : string) (k : Z) :
  0 <= k <= Py.len s -> Py.len (Py.slice s None (Some k)) = k.
Proof.
  intros Hk. unfold Py.slice, Py.len in *. cbn [from_option].
  rewrite substring_length. unfold Py.clamp.
  destruct (k <? 0) eqn:Hneg; [apply Z.ltb_lt in Hneg; lia|].
  lia.
Qed.

Lemma len_slice_tail (s : string) (k : Z) :
  0 <= k <= Py.len s -> Py.len (Py.slice s (Some k) None) = Py.len s - k.
Proof.
  intros Hk. unfold Py.slice, Py.len in *. cbn [from_option].
  rewrite substring_length. unfold Py.clamp.
  destruct (k <? 0) eqn:Hneg; [apply Z.ltb_lt in Hneg; lia|].
  lia.
Qed.

(** The three ways [_color] can end. *)
Lemma color_cases (color : string) :
  _color color = (color, 1%Q) \/
  (Py.len color = 5 /\
   exists c n, Py.digit_in 16 c = Some n /\
     _color color
     = (Py.slice color None (Some 4), (inject_Z n / inject_Z 15)%Q)) \/
  (Py.len color = 9 /\
   exists n, Py.int (Py.slice color (Some 7) None) 16 = Ok n /\
     _color color
     = (Py.slice color None (Some 7), (inject_Z n / inject_Z 255)%Q)).
Proof.
  unfold _color.
  destruct (Py.startswith "#" color); [|left; reflexivity].
  destruct (Py.len color =? 5) eqn:H5.
  - apply Z.eqb_eq in H5.
    destruct (Py.item color 4) as [c|]; simpl; [|left; reflexivity].
    destruct (Py.int (String c EmptyString) 16) as [n|] eqn:Hn;
      [|left; reflexivity].
    right. left. split; [exact H5|]. exists c, n.
    split; [apply int16_one_char; exact Hn|reflexivity].
  - destruct (Py.len color =? 9) eqn:H9; [|left; reflexivity].
    apply Z.eqb_eq in H9.
    destruct (Py.int (Py.slice color (Some 7) None) 16) as [n|] eqn:Hn;
      [|left; reflexivity].
    right. right. split; [exact H9|]. exists n. split; reflexivity.
Qed.

(** X19. The color that [_color] returns carries no alpha digits any
    more: resolving it again returns it whole, with opacity 1. *)
Theorem color_strips_alpha (color : string) :
  _color (fst (_color color)) = (fst (_color color), 1%Q).
Proof.
  destruct (color_cases color)
    as [H | [[H5 (c & n & _ & H)] | [H9 (n & _ & H)]]]; rewrite H; simpl.
  - exact H.
  - apply color_fallback. intros [_ [[Hl _] | [Hl _]]];
      rewrite len_slice_head in Hl by lia; lia.
  - apply color_fallback. intros [_ [[Hl _] | [Hl _]]];
      rewrite len_slice_head in Hl by lia; lia.
Qed.

Lemma digit_in_range (base : Z) (c : ascii) (d : Z) :
  Py.digit_in base c = Some d -> 0 <= d < base.
Proof.
  unfold Py.digit_in, Py.digit_value.
  set (n := Z.of_N (N_of_ascii c)).
  destruct ((48 <=? n) && (n <=? 57)) eqn:H1.
  - destruct (n - 48 <? base) eqn:Hb; [|discriminate].
    intros H. inversion H. subst d. lia.
  - destruct ((97 <=? n) && (n <=? 122)) eqn:H2.
    + destruct (n - 87 <? base) eqn:Hb; [|discriminate].
      intros H. inversion H. subst d. lia.
    + destruct ((65 <=? n) && (n <=? 90)) eqn:H3; [|discriminate].
      destruct (n - 55 <? base) eqn:Hb; [|discriminate].
      intros H. inversion H. subst d. lia.
Qed.

(** The digit loop in base 16 reads a number below the power of the
    number of characters it is given. *)
Lemma digits_bound (l : list ascii) :
  forall (acc : Z) (seen us : bool) (v : Z) (rest : list ascii),
    0 <= acc ->
    Py.digits 16 l acc seen us = Some (v, rest) ->
    0 <= v < (acc + 1) * 16 ^ Z.of_nat (length l).
Proof.
  induction l as [|c l IH]; intros acc seen us v rest Hacc; simpl Py.digits.
  - destruct (us || negb seen); [discriminate|].
    intros H. inversion H. subst. simpl. lia.
  - assert (Hpow : 16 ^ Z.of_nat (length (c :: l))
                   = 16 * 16 ^ Z.of_nat (length l)).
    { simpl length. rewrite Nat2Z.inj_succ, Z.pow_succ_r by lia. reflexivity. }
    assert (Hp : 0 < 16 ^ Z.of_nat (length l)) by (apply Z.pow_pos_nonneg; lia).
    rewrite Hpow. set (P := 16 ^ Z.of_nat (length l)) in *.
    destruct (Ascii.eqb c "_").
    + destruct us; [discriminate|]. intros H.
      specialize (IH acc seen true v rest Hacc H). nia.
    + destruct (Py.digit_in 16 c) as [d|] eqn:Hd.
      * apply digit_in_range in Hd. intros H.
        assert (Hacc' : 0 <= acc * 16 + d) by lia.
        specialize (IH (acc * 16 + d) true false v rest Hacc' H). nia.
      * destruct (us || negb seen); [discriminate|].
        intros H. inversion H. subst. nia.
Qed.

Lemma skip_space_length (l : list ascii) :
  (length (Py.skip_space l) <= length l)%nat.
Proof.
  induction l as [|c l IH]; simpl; [lia|].
  destruct (Py.int_space c); simpl; lia.
Qed.

Lemma strip_prefix16_length (base : Z) (l : list ascii) :
  (length (Py.strip_prefix16 base l) <= length l)%nat.
Proof.
  unfold Py.strip_prefix16. destruct l as [|c0 [|c1 l]]; simpl; try lia.
  destruct ((base =? 16) && Ascii.eqb c0 "0"
            && (Ascii.eqb c1 "x" || Ascii.eqb c1 "X")); simpl; [|lia].
  destruct l as [|c2 l]; simpl; [lia|].
  destruct (Ascii.eqb c2 "_"); simpl; lia.
Qed.

(** [int(s, 16)] stays below 16 to the length of the text, in absolute
    value. *)
Lemma int16_bound (l : list ascii) (n : Z) :
  Py.int_of_chars 16 l = Some n ->
  - 16 ^ Z.of_nat (length l) < n < 16 ^ Z.of_nat (length l).
Proof.
  unfold Py.int_of_chars.
  pose proof (skip_space_length l) as Hs.
  destruct (Py.skip_space l) as [|c l1] eqn:Hl1; [discriminate|].
  set (sl := if Ascii.eqb c "+" then (1, l1)
             else if Ascii.eqb c "-" then (-1, l1) else (1, c :: l1)).
  assert (Hsl : (fst sl = 1 \/ fst sl = -1) /\
                (length (snd sl) <= length (c :: l1))%nat).
  { unfold sl. destruct (Ascii.eqb c "+"); [simpl; lia|].
    destruct (Ascii.eqb c "-"); simpl; lia. }
  destruct sl as [sign l2]. simpl in Hsl. destruct Hsl as [Hsign Hl2].
  pose proof (strip_prefix16_length 16 l2) as Hl3.
  destruct (Py.strip_prefix16 16 l2) as [|c3 l3] eqn:Hl3e; [discriminate|].
  destruct (Ascii.eqb c3 "_"); [discriminate|].
  destruct (Py.digits 16 (c3 :: l3) 0 false false) as [[v rest]|] eqn:Hd;
    [|discriminate].
  destruct (Py.skip_space rest); [|discriminate].
  intros H. inversion H. subst n.
  apply digits_bound in Hd; [|lia].
  assert (Hmono : 16 ^ Z.of_nat (length (c3 :: l3)) <= 16 ^ Z.of_nat (length l)).
  { apply Z.pow_le_mono_r; [lia|]. simpl length in *. lia. }
  destruct Hsign as [-> | ->]; lia.
Qed.

(** X20. The opacity that [_color] returns never exceeds 1, and it is
    not negative unless the literal has nine characters. *)
Theorem color_opacity_bounds (color : string) :
  (snd (_color color) <= 1)%Q /\
  (Py.len color <> 9 -> (0 <= snd (_color color))%Q).
Proof.
  destruct (color_cases color)
    as [H | [[H5 (c & n & Hd & H)] | [H9 (n & Hn & H)]]]; rewrite H; simpl.
  - split; [|intros _]; unfold Qle; simpl; lia.
  - apply digit_in_range in Hd. split; [|intros _].
    + apply Qle_shift_div_r; [reflexivity|].
      rewrite Qmult_1_l, <- Zle_Qle. lia.
    + apply Qle_shift_div_l; [reflexivity|].
      rewrite Qmult_0_l. change 0%Q with (inject_Z 0).
      rewrite <- Zle_Qle. lia.
  - split; [|intros Hne; contradiction].
    unfold Py.int in Hn.
    destruct (Py.int_of_chars 16 _) as [m|] eqn:Hm; [|discriminate].
    inversion Hn. subst m. apply int16_bound in Hm.
    assert (Hlen : Z.of_nat (length (list_ascii_of_string
                                       (Py.slice color (Some 7) None))) = 2).
    { pose proof (len_slice_tail color 7 ltac:(lia)) as Hl.
      unfold Py.len in Hl.
      assert (Hll : forall s, length (list_ascii_of_string s) = String.length s).
      { induction s; simpl; congruence. }
      rewrite Hll. unfold Py.len in H9. lia. }
    rewrite Hlen in Hm. change (16 ^ 2) with 256 in Hm.
    apply Qle_shift_div_r; [reflexivity|].
    rewrite Qmult_1_l, <- Zle_Qle. lia.
Qed.

(** ** The order of the document *)

Lemma map_tag_repeat (t : string) (l : list element) :
  Forall (fun e => tag e = t) l -> map tag l = repeat t (length l).
Proof.
  induction 1 as [|e l He _ IH]; simpl; [reflexivity|].
  rewrite He, IH. reflexivity.
Qed.

Lemma count_tag_all (t : string) (l : list element) :
  Forall (fun e => tag e = t) l -> count_tag t l = length l.
Proof.
  unfold count_tag. induction 1 as [|e l He _ IH]; simpl; [reflexivity|].
  rewrite He, String.eqb_refl. simpl. rewrite IH. reflexivity.
Qed.

Lemma children_eset (k v : string) (e : element) :
  children (eset k v e) = children e.
Proof. destruct e. reflexivity. Qed.

Section Order.

Context (E : Env).

Lemma children_grow (b : Board) (coordinates : bool) (margin : Z) (l : locals) :
  children (svg (grow b coordinates margin l)) = children (svg l).
Proof.
  unfold grow. destruct coordinates; [|reflexivity].
  destruct l as [s w h]. destruct w, h; simpl;
    rewrite ?children_eset; reflexivity.
Qed.

Lemma children_root (width height : option pyval) (x y : Z) :
  children (_svg E x y width height) = [].
Proof. unfold _svg. destruct width, height; reflexivity. Qed.

(** X21. For a call without background, last move, check, highlighted
    squares and arrows, with sizes of at most 4300 digits, on a theme
    whose fragments parse, and with coordinates either not requested or
    requested under a key of [pychess.COORDS], [board] does not fail
    and prints nothing, and the children of the document come in this
    order: the style block if the caller passed colors, the
    definitions, one rectangle per cell, the coordinate labels if
    requested (two per file, two per rank), one [use] per occupied
    cell. *)
Theorem document_order (css : string) (a : Arg.t) (st : store) (b : Board)
    (defs : list element)
    (labels : (Z -> Z -> string) * (Z -> Z -> string)) :
  Arg.board a = Some b ->
  sizes_printable a b ->
  Arg.lastmove a = None -> Arg.check a = None -> Arg.squares a = None ->
  Arg.arrows a = [] ->
  truthy_str (Arg.background_image a) = false ->
  defs_fragments E st css b = Ok defs ->
  (truthy_str (Arg.coordinates a) = true ->
   COORDS E (default EmptyString (Arg.coordinates a)) = Some labels) ->
  exists root,
    board_tree E css a st = (Ok root, []) /\
    map tag (children root)
    = ((match Arg.colors a with Some (_ :: _) => ["style"] | _ => [] end)
       ++ ["defs"]
       ++ repeat "rect" (Z.to_nat (rows b) * Z.to_nat (cols b))
       ++ repeat "text"
            (if truthy_str (Arg.coordinates a)
             then 2 * Z.to_nat (cols b) + 2 * Z.to_nat (rows b) else 0)
       ++ repeat "use"
            (length (List.filter
                       (occupied b (xorb (Arg.orientation a) (Arg.flipped a)))
                       (grid_indices b))))%list.
Proof.
  intros Hb _ Hl Hc Hs Ha Hbg Hdefs Hkey.
  unfold board_tree. rewrite Hb.
  assert (Hp : prepare E css a b st = Ok (None, defs, None)).
  { unfold prepare. rewrite Hl, Hdefs, Hs, Hc. reflexivity. }
  rewrite Hp. unfold frame, background. rewrite Hbg. cbv zeta.
  match goal with
  | |- context [grow b ?c ?m ?l] =>
      pose proof (children_grow b c m l) as Hg;
      set (root0 := svg (grow b c m l)) in *
  end.
  assert (Hroot : map tag (children root0)
                  = ((match Arg.colors a with
                      | Some (_ :: _) => ["style"] | _ => [] end)
                     ++ ["defs"])%list).
  { rewrite Hg. simpl svg.
    destruct (Arg.colors a) as [[|c cs]|];
      rewrite ?append_extend; simpl; rewrite children_root; reflexivity. }
  unfold draw. rewrite Hs, Ha.
  destruct (squares_step E b (xorb (Arg.orientation a) (Arg.flipped a))
              (truthy_str (Arg.coordinates a))
              (if truthy_str (Arg.coordinates a) then 15 else 0) None root0)
    as (d1 & -> & L1 & F1).
  cbn [bind].
  assert (H2 : exists d2,
            (if truthy_str (Arg.coordinates a)
             then coordinate_labels E b
                    (xorb (Arg.orientation a) (Arg.flipped a))
                    (default EmptyString (Arg.coordinates a))
                    (if truthy_str (Arg.coordinates a) then 15 else 0)
                    (extend d1 root0)
             else Ok (extend d1 root0))
            = Ok (extend d2 (extend d1 root0)) /\
            length d2
            = (if truthy_str (Arg.coordinates a)
               then 2 * Z.to_nat (cols b) + 2 * Z.to_nat (rows b)
               else 0)%nat /\
            Forall (fun e => tag e = "text") d2).
  { destruct (truthy_str (Arg.coordinates a)).
    - apply (labels_step E _ _ _ _ _ labels). apply Hkey. reflexivity.
    - exists []. rewrite extend_nil. repeat split. constructor. }
  destruct H2 as (d2 & -> & L2 & F2). cbn [bind].
  destruct (pieces_step E b (xorb (Arg.orientation a) (Arg.flipped a))
              (truthy_str (Arg.coordinates a))
              (if truthy_str (Arg.coordinates a) then 15 else 0) None
              (extend d2 (extend d1 root0)))
    as (d3 & -> & C3 & F3).
  cbn [bind foldM]. eexists. split; [reflexivity|].
  specialize (F3 eq_refl).
  unfold extend; simpl children.
  rewrite !map_app, Hroot, (map_tag_repeat _ _ F1), (map_tag_repeat _ _ F2),
    (map_tag_repeat _ _ F3), L1, L2.
  rewrite <- (count_tag_all _ _ F3), C3.
  rewrite <- !app_assoc. reflexivity.
Qed.

End Order.

Lemma document_order_witness :
  exists root,
    board_tree Sample.env "merida" (without_background wood_with_coordinates)
      Sample.populated
    = (Ok root, []) /\
    map tag (children root)
    = ("defs" :: repeat "rect" 64 ++ repeat "text" 32)%list.
Proof.
  destruct (document_order Sample.env "merida"
              (without_background wood_with_coordinates)
              Sample.populated Sample.empty_board []
              (Sample.label, Sample.label))
    as (root & Hr & Ht); try reflexivity.
  - repeat split.
  - exists root. split; [exact Hr|]. rewrite Ht. reflexivity.
Defined.

(** ** Population never fails on its own *)

Section Scan.

Context (E : Env).

Lemma scan_line_ok (css line : string) (st : store) (a : accum) :
  is_Some (SVG_PATH_PIECES st !! css) ->
  exists st' a', scan_line E css line (st, a) = Ok (st', a').
Proof.
  intros [d Hd]. unfold scan_line.
  destruct (String.eqb (Py.strip line) EmptyString); [eauto|].
  match goal with
  | |- context [if ?c then bind (store_path css ?s ?u st) _ else _] =>
      destruct c; [|eauto]
  end.
  unfold store_path. rewrite Hd. simpl. eauto.
Qed.

Lemma scan_lines_ok (css : string) (lines : list string) (st : store)
    (a : accum) :
  is_Some (SVG_PATH_PIECES st !! css) ->
  exists st' a', scan_lines E css lines (st, a) = Ok (st', a').
Proof.
  revert st a. induction lines as [|line rest IH]; intros st a Hsome.
  - simpl. eauto.
  - change (scan_lines E css (line :: rest) (st, a))
      with (bind (scan_line E css line (st, a))
              (fun s => scan_lines E css rest s)).
    destruct (scan_line_ok css line st a Hsome) as (st1 & a1 & Hl).
    rewrite Hl. unfold bind. apply IH.
    destruct (scan_line_spec E css line st st1 a a1 Hsome Hl) as [_ [d1 Hq1]].
    rewrite Hq1, lookup_insert_eq. eauto.
Qed.

(** X22. Populating a theme raises only what reading the stylesheet
    raises, when it is opened or while its lines are read: scanning the
    lines cannot fail.  Whatever the outcome, the fragment table of the
    theme is empty and the path table binds the theme afterwards. *)
Theorem populate_binds_theme (css : string) (st : store) :
  (fst (fst (get_svg_pieces_from_css E css st)) = Ok tt \/
   exists e,
     (read_lines E (css_path_of css) = Raise e \/
      exists lines, read_lines E (css_path_of css) = Ok (lines, Some e)) /\
     fst (fst (get_svg_pieces_from_css E css st)) = Raise e) /\
  SVG_PIECES (snd (fst (get_svg_pieces_from_css E css st))) !! css = Some [] /\
  is_Some (SVG_PATH_PIECES (snd (fst (get_svg_pieces_from_css E css st)))
           !! css).
Proof.
  unfold get_svg_pieces_from_css. fold (reset css st).
  assert (Hp : SVG_PIECES (reset css st) !! css = Some []).
  { unfold reset; simpl. apply lookup_insert_eq. }
  assert (Hq : is_Some (SVG_PATH_PIECES (reset css st) !! css)).
  { unfold reset; simpl. rewrite lookup_insert_eq. eauto. }
  destruct (negb (isfile E (css_path_of css)));
    [simpl; split; [left; reflexivity|split; assumption]|].
  destruct (read_lines E (css_path_of css)) as [[lines failure]|e];
    [|simpl; split;
      [right; exists e; split; [left|]; reflexivity|split; assumption]].
  destruct (scan_lines_ok css lines (reset css st) accum0 Hq)
    as (st' & a' & Hs).
  rewrite Hs. simpl.
  destruct (scan_lines_spec E css lines _ _ _ _ Hq Hs) as [Hp' [d Hq']].
  split.
  { destruct failure as [e|]; [|left; reflexivity].
    right. exists e. split; [right; exists lines|]; reflexivity. }
  split.
  - rewrite Hp'. exact Hp.
  - rewrite Hq', lookup_insert_eq. eauto.
Qed.

End Scan.

(** ** The loop over the arrows *)

Section ArrowLoop.

Context (E : Env) (b : Board) (orientation coordinates : bool)
  (margin inner_border outer_border : Z) (d : list (string * string)).

(** With a dict as scheme the color of an arrow always resolves. *)
Lemma arrow_color_dict (color : string) :
  exists resolved, arrow_color (Some d) color = Ok resolved.
Proof.
  unfold arrow_color, _select_color.
  destruct (DEFAULT_COLORS !! Py.join " " ["arrow"; color]); simpl; eauto.
Qed.

(** X23. With a dict as scheme, arrows whose squares are well formed are
    all drawn, in the order given: a circle for an arrow from a square
    to itself, a line followed by a polygon for the others. *)
Theorem arrows_drawn (arrows : list arrow) (svg : element) :
  hypot_definite E ->
  Forall (fun a => exists tf tr hf hr, arrow_squares a tf tr hf hr) arrows ->
  exists drawn,
    foldM (render_arrow E b orientation coordinates margin inner_border
             outer_border (Some d)) arrows svg
    = Ok (extend drawn svg) /\
    map tag drawn
    = flat_map (fun a => if arrow_is_circle a then ["circle"]
                         else ["line"; "polygon"]) arrows.
Proof.
  intros Hhyp Hall. revert svg.
  induction Hall as [|a arrows (tf & tr & hf & hr & Hsq) _ IH]; intros svg.
  - exists []. rewrite extend_nil. split; reflexivity.
  - destruct (arrow_color_dict (arrow_slot a)) as [resolved Hc].
    destruct (render_arrow_total E b orientation coordinates margin
                inner_border outer_border (Some d) a svg resolved
                tf tr hf hr Hhyp Hc Hsq) as (d1 & Hr & Ht & _).
    simpl foldM. rewrite Hr. cbn [bind].
    destruct (IH (extend d1 svg)) as (d2 & Hrest & Ht2).
    exists (d1 ++ d2)%list. split.
    + unfold extend in Hrest |- *. simpl in Hrest. rewrite Hrest.
      rewrite app_assoc. reflexivity.
    + simpl flat_map. rewrite map_app, Ht, Ht2. f_equal.
      unfold arrow_is_circle. destruct Hsq as (-> & -> & -> & ->).
      reflexivity.
Qed.

End ArrowLoop.

Lemma arrows_drawn_witness :
  exists drawn,
    foldM (render_arrow Sample.env Sample.empty_board true false 0 0 0
             (Some []))
      [Pair "e4" "e4"; Arrow "e2" "e4" "red"] (Element "svg" [] None [])
    = Ok (extend drawn (Element "svg" [] None [])) /\
    map tag drawn = ["circle"; "line"; "polygon"].
Proof.
  apply (arrows_drawn Sample.env Sample.empty_board true false 0 0 0 []
           [Pair "e4" "e4"; Arrow "e2" "e4" "red"] (Element "svg" [] None [])).
  - exact sample_hypot_definite.
  - repeat constructor.
    + exists 4, 3, 4, 3. repeat split; reflexivity.
    + exists 4, 1, 4, 3. repeat split; reflexivity.
Defined.

(** ** The check mark and the highlighted squares *)

Lemma count_range (x0 m n : Z) :
  length (List.filter (fun x => x =? x0) (seqZ m n))
  = if (m <=? x0) && (x0 <? m + n) then 1%nat else 0%nat.
Proof.
  remember (Z.to_nat n) as k eqn:Hk. revert m n Hk.
  induction k as [|k IH]; intros m n Hk.
  - rewrite seqZ_nil by lia. simpl.
    destruct (Z.leb_spec m x0), (Z.ltb_spec x0 (m + n)); simpl;
      reflexivity || lia.
  - rewrite seqZ_cons by lia. cbn [List.filter].
    pose proof (IH (Z.succ m) (Z.pred n) ltac:(lia)) as IH'.
    destruct (Z.eqb_spec m x0); cbn [length]; rewrite IH';
    destruct (Z.leb_spec (Z.succ m) x0),
      (Z.ltb_spec x0 (Z.succ m + Z.pred n)), (Z.leb_spec m x0),
      (Z.ltb_spec x0 (m + n)); simpl; reflexivity || lia.
Qed.

Lemma count_row (y y0 x0 : Z) (xs : list Z) :
  length (List.filter (fun yx => cell_eqb yx (y0, x0))
            (map (fun x => (y, x)) xs))
  = if y =? y0 then length (List.filter (fun x => x =? x0) xs) else 0%nat.
Proof.
  induction xs as [|x xs IH]; simpl.
  - destruct (y =? y0); reflexivity.
  - unfold cell_eqb at 1. simpl.
    destruct (y =? y0) eqn:Hy; simpl; [|exact IH].
    destruct (x =? x0); simpl; rewrite IH; reflexivity.
Qed.

Lemma count_product (ys xs : list Z) (y0 x0 : Z) :
  length (List.filter (fun yx => cell_eqb yx (y0, x0))
            (flat_map (fun y => map (fun x => (y, x)) xs) ys))
  = Nat.mul (length (List.filter (fun y => y =? y0) ys))
      (length (List.filter (fun x => x =? x0) xs)).
Proof.
  induction ys as [|y ys IH]; simpl; [reflexivity|].
  rewrite List.filter_app, length_app, IH, count_row.
  destruct (y =? y0); simpl; lia.
Qed.

(** A cell is shown at exactly one grid index when it lies on the board
    and at none otherwise. *)
Lemma count_grid_cell (b : Board) (c : Z * Z) :
  length (List.filter (fun yx => cell_eqb yx c) (grid_indices b))
  = if on_board b c then 1%nat else 0%nat.
Proof.
  destruct c as [y0 x0]. unfold grid_indices, range, on_board.
  rewrite count_product, !count_range, !Z.add_0_l. simpl.
  destruct (0 <=? y0), (y0 <? rows b), (0 <=? x0), (x0 <? cols b);
    reflexivity.
Qed.

Lemma display_swap (b : Board) (orientation : bool) (y x : Z) (c : Z * Z) :
  cell_eqb (display b orientation y x) c
  = cell_eqb (y, x) (display b orientation (fst c) (snd c)).
Proof.
  apply Bool.eq_iff_eq_true. destruct c as [c1 c2].
  unfold display, cell_eqb. destruct orientation; simpl;
    rewrite !andb_true_iff, !Z.eqb_eq; lia.
Qed.

Lemma on_board_display (b : Board) (orientation : bool) (c : Z * Z) :
  on_board b (display b orientation (fst c) (snd c)) = on_board b c.
Proof.
  apply Bool.eq_iff_eq_true. destruct c as [c1 c2].
  unfold display, on_board. destruct orientation; simpl;
    rewrite !andb_true_iff, !Z.leb_le, !Z.ltb_lt; lia.
Qed.

Lemma length_grid_indices (b : Board) :
  length (grid_indices b) = (Z.to_nat (rows b) * Z.to_nat (cols b))%nat.
Proof.
  unfold grid_indices. rewrite <- !length_range.
  induction (range (rows b)) as [|y l IH]; simpl; [reflexivity|].
  rewrite length_app, length_map, IH. reflexivity.
Qed.

Section Marks.

Context (E : Env).

(** X24. The check mark is one rectangle, drawn when the cell in check
    lies on the board and holds a piece; for an empty cell or a cell
    off the board nothing is drawn and nothing is raised. *)
Theorem check_mark_drawn (b : Board) (orientation coordinates : bool)
    (margin : Z) (check : Z * Z) (svg : element) :
  exists drawn,
    grid b (piece_cell E b orientation coordinates margin (Some check)) svg
    = Ok (extend drawn svg) /\
    count_tag "rect" drawn
    = if on_board b check && holds_piece b check then 1%nat else 0%nat.
Proof.
  set (P := fun yx : Z * Z =>
         occupied b orientation yx
         && cell_eqb (display b orientation (fst yx) (snd yx)) check).
  assert (Hcell : forall yx,
            exists l,
              (forall s, piece_cell E b orientation coordinates margin
                           (Some check) (fst yx) (snd yx) s
                         = Ok (extend l s)) /\
              count_tag "rect" l = (if P yx then 1%nat else 0%nat)).
  { intros [y x]. unfold P, piece_cell, occupied. simpl fst. simpl snd.
    destruct check as [cr cf].
    destruct (display b orientation y x) as [dr dc]. simpl fst. simpl snd.
    assert (Hsym : (cf =? dc) && (cr =? dr) = cell_eqb (dr, dc) (cr, cf)).
    { unfold cell_eqb; simpl. rewrite (Z.eqb_sym cf dc), (Z.eqb_sym cr dr).
      apply andb_comm. }
    rewrite Hsym.
    destruct (piece_at b dr dc) as [p|].
    - destruct (cell_eqb (dr, dc) (cr, cf)).
      + eexists. split.
        * intros s. rewrite !append_extend, extend_extend. reflexivity.
        * reflexivity.
      + eexists. split.
        * intros s. rewrite append_extend. reflexivity.
        * reflexivity.
    - exists []. split; [|reflexivity].
      intros s. rewrite extend_nil. reflexivity. }
  set (g := fun yx : Z * Z =>
         match piece_cell E b orientation coordinates margin (Some check)
                 (fst yx) (snd yx) (Element EmptyString [] None []) with
         | Ok e => children e
         | Raise _ => []
         end).
  exists (concat (map g (grid_indices b))). split.
  - rewrite grid_indices_fold. apply foldM_extend. intros yx s _.
    unfold g. destruct (Hcell yx) as (l & Hl & _). rewrite !Hl. reflexivity.
  - rewrite (count_tag_filter "rect" g P).
    + rewrite (List.filter_ext P
                 (fun yx => holds_piece b check
                            && cell_eqb yx (display b orientation
                                              (fst check) (snd check)))).
      * destruct (holds_piece b check).
        -- rewrite andb_true_r. simpl.
           rewrite count_grid_cell, on_board_display. reflexivity.
        -- rewrite andb_false_r. simpl.
           induction (grid_indices b); simpl; auto.
      * intros [y x]. unfold P. rewrite <- display_swap. cbn [fst snd].
        destruct (cell_eqb (display b orientation y x) check) eqn:Heq;
          [|rewrite !andb_false_r; reflexivity].
        rewrite !andb_true_r. apply cell_eqb_eq in Heq.
        unfold occupied, holds_piece. simpl fst. simpl snd.
        rewrite Heq. reflexivity.
    + intros yx. unfold g. destruct (Hcell yx) as (l & Hl & Hc).
      rewrite Hl. exact Hc.
Qed.

(** X25. With highlighted squares whose names are well formed, the
    checkerboard step draws one rectangle per cell and one glyph [#xx]
    for each grid index whose cell is among the squares. *)
Theorem highlights_drawn (b : Board) (orientation coordinates : bool)
    (margin : Z) (lastmove : option ((Z * Z) * (Z * Z)))
    (names : list string) (cells : list (Z * Z)) (svg : element) :
  names <> [] ->
  parse_squares b names = Ok cells ->
  exists drawn,
    grid b (square_cell E b orientation coordinates margin lastmove
              (Some names)) svg
    = Ok (extend drawn svg) /\
    count_tag "rect" drawn = (Z.to_nat (rows b) * Z.to_nat (cols b))%nat /\
    count_tag "use" drawn
    = length (List.filter
                (fun yx => cell_in (display b orientation (fst yx) (snd yx))
                             cells)
                (grid_indices b)) /\
    Forall (fun e => tag e = "use" -> eget "xlink:href" e = Some "#xx") drawn.
Proof.
  intros Hne Hparse.
  destruct names as [|sq rest]; [contradiction|]. clear Hne.
  assert (Hcell : forall yx : Z * Z,
            exists attrs,
              forall s,
                square_cell E b orientation coordinates margin lastmove
                  (Some (sq :: rest)) (fst yx) (snd yx) s
                = Ok (extend
                        (Element "rect" attrs None []
                         :: (if cell_in (display b orientation (fst yx)
                                           (snd yx)) cells
                             then [Element "use"
                                     (_attrs E
                                        [ ("href", Some (VStr "#xx"));
                                          ("xlink:href", Some (VStr "#xx"));
                                          ("x", Some (VInt
                                             (snd yx * SQUARE_SIZE
                                              + (if coordinates then margin
                                                 else 0))));
                                          ("y", Some (VInt
                                             (fst yx * SQUARE_SIZE
                                              + (if coordinates then margin
                                                 else 0)))) ])
                                     None []]
                             else []))
                        s)).
  { intros [y x]. simpl fst. simpl snd.
    destruct (square_cell_plain E b orientation coordinates margin lastmove
                y x) as [attrs Hplain].
    exists attrs. intros s. specialize (Hplain s).
    unfold square_cell in Hplain |- *.
    destruct (display b orientation y x) as [dr dc].
    match type of Hplain with
    | bind ?r _ = _ => destruct r as [fill|]; [|discriminate Hplain]
    end.
    cbn [bind] in Hplain |- *. rewrite Hparse. cbn [bind].
    match type of Hplain with Ok ?t = _ => set (base := t) in * end.
    injection Hplain as Hrect.
    destruct (cell_in (dr, dc) cells).
    - rewrite Hrect, append_extend, extend_extend. reflexivity.
    - rewrite Hrect. reflexivity. }
  set (g := fun yx : Z * Z =>
         match square_cell E b orientation coordinates margin lastmove
                 (Some (sq :: rest)) (fst yx) (snd yx)
                 (Element EmptyString [] None []) with
         | Ok e => children e
         | Raise _ => []
         end).
  exists (concat (map g (grid_indices b))). split; [|split; [|split]].
  - rewrite grid_indices_fold. apply foldM_extend. intros yx s _.
    unfold g. destruct (Hcell yx) as (attrs & Hl). rewrite !Hl. reflexivity.
  - rewrite (count_tag_concat "rect" g 1).
    + rewrite length_grid_indices. lia.
    + intros yx. unfold g. destruct (Hcell yx) as (attrs & Hl). rewrite Hl.
      simpl children. destruct (cell_in _ cells); reflexivity.
  - apply count_tag_filter. intros yx. unfold g.
    destruct (Hcell yx) as (attrs & Hl). rewrite Hl. simpl children.
    destruct (cell_in _ cells); reflexivity.
  - apply Forall_concat. apply Forall_map. apply Forall_forall. intros yx _.
    simpl. unfold g. destruct (Hcell yx) as (attrs & Hl). rewrite Hl.
    simpl children. destruct (cell_in _ cells); repeat constructor;
      simpl; intros H; try discriminate H; reflexivity.
Qed.

(** X26. A highlighted square whose name is malformed makes the
    checkerboard step raise what [parse_squares] raises, on every board
    that has a cell. *)
Theorem highlights_malformed (b : Board) (orientation coordinates : bool)
    (margin : Z) (lastmove : option ((Z * Z) * (Z * Z)))
    (names : list string) (e : exn) (svg : element) :
  names <> [] ->
  parse_squares b names = Raise e ->
  0 < rows b -> 0 < cols b ->
  grid b (square_cell E b orientation coordinates margin lastmove
            (Some names)) svg
  = Raise e.
Proof.
  intros Hne Hparse Hr Hc.
  destruct names as [|sq rest]; [contradiction|]. clear Hne.
  unfold grid, range.
  rewrite (seqZ_cons 0 (rows b)) by lia. simpl foldM.
  rewrite (seqZ_cons 0 (cols b)) by lia. simpl foldM.
  destruct (square_cell_plain E b orientation coordinates margin lastmove
              0 0) as [attrs Hplain].
  specialize (Hplain svg). unfold square_cell in Hplain |- *.
  destruct (display b orientation 0 0) as [dr dc].
  match type of Hplain with
  | bind ?r _ = _ => destruct r as [fill|]; [|discriminate Hplain]
  end.
  cbn [bind]. rewrite Hparse. reflexivity.
Qed.

End Marks.

Lemma highlights_drawn_witness :
  exists drawn,
    grid Sample.empty_board
      (square_cell Sample.env Sample.empty_board true false 0 None
         (Some ["a1"; "h8"])) (Element "svg" [] None [])
    = Ok (extend drawn (Element "svg" [] None [])) /\
    count_tag "rect" drawn = 64%nat /\
    count_tag "use" drawn = 2%nat.
Proof.
  destruct (highlights_drawn Sample.env Sample.empty_board true false 0 None
              ["a1"; "h8"] [(7, 0); (0, 7)] (Element "svg" [] None []))
    as (drawn & Hd & Hr & Hu & _).
  - discriminate.
  - reflexivity.
  - exists drawn. repeat split; assumption.
Defined.

Lemma highlights_malformed_witness :
  grid Sample.empty_board
    (square_cell Sample.env Sample.empty_board true false 0 None
       (Some ["a1"; "h"])) (Element "svg" [] None [])
  = Raise ValueError.
Proof.
  apply highlights_malformed; [discriminate|reflexivity|reflexivity|reflexivity].
Defined.

(** ** The document over a background image *)

Lemma foldM_extends_with {A : Type} (P : element -> Prop)
    (f : A -> element -> result element) (l : list A) :
  (forall a s s', f a s = Ok s' -> exists d, s' = extend d s /\ Forall P d) ->
  forall s s',
    foldM f l s = Ok s' -> exists d, s' = extend d s /\ Forall P d.
Proof.
  intros Hf. induction l as [|a l IH]; intros s s'; simpl.
  - intros H. inversion H. exists []. split; [|constructor].
    symmetry. apply extend_nil.
  - intros H. apply bind_ok in H as (s1 & H1 & H).
    destruct (Hf _ _ _ H1) as (d1 & -> & F1).
    destruct (IH _ _ H) as (d2 & -> & F2).
    exists (d1 ++ d2)%list. split; [apply extend_extend|].
    apply Forall_app. split; assumption.
Qed.

Section Over.

Context (E : Env).

(** What [no_square] excludes: the rectangle of a board square, whose
    class starts with [square], and the highlight glyph, which has an
    [href]. *)
Lemma square_is_excluded (b : Board) (orientation coordinates : bool)
    (margin : Z) (lastmove : option ((Z * Z) * (Z * Z))) (y x : Z)
    (s s' : element) :
  square_cell E b orientation coordinates margin lastmove None y x s = Ok s' ->
  exists r, s' = extend [r] s /\ tag r = "rect" /\ ~ no_square r.
Proof.
  unfold square_cell. destruct (display b orientation y x) as [dr dc].
  intros H. apply bind_ok in H as (fill & _ & H). inversion H.
  rewrite append_extend. eexists. split; [reflexivity|].
  split; [reflexivity|]. intros [Hrect _]. specialize (Hrect eq_refl).
  unfold eget in Hrect. cbn in Hrect.
  destruct (dc mod 2 =? dr mod 2);
    destruct lastmove as [[lf lt]|];
    try destruct (cell_in (dr, dc) [lf; lt]); discriminate Hrect.
Qed.

Lemma glyph_is_excluded (x y : Z) :
  ~ no_square
      (Element "use"
         (_attrs E [ ("href", Some (VStr "#xx"));
                     ("xlink:href", Some (VStr "#xx"));
                     ("x", Some (VInt x));
                     ("y", Some (VInt y)) ])
         None []).
Proof. intros [_ Huse]. specialize (Huse eq_refl). discriminate Huse. Qed.

(** With [render_squares] false the drawing steps add neither a square
    nor a highlight glyph, whatever the last move and the highlighted
    squares of the call. *)
Lemma draw_over_background (a : Arg.t) (b : Board)
    (lastmove : option ((Z * Z) * (Z * Z))) (check : option (Z * Z))
    (svg svg' : element) :
  draw E a b lastmove check false svg = Ok svg' ->
  exists drawn, svg' = extend drawn svg /\ Forall no_square drawn.
Proof.
  unfold draw. cbn [bind]. intros H.
  apply bind_ok in H as (s2 & H2 & H).
  apply bind_ok in H as (s3 & H3 & H4).
  assert (Htext : forall x y size label, no_square (text_label x y size label)).
  { intros. split; intros Ht; discriminate Ht. }
  assert (E2 : exists d, s2 = extend d svg /\ Forall no_square d).
  { destruct (truthy_str (Arg.coordinates a)).
    - unfold coordinate_labels in H2.
      apply bind_ok in H2 as (t & Ht & H2).
      assert (Ha : exists d, t = extend d svg /\ Forall no_square d).
      { revert Ht. apply foldM_extends_with. intros i s s' Hs.
        apply bind_ok in Hs as (labels & _ & Hs). inversion Hs.
        rewrite !append_extend, extend_extend. eexists.
        split; [reflexivity|]. repeat constructor; discriminate. }
      assert (Hb : exists d, s2 = extend d t /\ Forall no_square d).
      { revert H2. apply foldM_extends_with. intros i s s' Hs.
        apply bind_ok in Hs as (labels & _ & Hs). inversion Hs.
        rewrite !append_extend, extend_extend. eexists.
        split; [reflexivity|]. repeat constructor; discriminate. }
      destruct Ha as (d1 & -> & F1). destruct Hb as (d2 & -> & F2).
      rewrite extend_extend. eexists. split; [reflexivity|].
      apply Forall_app. split; assumption.
    - inversion H2. exists []. split; [|constructor].
      symmetry. apply extend_nil. }
  assert (E3 : exists d, s3 = extend d s2 /\ Forall no_square d).
  { rewrite grid_indices_fold in H3. revert H3.
    apply foldM_extends_with. intros [y x] s s'.
    unfold piece_cell. cbn [fst snd].
    destruct (display b _ y x) as [dr dc].
    destruct (piece_at b dr dc) as [p|].
    - destruct check as [[cr cf]|];
        [destruct ((cf =? dc) && (cr =? dr))|];
        intros Hs; inversion Hs;
        rewrite !append_extend, ?extend_extend; eexists;
        (split; [reflexivity|]);
        repeat constructor; intros Ht; try discriminate Ht; reflexivity.
    - intros Hs. inversion Hs. exists []. split; [|constructor].
      symmetry. apply extend_nil. }
  assert (E4 : exists d, svg' = extend d s3 /\ Forall no_square d).
  { revert H4. apply foldM_extends_with. intros ar s s' Hr.
    apply render_arrow_inv in Hr.
    destruct Hr as (? & tf & tr & hf & hr & d & _ & _ & Hd & ->).
    exists d. split; [reflexivity|].
    apply arrow_elements_inv in Hd. destruct Hd as [Htags _].
    destruct (cell_eqb (hf, hr) (tf, tr)).
    - destruct d as [|e1 [|e2 d]]; try discriminate Htags.
      inversion Htags as [Ht1]. repeat constructor;
        intros Ht; rewrite Ht1 in Ht; discriminate Ht.
    - destruct d as [|e1 [|e2 [|e3 d]]]; try discriminate Htags.
      inversion Htags as [[Ht1 Ht2]]. repeat constructor;
        intros Ht; rewrite ?Ht1, ?Ht2 in Ht; discriminate Ht. }
  destruct E2 as (d2 & -> & F2), E3 as (d3 & -> & F3), E4 as (d4 & -> & F4).
  rewrite !extend_extend. eexists. split; [reflexivity|].
  repeat (apply Forall_app; split); assumption.
Qed.

(** X27. Whenever [board] returns a document for a call with a raster
    background that can be read, the only event is the opening of the
    image, and the document holds the style block if colors were
    passed, the definitions, then the image, placed at the margin with
    the pixel size of the board, then what is drawn over it, in which
    there is no square and no highlight glyph, whatever last move and
    highlighted squares were requested. *)
Theorem raster_background_document (css : string) (a : Arg.t) (st : store)
    (b : Board) (image bytes : string) (root : element) (ev : list event) :
  Arg.board a = Some b ->
  Arg.background_image a = Some image -> image <> EmptyString ->
  Py.endswith ".svg" (Py.lower image) = false ->
  read_bytes E (path_join BOARD_IMAGES image) = Ok bytes ->
  board_tree E css a st = (Ok root, ev) ->
  ev = [Open (path_join BOARD_IMAGES image)] /\
  exists defs picture drawn,
    children root
    = ((match Arg.colors a with
        | Some (c :: cs) =>
            [Element "style" [] (Some (_colors_to_css (c :: cs))) []]
        | _ => []
        end)
       ++ [Element "defs" [] None defs; picture] ++ drawn)%list /\
    tag picture = "image" /\
    eget "x" picture
    = Some (pretty (if truthy_str (Arg.coordinates a) then 15 else 0)) /\
    eget "y" picture
    = Some (pretty (if truthy_str (Arg.coordinates a) then 15 else 0)) /\
    eget "width" picture = Some (pretty (cols b * SQUARE_SIZE)) /\
    eget "height" picture = Some (pretty (rows b * SQUARE_SIZE)) /\
    Forall no_square drawn.
Proof.
  intros Hb Himg Hne Hkind Hread. unfold board_tree. rewrite Hb.
  destruct (prepare E css a b st) as [[[lastmove defs] check]|];
    [|intros H; discriminate H].
  unfold frame, background. rewrite Himg.
  assert (Ht : truthy_str (Some image) = true).
  { simpl. destruct (String.eqb_spec image EmptyString);
      [contradiction|reflexivity]. }
  rewrite Ht. cbn [default from_option id]. rewrite Hkind.
  unfold background_raster. rewrite Hread. cbv zeta.
  match goal with
  | |- context [grow b ?c ?m ?l] =>
      pose proof (children_grow b c m l) as Hg;
      set (root0 := svg (grow b c m l)) in *
  end.
  intros H. inversion H as [[Hdraw Hev]]. clear H. split; [reflexivity|].
  apply draw_over_background in Hdraw. destruct Hdraw as (drawn & -> & Hno).
  eexists defs, _, drawn. split; [|repeat split; try exact Hno].
  - unfold extend; simpl children. rewrite Hg. unfold canvas. simpl svg.
    destruct (Arg.colors a) as [[|c cs]|];
      rewrite ?append_extend; unfold extend; simpl;
      rewrite children_root; reflexivity.
  - reflexivity.
  - reflexivity.
  - reflexivity.
  - reflexivity.
  - reflexivity.
Qed.

(** X28. Whenever [board] returns a document for a call with a vector
    background that is read, parsed to an [svg] root and given a scale,
    the only event is the opening of the file, and the group that
    holds the children of that root is the second child of the
    document: after the definitions, or between the style block and
    the definitions when colors were passed.  What is drawn over it
    follows, without a square or a highlight glyph. *)
Theorem vector_background_document (css : string) (a : Arg.t) (st : store)
    (b : Board) (image bg_svg : string) (bg_tree bg_group root : element)
    (ev : list event) :
  Arg.board a = Some b ->
  Arg.background_image a = Some image -> image <> EmptyString ->
  Py.endswith ".svg" (Py.lower image) = true ->
  read_text E (path_join BOARD_IMAGES image) = Ok bg_svg ->
  fromstring E (background_text bg_svg) = Ok bg_tree ->
  Py.endswith "svg" (tag bg_tree) = true ->
  background_group E b (if truthy_str (Arg.coordinates a) then 15 else 0)
    bg_tree = Ok bg_group ->
  board_tree E css a st = (Ok root, ev) ->
  ev = [Open (path_join BOARD_IMAGES image)] /\
  tag bg_group = "g" /\
  children bg_group = children bg_tree /\
  exists defs drawn,
    children root
    = ((match Arg.colors a with
        | Some (c :: cs) =>
            [Element "style" [] (Some (_colors_to_css (c :: cs))) [];
             bg_group;
             Element "defs" [] None defs]
        | _ => [Element "defs" [] None defs; bg_group]
        end)
       ++ drawn)%list /\
    Forall no_square drawn.
Proof.
  intros Hb Himg Hne Hkind Hread Hparse Hroot Hgroup.
  assert (Hg1 : tag bg_group = "g" /\ children bg_group = children bg_tree).
  { unfold background_group in Hgroup.
    apply bind_ok in Hgroup. destruct Hgroup as (size & _ & Hgroup).
    apply bind_ok in Hgroup. destruct Hgroup as (sx & _ & Hgroup).
    apply bind_ok in Hgroup. destruct Hgroup as (sy & _ & Hgroup).
    inversion Hgroup. split; reflexivity. }
  destruct Hg1 as [Htag Hch].
  unfold board_tree. rewrite Hb.
  destruct (prepare E css a b st) as [[[lastmove defs] check]|];
    [|intros H; discriminate H].
  unfold frame, background. rewrite Himg.
  assert (Ht : truthy_str (Some image) = true).
  { simpl. destruct (String.eqb_spec image EmptyString);
      [contradiction|reflexivity]. }
  rewrite Ht. cbn [default from_option id]. rewrite Hkind.
  unfold background_svg. rewrite Hread. cbv zeta.
  rewrite Hparse, Hroot.
  cbn [svg]. rewrite Hgroup.
  match goal with
  | |- context [grow b ?c ?m ?l] =>
      pose proof (children_grow b c m l) as Hg;
      set (root0 := svg (grow b c m l)) in *
  end.
  intros H. inversion H as [[Hdraw Hev]]. clear H.
  split; [reflexivity|]. split; [exact Htag|]. split; [exact Hch|].
  apply draw_over_background in Hdraw. destruct Hdraw as (drawn & -> & Hno).
  exists defs, drawn. split; [|exact Hno].
  unfold extend; simpl children. rewrite Hg. unfold canvas. simpl svg.
  destruct (Arg.colors a) as [[|c cs]|];
    rewrite ?append_extend; unfold insert_child, extend; simpl;
    rewrite children_root; reflexivity.
Qed.

End Over.

Lemma raster_background_document_witness :
  snd (board_tree raster_env "merida" marble_jpg Sample.populated)
  = [Open "pychess-variants/static/images/board/marble.jpg"].
Proof.
  apply (raster_background_document raster_env "merida" marble_jpg
           Sample.populated Sample.empty_board "marble.jpg" "bytes"
           match fst (board_tree raster_env "merida" marble_jpg
                        Sample.populated) with
           | Ok root => root
           | Raise _ => Element "svg" [] None []
           end
           (snd (board_tree raster_env "merida" marble_jpg Sample.populated))
           eq_refl eq_refl).
  - discriminate.
  - reflexivity.
  - reflexivity.
  - vm_compute. reflexivity.
Defined.

Lemma vector_background_document_witness :
  snd (board_tree Sample.env "merida" wood_with_coordinates Sample.populated)
  = [Open "pychess-variants/static/images/board/wood.svg"].
Proof.
  apply (vector_background_document Sample.env "merida"
           wood_with_coordinates Sample.populated Sample.empty_board
           "wood.svg" Sample.wood_svg Sample.wood_root
           (Element "g"
              [("transform", "translate(15, 15) scale(360/360, 360/360)")]
              None [])
           match fst (board_tree Sample.env "merida" wood_with_coordinates
                        Sample.populated) with
           | Ok root => root
           | Raise _ => Element "svg" [] None []
           end
           (snd (board_tree Sample.env "merida" wood_with_coordinates
                   Sample.populated))
           eq_refl eq_refl).
  - discriminate.
  - reflexivity.
  - reflexivity.
  - reflexivity.
  - reflexivity.
  - reflexivity.
  - vm_compute. reflexivity.
Defined.

(** ** The background step that fails *)

Section Failure.

Context (E : Env).


End Failure.


(** The same call as a document: the failure after the rebinding leaves
    the caller's width on the root, where the call without the
    reference has the width grown by the margin. *)
Lemma late_failure_rebinds_size :
  (exists root ev,
     board_tree short_env "merida" short_viewbox Sample.populated
     = (Ok root, ev) /\
     eget "width" root = Some "400") /\
  (exists root ev,
     board_tree short_env "merida" (without_background short_viewbox)
       Sample.populated
     = (Ok root, ev) /\
     eget "width" root = Some "390").
Proof.
  split; eexists; eexists; (split; [vm_compute; reflexivity|reflexivity]).
Qed.

